(** * wallix_ssh: a shallow embedding of the bastion client

    The embedding follows [wallix_ssh.py].  Devices are the duck-typed JSON
    dictionaries the script passes around, so they are modelled as JSON
    values with association lists for objects; the methods of
    [WallixManager] are functions in a state-and-exception monad over a
    [world] that holds the two files, the clock, the bastion's replies and
    the trace of everything the run has emitted.

    What lies outside the script is kept abstract: the bastion is the list
    of its replies, the regular expression engine and the directory of the
    files to deploy are fields of the environment, a subprocess is its exit
    status, the screen and the log are the trace.  Standard input is the
    list of the lines to come; the two loops that read it, and the retry of
    [search_devices], recurse on that list. *)

From Stdlib Require Import List String Ascii ZArith NArith Bool Lia Sorted.
From Stdlib Require Import DecimalString DecimalZ.
Import ListNotations.
Open Scope string_scope.

(** ** Python strings *)

Module Py.

(** [str.lower] and [str.upper], on the ASCII letters (strings are byte
    strings here). *)
Definition lower_char (c : ascii) : ascii :=
  let n := N_of_ascii c in
  if ((65 <=? n) && (n <=? 90))%N then ascii_of_N (n + 32) else c.

Definition upper_char (c : ascii) : ascii :=
  let n := N_of_ascii c in
  if ((97 <=? n) && (n <=? 122))%N then ascii_of_N (n - 32) else c.

Fixpoint lower (s : string) : string :=
  match s with
  | EmptyString => EmptyString
  | String c s' => String (lower_char c) (lower s')
  end.

Fixpoint upper (s : string) : string :=
  match s with
  | EmptyString => EmptyString
  | String c s' => String (upper_char c) (upper s')
  end.

(** The ASCII characters [str.strip] removes. *)
Definition is_space (c : ascii) : bool :=
  let n := N_of_ascii c in
  (((9 <=? n) && (n <=? 13)) || ((28 <=? n) && (n <=? 32)))%N.

Fixpoint lstrip (s : string) : string :=
  match s with
  | EmptyString => EmptyString
  | String c s' => if is_space c then lstrip s' else s
  end.

Fixpoint rstrip (s : string) : string :=
  match s with
  | EmptyString => EmptyString
  | String c s' =>
      match rstrip s' with
      | EmptyString => if is_space c then EmptyString else String c EmptyString
      | r => String c r
      end
  end.

Definition strip (s : string) : string := rstrip (lstrip s).

(** [s.split(sep)] for a one-character separator: never empty, the empty
    string splits into one empty piece. *)
Fixpoint split (sep : ascii) (s : string) : list string :=
  match s with
  | EmptyString => [EmptyString]
  | String c s' =>
      if Ascii.eqb c sep then EmptyString :: split sep s'
      else match split sep s' with
           | [] => [String c EmptyString]
           | piece :: pieces => String c piece :: pieces
           end
  end.

(** [s.startswith(q)]. *)
Fixpoint startswith (q s : string) : bool :=
  match q, s with
  | EmptyString, _ => true
  | String a q', String b s' => Ascii.eqb a b && startswith q' s'
  | String _ _, EmptyString => false
  end.

(** [q in s] on strings. *)
Fixpoint contains (q s : string) : bool :=
  startswith q s ||
  match s with
  | EmptyString => false
  | String _ s' => contains q s'
  end.

(** [sep.join(l)] on a list of strings. *)
Fixpoint join (sep : string) (l : list string) : string :=
  match l with
  | [] => EmptyString
  | [x] => x
  | x :: l' => x ++ sep ++ join sep l'
  end.

Definition comma : ascii := ","%char.
Definition colon : ascii := ":"%char.

(** Decimal rendering of an integer, as [str(n)] and f-strings do. *)
Definition dec (z : Z) : string := NilEmpty.string_of_int (Z.to_int z).

End Py.

(** ** JSON values, as [json.load] and [response.json()] build them

    Only the fragment the tool reads and writes: [None], strings, lists and
    dictionaries with string keys.  A dictionary is the list of its items
    in insertion order, with distinct keys. *)

#[local] Set Warnings "-register-all".
Inductive value : Type :=
| VNone
| VStr (s : string)
| VList (l : list value)
| VDict (d : list (string * value)).

(** The exceptions the script can meet.  All but [SystemExit] are caught by
    [except Exception]. *)
Inductive exn : Type :=
| KeyError
| TypeError
| IndexError
| AttributeError
| ValueError          (* includes json.JSONDecodeError *)
| EOFError
| ReError             (* re.error *)
| FileNotFoundError
| OSError
| RequestException
| SystemExit (code : Z).

Inductive result (A : Type) : Type :=
| Ok (a : A)
| Raise (e : exn).
Arguments Ok {A} a.
Arguments Raise {A} e.

Definition rbind {A B} (r : result A) (k : A -> result B) : result B :=
  match r with
  | Ok a => k a
  | Raise e => Raise e
  end.

Declare Scope py_scope.
Delimit Scope py_scope with py.
Notation "x <~ c ;; k" := (rbind c (fun x => k))
  (at level 61, c at next level, right associativity) : py_scope.
Open Scope py_scope.

(** A list comprehension whose body can raise: left to right, stopping at
    the first exception. *)
Fixpoint mapR {A B} (f : A -> result B) (l : list A) : result (list B) :=
  match l with
  | [] => Ok []
  | x :: l' => y <~ f x ;; ys <~ mapR f l' ;; Ok (y :: ys)
  end.

(** A filtering comprehension [[x for x in l if p(x)]]. *)
Fixpoint filterR {A} (p : A -> result bool) (l : list A) : result (list A) :=
  match l with
  | [] => Ok []
  | x :: l' =>
      b <~ p x ;; ys <~ filterR p l' ;; Ok (if b then x :: ys else ys)
  end.

(** [all(p(x) for x in l)]: lazy, stops at the first false. *)
Fixpoint allR {A} (p : A -> result bool) (l : list A) : result bool :=
  match l with
  | [] => Ok true
  | x :: l' => b <~ p x ;; if b then allR p l' else Ok false
  end.

Fixpoint assoc (k : string) (d : list (string * value)) : option value :=
  match d with
  | [] => None
  | (k', v) :: d' => if String.eqb k k' then Some v else assoc k d'
  end.

(** [v[k]] for a string key. *)
Definition getitem (v : value) (k : string) : result value :=
  match v with
  | VDict d => match assoc k d with Some x => Ok x | None => Raise KeyError end
  | _ => Raise TypeError
  end.

(** [v.get(k, default)]. *)
Definition py_get (v : value) (k : string) (default : value) : result value :=
  match v with
  | VDict d => Ok (match assoc k d with Some x => x | None => default end)
  | _ => Raise AttributeError
  end.

(** [d[k] = x] on a dictionary under construction. *)
Fixpoint dict_set (k : string) (x : value) (d : list (string * value))
  : list (string * value) :=
  match d with
  | [] => [(k, x)]
  | (k', v) :: d' =>
      if String.eqb k k' then (k, x) :: d' else (k', v) :: dict_set k x d'
  end.

Fixpoint chars (s : string) : list value :=
  match s with
  | EmptyString => []
  | String c s' => VStr (String c EmptyString) :: chars s'
  end.

(** [for x in v]. *)
Definition py_iter (v : value) : result (list value) :=
  match v with
  | VList l => Ok l
  | VDict d => Ok (map (fun kv => VStr (fst kv)) d)
  | VStr s => Ok (chars s)
  | VNone => Raise TypeError
  end.

(** [len(v)]. *)
Definition py_len (v : value) : result nat :=
  match v with
  | VList l => Ok (List.length l)
  | VDict d => Ok (List.length d)
  | VStr s => Ok (String.length s)
  | VNone => Raise TypeError
  end.

(** Truth value of [v] in a condition. *)
Definition truthy (v : value) : bool :=
  match v with
  | VNone => false
  | VStr s => negb (String.eqb s "")
  | VList l => match l with [] => false | _ => true end
  | VDict d => match d with [] => false | _ => true end
  end.

(** [a == b]; dictionaries compare item by item whatever the order. *)
Fixpoint py_eq (a b : value) {struct a} : bool :=
  match a, b with
  | VNone, VNone => true
  | VStr s, VStr t => String.eqb s t
  | VList l, VList m =>
      (fix go (l m : list value) : bool :=
         match l, m with
         | [], [] => true
         | x :: l', y :: m' => py_eq x y && go l' m'
         | _, _ => false
         end) l m
  | VDict d, VDict e =>
      Nat.eqb (List.length d) (List.length e) &&
      (fix go (d : list (string * value)) : bool :=
         match d with
         | [] => true
         | (k, v) :: d' =>
             match assoc k e with
             | Some v' => py_eq v v'
             | None => false
             end && go d'
         end) d
  | _, _ => false
  end.

(** [x in l] on a list. *)
Definition py_in (x : value) (l : list value) : bool := existsb (py_eq x) l.

(** Lists and dictionaries cannot be members of a set. *)
Definition hashable (v : value) : bool :=
  match v with
  | VNone | VStr _ => true
  | VList _ | VDict _ => false
  end.

(** [x in s] on a set built from [names]: hashing [x] comes first. *)
Definition set_in (x : value) (names : list value) : result bool :=
  if hashable x then Ok (py_in x names) else Raise TypeError.

(** [repr(v)] and [str(v)], as f-strings render a value.  Quotes inside
    strings are not escaped. *)
Fixpoint py_repr (v : value) : string :=
  match v with
  | VNone => "None"
  | VStr s => "'" ++ s ++ "'"
  | VList l =>
      "[" ++ Py.join ", " (map py_repr l) ++ "]"
  | VDict d =>
      "{" ++ Py.join ", "
               (map (fun kv => "'" ++ fst kv ++ "': " ++ py_repr (snd kv)) d)
          ++ "}"
  end.

Definition py_str (v : value) : string :=
  match v with
  | VStr s => s
  | _ => py_repr v
  end.

(** A method of [str] called on [v]: anything else has no such attribute. *)
Definition as_str (v : value) : result string :=
  match v with
  | VStr s => Ok s
  | _ => Raise AttributeError
  end.

(** [sep.join(l)] on values: every item must be a string. *)
Definition py_join (sep : string) (l : list value) : result string :=
  ss <~ mapR (fun v => match v with VStr s => Ok s | _ => Raise TypeError end) l ;;
  Ok (Py.join sep ss).

(** [l[i]] on a Python list. *)
Definition index {A} (l : list A) (i : nat) : result A :=
  match nth_error l i with
  | Some x => Ok x
  | None => Raise IndexError
  end.

(** ** Devices

    A device as the bastion lists it and as the script reads it:
    [device['device_name']], [device['host']], [s['service_name']] for each
    service, [tag['key']] and [tag['value']] for each tag, and a
    description.  [api_device] is the dictionary [response.json()] yields
    for such a device. *)

Record Device : Type := mkDevice {
  device_name : string;
  host : string;
  services : list string;
  tags : list (string * string);
  description : string
}.

Definition api_service (s : string) : value :=
  VDict [("service_name", VStr s)].

Definition api_tag (t : string * string) : value :=
  VDict [("key", VStr (fst t)); ("value", VStr (snd t))].

Definition api_device (d : Device) : value :=
  VDict [("device_name", VStr (device_name d));
         ("host", VStr (host d));
         ("services", VList (map api_service (services d)));
         ("tags", VList (map api_tag (tags d)));
         ("description", VStr (description d))].

Definition api_devices (ds : list Device) : value :=
  VList (map api_device ds).

(** ** The world the script runs in *)

(** A file on disk: missing, not parseable by [json.load], or holding a
    JSON document. *)
Inductive file : Type :=
| NoFile
| Garbage
| Json (v : value).

(** What the bastion answers to one request: nothing (a
    [RequestException]: timeout, connection error) or a status and a body,
    kept as [response.json()] parses it. *)
Inductive reply : Type :=
| NoReply
| Reply (status : Z) (body : value).

Inductive level : Type := Info | Error.

(** The messages of [logger.info] and [logger.error]. *)
Inductive message : Type :=
| ForcingCacheRefresh
| CacheFound (age_str : string)
| NoCacheFound
| ErrorLoadingCache (e : exn)
| CacheSaved (n : nat)
| NewMachinesAdded (n : nat)
| ErrorSavingCache (e : exn)
| RetrievingAllMachines
| RetrievalCompleted (n : nat)
| ErrorRetrievingMachines
| RequestError (e : exn)
| ErrorUpdatingHistory (e : exn)
| ErrorReadingHistory (e : exn)
| NoConnectionHistory
| MachineNotInCurrentList
| ConnectingTo (name : value)
| FileNotFound (filename : string)
| ErrorDeployingFiles (e : exn)
| AuthenticationError
| DeviceNotFound (name : string)
| DeviceUpdated (name : string)
| ErrorUpdatingDeviceStatus (status : Z)
| ApiResponse (body : value)
| ErrorUpdatingDevice (e : exn)
| NoDevicesFound
| NoDevicesFoundAfterRefresh
| MachineNotFound (name : string)
| AskForceRefresh
| MachineNotFoundAfterRefresh
| UpdateNeedsField.

(** What [console.print] shows. *)
Inductive printed : Type :=
| PanelNewMachines
| PanelSearchResults
| PanelRecentConnections
| PanelAvailableMachines
| Table (rows : list (list value))
| PressEnterToConnect
| EnterNumber
| InvalidNumber
| PleaseEnterValidNumber
| OfferRefresh.

Inductive request : Type :=
| PostApi
| GetDevices
| PutDevice (name : string) (body : value).

(** Everything a run emits, in order. *)
Inductive event : Type :=
| Log (l : level) (m : message)
| Print (p : printed)
| Http (r : request)
| Run (cmd : string) (exit_status : Z).

(** A file of [~/.sshtools] as [connect_to_device] sees it: its content,
    already compressed and encoded in base 64, or the failure of [open]. *)
Inductive tool_file : Type :=
| Content (content_base64 : string)
| Missing
| Unreadable.

(** The configuration and the local collaborators that never change during
    a run: [sshtools] is the directory [~/.sshtools], [re_compile] is
    [re.compile(_, re.IGNORECASE)] with the resulting [pattern.search]. *)
Record environment : Type := mkEnv {
  username : string;
  bastion_host : string;
  deploy_files : list string;
  sshtools : string -> tool_file;
  re_compile : string -> option (string -> bool)
}.

(** Opening, reading, compressing and encoding one file to deploy. *)
Definition read_tool (e : environment) (filename : string) : result string :=
  match sshtools e filename with
  | Content content_base64 => Ok content_base64
  | Missing => Raise FileNotFoundError
  | Unreadable => Raise OSError
  end.

Record world : Type := mkWorld {
  env : environment;
  cache_file : file;
  history_file : file;
  now : Z;                  (* datetime.now(), in seconds *)
  password : string;        (* self.password *)
  tty : list string;        (* what is typed at getpass prompts *)
  replies : list reply;     (* the bastion's answers, one per request *)
  exits : list Z;           (* exit statuses of the ssh subprocesses *)
  trace : list event
}.

Definition set_cache_file (f : file) (w : world) : world :=
  mkWorld (env w) f (history_file w) (now w) (password w) (tty w)
          (replies w) (exits w) (trace w).

Definition set_history_file (f : file) (w : world) : world :=
  mkWorld (env w) (cache_file w) f (now w) (password w) (tty w)
          (replies w) (exits w) (trace w).

Definition set_now (t : Z) (w : world) : world :=
  mkWorld (env w) (cache_file w) (history_file w) t (password w) (tty w)
          (replies w) (exits w) (trace w).

Definition set_password (p : string) (w : world) : world :=
  mkWorld (env w) (cache_file w) (history_file w) (now w) p (tty w)
          (replies w) (exits w) (trace w).

Definition set_tty (l : list string) (w : world) : world :=
  mkWorld (env w) (cache_file w) (history_file w) (now w) (password w) l
          (replies w) (exits w) (trace w).

Definition set_replies (l : list reply) (w : world) : world :=
  mkWorld (env w) (cache_file w) (history_file w) (now w) (password w) (tty w)
          l (exits w) (trace w).

Definition set_exits (l : list Z) (w : world) : world :=
  mkWorld (env w) (cache_file w) (history_file w) (now w) (password w) (tty w)
          (replies w) l (trace w).

Definition set_trace (l : list event) (w : world) : world :=
  mkWorld (env w) (cache_file w) (history_file w) (now w) (password w) (tty w)
          (replies w) (exits w) l.

(** Time passing between two operations. *)
Definition tick (dt : N) (w : world) : world := set_now (now w + Z.of_N dt) w.

(** ** The monad: state, and exceptions that keep the state reached *)

Definition M (S A : Type) : Type := S -> result A * S.

Definition ret {S A} (a : A) : M S A := fun s => (Ok a, s).

Definition bind {S A B} (m : M S A) (k : A -> M S B) : M S B :=
  fun s => match m s with
           | (Ok a, s') => k a s'
           | (Raise e, s') => (Raise e, s')
           end.

Definition raise {S A} (e : exn) : M S A := fun s => (Raise e, s).

Definition lift {S A} (r : result A) : M S A := fun s => (r, s).

Definition gets {S A} (f : S -> A) : M S A := fun s => (Ok (f s), s).

Definition modify {S} (f : S -> S) : M S unit := fun s => (Ok tt, f s).

Notation "x <- c ;; k" := (bind c (fun x => k))
  (at level 61, c at next level, right associativity) : py_scope.
Notation "c ;; k" := (bind c (fun _ => k))
  (at level 61, right associativity) : py_scope.

(** [try: body except <caught>: handler]. *)
Definition try_catch {S A} (caught : exn -> bool) (body : M S A)
  (handler : exn -> M S A) : M S A :=
  fun s => match body s with
           | (Raise e, s') => if caught e then handler e s' else (Raise e, s')
           | r => r
           end.

(** [except Exception]: everything but [SystemExit]. *)
Definition is_exception (e : exn) : bool :=
  match e with
  | SystemExit _ => false
  | _ => true
  end.

Definition is_request_exception (e : exn) : bool :=
  match e with
  | RequestException => true
  | _ => false
  end.

Definition is_file_not_found (e : exn) : bool :=
  match e with
  | FileNotFoundError => true
  | _ => false
  end.

Definition emitted (e : event) (w : world) : world :=
  set_trace (trace w ++ [e]) w.

Definition emit (e : event) : M world unit := modify (emitted e).

(** [logger.info], [logger.error] and [console.print], as events of the
    trace.  What Rich does with the text they carry is told with [plain],
    further down. *)
Definition log (l : level) (m : message) : M world unit := emit (Log l m).
Definition print (p : printed) : M world unit := emit (Print p).

(** ** Files and the clock *)

Definition file_exists (f : file) : bool :=
  match f with
  | NoFile => false
  | _ => true
  end.

(** [json.load] of an open file. *)
Definition json_load (f : file) : result value :=
  match f with
  | Json v => Ok v
  | Garbage => Raise ValueError
  | NoFile => Raise FileNotFoundError
  end.

(** [datetime.isoformat] and [datetime.fromisoformat].  The calendar
    rendering belongs to the Python library; an instant is rendered here
    as its decimal count of seconds, which keeps what the script relies
    on: the text written is read back as the same instant, and text that
    is no timestamp is rejected with [ValueError]. *)
Definition isoformat (t : Z) : string := Py.dec t.

Definition fromisoformat (v : value) : result Z :=
  match v with
  | VStr s =>
      match NilEmpty.int_of_string s with
      | Some d => Ok (Z.of_int d)
      | None => Raise ValueError
      end
  | _ => Raise TypeError
  end.

(** ** WallixManager *)

(** The age shown by [load_cache]: [int(total_seconds / 60)] truncates,
    [//] and [%] floor. *)
Definition plural (n : Z) : string := if (1 <? n)%Z then "s" else "".

Definition format_age (cache_age : Z) : string :=
  let total_minutes := Z.quot cache_age 60 in
  let hours := (total_minutes / 60)%Z in
  let minutes := (total_minutes mod 60)%Z in
  let days := (hours / 24)%Z in
  let hours := (hours mod 24)%Z in
  (if (0 <? days)%Z then Py.dec days ++ " day" ++ plural days ++ ", " else "")
  ++ (if (0 <? hours)%Z
      then Py.dec hours ++ " hour" ++ plural hours ++ ", " else "")
  ++ Py.dec minutes ++ " minute" ++ plural minutes.

(** [load_cache]: [VNone] is Python's [None]. *)
Definition load_cache (force_refresh : bool) : M world value :=
  if force_refresh then
    log Info ForcingCacheRefresh ;; ret VNone
  else
    try_catch is_exception
      (f <- gets cache_file ;;
       if file_exists f then
         cache_data <- lift (json_load f) ;;
         stamp <- lift (getitem cache_data "timestamp") ;;
         t <- lift (fromisoformat stamp) ;;
         n <- gets now ;;
         log Info (CacheFound (format_age (n - t))) ;;
         lift (getitem cache_data "devices")
       else
         log Info NoCacheFound ;; ret VNone)
      (fun e => log Error (ErrorLoadingCache e) ;; ret VNone).

(** [f"{tag['key']}:{tag['value']}"]. *)
Definition render_tag (tag : value) : result value :=
  k <~ getitem tag "key" ;;
  v <~ getitem tag "value" ;;
  Ok (VStr (py_str k ++ ":" ++ py_str v)).

(** [[s['service_name'] for s in device.get('services', [])]]. *)
Definition service_names (device : value) : result (list value) :=
  svs <~ py_get device "services" (VList []) ;;
  l <~ py_iter svs ;;
  mapR (fun s => getitem s "service_name") l.

(** [[f"{tag['key']}:{tag['value']}" for tag in device.get('tags', [])]]. *)
Definition rendered_tags (device : value) : result (list value) :=
  tgs <~ py_get device "tags" (VList []) ;;
  l <~ py_iter tgs ;;
  mapR render_tag l.

(** The simplified record [save_cache] stores for one device. *)
Definition simplified_device (device : value) : result value :=
  nom <~ getitem device "device_name" ;;
  hote <~ getitem device "host" ;;
  svs <~ service_names device ;;
  tgs <~ rendered_tags device ;;
  descr <~ py_get device "description" (VStr "") ;;
  Ok (VDict [("nom", nom); ("hote", hote); ("services", VList svs);
             ("tags", VList tgs); ("description", descr)]).

(** [", ".join(v)]. *)
Definition join_value (v : value) : result value :=
  l <~ py_iter v ;;
  s <~ py_join ", " l ;;
  Ok (VStr s).

(** One row of the "New machines added" table. *)
Definition new_machine_row (device : value) : result (list value) :=
  sv <~ getitem device "services" ;;
  svs <~ join_value sv ;;
  tg <~ getitem device "tags" ;;
  tgs <~ join_value tg ;;
  descr <~ getitem device "description" ;;
  nom <~ getitem device "nom" ;;
  hote <~ getitem device "hote" ;;
  Ok [nom; hote; svs; tgs; descr].

(** [{device['nom'] for device in old_devices}]. *)
Definition old_names (old_devices : list value) : result (list value) :=
  mapR (fun device =>
          nom <~ getitem device "nom" ;;
          if hashable nom then Ok nom else Raise TypeError) old_devices.

(** [[device for device in simplified_devices
      if device['nom'] not in old_device_names]]. *)
Definition new_machines (old_device_names simplified_devices : list value)
  : result (list value) :=
  filterR (fun device =>
             nom <~ getitem device "nom" ;;
             b <~ set_in nom old_device_names ;;
             Ok (negb b)) simplified_devices.

(** What [save_cache] shows of the new machines, lines 164-188. *)
Definition show_new_machines (new_devices : list value) : M world unit :=
  match new_devices with
  | [] => ret tt
  | _ =>
      if Nat.ltb 10 (List.length new_devices) then
        log Info (NewMachinesAdded (List.length new_devices))
      else
        rows <- lift (mapR new_machine_row new_devices) ;;
        print PanelNewMachines ;;
        print (Table rows)
  end.

(** The comparison with the old cache, lines 159-188 of [save_cache]. *)
Definition compare_with_old (old_devices : value)
  (simplified_devices : list value) : M world unit :=
  if truthy old_devices then
    olds <- lift (py_iter old_devices) ;;
    old_device_names <- lift (old_names olds) ;;
    new_devices <- lift (new_machines old_device_names simplified_devices) ;;
    show_new_machines new_devices
  else ret tt.

Definition save_cache (devices : value) : M world unit :=
  try_catch is_exception
    (f <- gets cache_file ;;
     old_devices <-
       (if file_exists f then
          old_cache_data <- lift (json_load f) ;;
          lift (getitem old_cache_data "devices")
        else ret (VList [])) ;;
     ds <- lift (py_iter devices) ;;
     simplified_devices <- lift (mapR simplified_device ds) ;;
     n <- gets now ;;
     let cache_data :=
       VDict [("timestamp", VStr (isoformat n));
              ("devices", VList simplified_devices)] in
     modify (set_cache_file (Json cache_data)) ;;
     total <- lift (py_len devices) ;;
     log Info (CacheSaved total) ;;
     compare_with_old old_devices simplified_devices)
    (fun e => log Error (ErrorSavingCache e)).

(** [getpass.getpass]: reads a line from the terminal. *)
Definition getpass : M world string :=
  fun w => match tty w with
           | [] => (Raise EOFError, w)
           | line :: rest => (Ok line, set_tty rest w)
           end.

(** One request to the bastion: the request is recorded, the next reply of
    the world is consumed; no reply left is a connection error. *)
Definition next_reply : M world (Z * value) :=
  fun w => match replies w with
           | [] => (Raise RequestException, w)
           | NoReply :: rest => (Raise RequestException, set_replies rest w)
           | Reply status body :: rest => (Ok (status, body), set_replies rest w)
           end.

Definition send (r : request) : M world (Z * value) :=
  emit (Http r) ;; next_reply.

Definition authenticate : M world bool :=
  pw <- gets password ;;
  (if String.eqb pw "" then p <- getpass ;; modify (set_password p)
   else ret tt) ;;
  try_catch is_request_exception
    (auth_response <- send PostApi ;;
     ret (Z.eqb (fst auth_response) 204))
    (fun _ => ret false).

(** [{'key': t.split(':')[0], 'value': t.split(':')[1]}]. *)
Definition split_tag (t : value) : result value :=
  s <~ as_str t ;;
  k <~ index (Py.split Py.colon s) 0 ;;
  v <~ index (Py.split Py.colon s) 1 ;;
  Ok (VDict [("key", VStr k); ("value", VStr v)]).

(** One cached record converted back to the API's format. *)
Definition from_cache (device : value) : result value :=
  nom <~ getitem device "nom" ;;
  hote <~ getitem device "hote" ;;
  sv <~ getitem device "services" ;;
  svs <~ py_iter sv ;;
  tg <~ py_get device "tags" (VList []) ;;
  tgs <~ py_iter tg ;;
  tags <~ mapR split_tag tgs ;;
  descr <~ py_get device "description" (VStr "") ;;
  Ok (VDict [("device_name", nom); ("host", hote);
             ("services", VList (map (fun s => VDict [("service_name", s)]) svs));
             ("tags", VList tags); ("description", descr)]).

Definition status_in (status : Z) (accepted : list Z) : bool :=
  existsb (Z.eqb status) accepted.

(** The request of [get_devices], lines 228-252. *)
Definition fetch_devices : M world value :=
  log Info RetrievingAllMachines ;;
  try_catch is_request_exception
    (devices_response <- send GetDevices ;;
     if status_in (fst devices_response) [200; 206]%Z then
       let devices := snd devices_response in
       total_machines <- lift (py_len devices) ;;
       log Info (RetrievalCompleted total_machines) ;;
       save_cache devices ;;
       ret devices
     else
       log Error ErrorRetrievingMachines ;; ret (VList []))
    (fun e => log Error (RequestError e) ;; ret (VList [])).

Definition get_devices (force_refresh : bool) : M world value :=
  if negb force_refresh then
    cached_devices <- load_cache force_refresh ;;
    match cached_devices with
    | VNone => fetch_devices
    | _ =>
        l <- lift (py_iter cached_devices) ;;
        converted <- lift (mapR from_cache l) ;;
        ret (VList converted)
    end
  else fetch_devices.

(** The two icons of [get_service_icon], byte for byte as in the source. *)
Definition of_bytes (l : list nat) : string :=
  fold_right (fun n s => String (ascii_of_nat n) s) EmptyString l.

Definition icon_rdp : string := of_bytes [195; 176; 197; 184; 194; 170; 197; 184; 32].
Definition icon_ssh : string := of_bytes [195; 176; 197; 184; 194; 167; 32].

(** [x in v] for a string [x]. *)
Definition py_contains (x : string) (v : value) : result bool :=
  match v with
  | VList l => Ok (py_in (VStr x) l)
  | VDict d => Ok (existsb (fun kv => String.eqb x (fst kv)) d)
  | VStr s => Ok (Py.contains x s)
  | VNone => Raise TypeError
  end.

Definition get_service_icon (services : value) : result string :=
  rdp <~ py_contains "RDP" services ;;
  if rdp then Ok icon_rdp
  else ssh <~ py_contains "SSH" services ;;
       if ssh then Ok icon_ssh else Ok "".

(** The cells [display_devices] computes for one device. *)
Definition device_row (device : value) : result (list value) :=
  svs <~ service_names device ;;
  service_icon <~ get_service_icon (VList svs) ;;
  services_str <~ py_join ", " svs ;;
  tgs <~ rendered_tags device ;;
  tags_str <~ py_join ", " tgs ;;
  descr <~ py_get device "description" (VStr "") ;;
  name <~ getitem device "device_name" ;;
  hote <~ getitem device "host" ;;
  Ok [VStr (service_icon ++ py_str name); hote; VStr services_str;
      VStr tags_str; descr].

Definition display_devices (devices : value) : M world unit :=
  l <- lift (py_iter devices) ;;
  rows <- lift (mapR device_row l) ;;
  print (Table rows).

(** [for i, device in enumerate(results, 1)]: the numbered table of
    [search_devices]. *)
Fixpoint numbered_rows (i : Z) (l : list value) : result (list (list value)) :=
  match l with
  | [] => Ok []
  | device :: l' =>
      row <~ device_row device ;;
      rows <~ numbered_rows (i + 1) l' ;;
      Ok ((VStr (Py.dec i) :: row) :: rows)
  end.

(** [next((i for i, h in enumerate(history) if p(h)), None)]. *)
Fixpoint find_index {A} (p : A -> result bool) (l : list A)
  : result (option nat) :=
  match l with
  | [] => Ok None
  | x :: l' =>
      b <~ p x ;;
      if b then Ok (Some 0)
      else i <~ find_index p l' ;; Ok (option_map S i)
  end.

(** [history.pop(i)]. *)
Definition pop {A} (i : nat) (l : list A) : list A :=
  firstn i l ++ skipn (S i) l.

(** Only lists have [pop] and [insert]. *)
Definition as_list (v : value) : result (list value) :=
  match v with
  | VList l => Ok l
  | _ => Raise AttributeError
  end.

Definition history_entry (device : value) (t : Z) : result value :=
  name <~ getitem device "device_name" ;;
  hote <~ getitem device "host" ;;
  svs <~ service_names device ;;
  tgs <~ rendered_tags device ;;
  descr <~ py_get device "description" (VStr "") ;;
  Ok (VDict [("device_name", name); ("host", hote); ("services", VList svs);
             ("tags", VList tgs); ("description", descr);
             ("timestamp", VStr (isoformat t))]).

Definition update_history (device : value) : M world unit :=
  try_catch is_exception
    (f <- gets history_file ;;
     history <- (if file_exists f then lift (json_load f) else ret (VList [])) ;;
     items <- lift (py_iter history) ;;
     existing_index <-
       lift (find_index
               (fun h => a <~ getitem h "device_name" ;;
                         b <~ getitem device "device_name" ;;
                         Ok (py_eq a b)) items) ;;
     n <- gets now ;;
     new_entry <- lift (history_entry device n) ;;
     l <- lift (as_list history) ;;
     let l := match existing_index with
              | Some i => pop i l
              | None => l
              end in
     let l := new_entry :: l in
     let l := firstn 10 l in
     modify (set_history_file (Json (VList l))))
    (fun e => log Error (ErrorUpdatingHistory e)).

Definition get_history : M world value :=
  try_catch is_exception
    (f <- gets history_file ;;
     if file_exists f then lift (json_load f) else ret (VList []))
    (fun e => log Error (ErrorReadingHistory e) ;; ret (VList [])).

(** [subprocess.run(ssh_command, shell=True)]: the status of the child is
    taken from the world and dropped by the caller. *)
Definition subprocess_run (cmd : string) : M world unit :=
  fun w => match exits w with
           | [] => emit (Run cmd 0) w
           | status :: rest => emit (Run cmd status) (set_exits rest w)
           end.

(** The deployment loop of [connect_to_device], lines 424-433. *)
Fixpoint read_deploy_files (files : list string)
  : M world (list (string * string)) :=
  match files with
  | [] => ret []
  | filename :: rest =>
      e <- gets env ;;
      item <- try_catch is_file_not_found
                (content_base64 <- lift (read_tool e filename) ;;
                 ret [("/tmp/" ++ filename, content_base64)])
                (fun _ => log Error (FileNotFound filename) ;; ret []) ;;
      more <- read_deploy_files rest ;;
      ret (item ++ more)%list
  end.

Definition deploy_line (fc : string * string) : string :=
  "echo '" ++ snd fc ++ "' | base64 -d | gunzip > " ++ fst fc.

Definition ssh_base (user : string) (device : value) (e : environment)
  : result string :=
  name <~ getitem device "device_name" ;;
  Ok ("ssh -tt -A -p 22 " ++ user ++ "@" ++ py_str name ++ ":SSH:"
      ++ username e ++ "@" ++ bastion_host e).

Definition connect_to_device (device : value) (interactive no_deploy : bool)
  : M world unit :=
  name <- lift (getitem device "device_name") ;;
  log Info (ConnectingTo name) ;;
  update_history device ;;
  e <- gets env ;;
  let user := if interactive then "Interactive" else username e in
  ssh_command <-
    (if no_deploy then lift (ssh_base user device e)
     else if interactive then lift (ssh_base user device e)
     else
       try_catch is_exception
         (files_content <- read_deploy_files (deploy_files e) ;;
          let deploy_cmd :=
            match files_content with
            | [] => "bash -l"
            | _ =>
                Py.join " && " (map deploy_line files_content)
                ++ (if existsb (String.eqb ".bashrc_remote") (deploy_files e)
                    then " && bash --rcfile /tmp/.bashrc_remote"
                    else " && bash -l")
            end in
          base <- lift (ssh_base user device e) ;;
          ret (base ++ " '" ++ deploy_cmd ++ "'"))
         (fun ex =>
            log Error (ErrorDeployingFiles ex) ;;
            base <- lift (ssh_base user device e) ;;
            ret (base ++ " 'bash -l'"))) ;;
  subprocess_run ssh_command.

(** [next((d for d in l if p(d)), None)]. *)
Fixpoint find_first {A} (p : A -> result bool) (l : list A)
  : result (option A) :=
  match l with
  | [] => Ok None
  | d :: l' => b <~ p d ;; if b then Ok (Some d) else find_first p l'
  end.

(** [next((d for d in devices if d['device_name'] == name), None)]. *)
Definition find_device (name : string) (l : list value)
  : result (option value) :=
  find_first (fun d => n <~ getitem d "device_name" ;;
                       Ok (py_eq n (VStr name))) l.

(** [{'key': tag.split(':')[0], 'value': tag.split(':')[1]}] on an
    argument of the command line. *)
Definition parse_tag (tag : string) : result value :=
  k <~ index (Py.split Py.colon tag) 0 ;;
  v <~ index (Py.split Py.colon tag) 1 ;;
  Ok (VDict [("key", VStr k); ("value", VStr v)]).

(** What [update_device] does with the answer to its request, lines
    505-513. *)
Definition after_put (name : string) (response : Z * value) : M world bool :=
  if status_in (fst response) [200; 204]%Z then
    log Info (DeviceUpdated name) ;;
    get_devices true ;;
    ret true
  else
    log Error (ErrorUpdatingDeviceStatus (fst response)) ;;
    log Error (ApiResponse (snd response)) ;;
    ret false.

Definition update_device (name : string) (descr tags : option string)
  : M world bool :=
  try_catch is_exception
    (ok <- authenticate ;;
     if negb ok then log Error AuthenticationError ;; ret false
     else
       devices <- get_devices false ;;
       l <- lift (py_iter devices) ;;
       found <- lift (find_device name l) ;;
       match found with
       | None => log Error (DeviceNotFound name) ;; ret false
       | Some device =>
           if negb (truthy device) then
             log Error (DeviceNotFound name) ;; ret false
           else
             dn <- lift (getitem device "device_name") ;;
             hote <- lift (getitem device "host") ;;
             let update_data := [("device_name", dn); ("host", hote)] in
             d <- match descr with
                  | Some text => ret (VStr text)
                  | None => lift (py_get device "description" (VStr ""))
                  end ;;
             let update_data := dict_set "description" d update_data in
             t <- match tags with
                  | Some text =>
                      parsed <- lift (mapR parse_tag (Py.split Py.comma text)) ;;
                      ret (VList parsed)
                  | None => lift (py_get device "tags" (VList []))
                  end ;;
             let update_data := dict_set "tags" t update_data in
             response <- send (PutDevice name (VDict update_data)) ;;
             after_put name response
       end)
    (fun e => log Error (ErrorUpdatingDevice e) ;; ret false).

(** ** The search filters *)

(** [not arg] for an optional argument of the command line: absent or
    empty. *)
Definition absent (arg : option string) : bool :=
  match arg with
  | None => true
  | Some s => String.eqb s ""
  end.

(** [a or b], the right operand evaluated only when needed. *)
Definition orR (a b : result bool) : result bool :=
  x <~ a ;; if x then Ok true else b.

(** [pattern.search(v)]: only strings can be searched. *)
Definition re_search (search : string -> bool) (v : value) : result bool :=
  match v with
  | VStr s => Ok (search s)
  | _ => Raise TypeError
  end.

Definition filter_by_regex (e : environment) (filter_regex : string)
  (results : value) : result value :=
  match re_compile e filter_regex with
  | None => Raise ReError
  | Some search =>
      l <~ py_iter results ;;
      kept <~ filterR
                (fun d =>
                   orR (n <~ getitem d "device_name" ;; re_search search n)
                  (orR (h <~ getitem d "host" ;; re_search search h)
                       (x <~ py_get d "description" (VStr "") ;;
                        re_search search x))) l ;;
      Ok (VList kept)
  end.

(** [[service['service_name'].upper() for service in d.get('services', [])]]. *)
Definition upper_services (d : value) : result (list string) :=
  svs <~ py_get d "services" (VList []) ;;
  l <~ py_iter svs ;;
  mapR (fun service =>
          n <~ getitem service "service_name" ;;
          s <~ as_str n ;;
          Ok (Py.upper s)) l.

Definition filter_by_services (filter_services : string) (results : value)
  : result value :=
  let required_services :=
    map (fun s => Py.upper (Py.strip s)) (Py.split Py.comma filter_services) in
  l <~ py_iter results ;;
  kept <~ filterR
            (fun d =>
               allR (fun s =>
                       names <~ upper_services d ;;
                       Ok (existsb (String.eqb s) names)) required_services) l ;;
  Ok (VList kept).

(** [[tag.lower() for tag in d.get('tags', [])]]. *)
Definition lower_tags (d : value) : result (list string) :=
  tgs <~ py_get d "tags" (VList []) ;;
  l <~ py_iter tgs ;;
  mapR (fun tag => s <~ as_str tag ;; Ok (Py.lower s)) l.

Definition filter_by_tags (filter_tags : string) (results : value)
  : result value :=
  let required_tags :=
    map (fun t => Py.lower (Py.strip t)) (Py.split Py.comma filter_tags) in
  l <~ py_iter results ;;
  kept <~ filterR
            (fun d =>
               allR (fun t =>
                       rendered <~ lower_tags d ;;
                       Ok (existsb (String.eqb t) rendered)) required_tags) l ;;
  Ok (VList kept).

(** [query.lower() in v.lower()]. *)
Definition lower_contains (query : string) (v : value) : result bool :=
  s <~ as_str v ;;
  Ok (Py.contains (Py.lower query) (Py.lower s)).

Definition filter_by_query (query : string) (results : value) : result value :=
  l <~ py_iter results ;;
  kept <~ filterR
            (fun device =>
               orR (n <~ getitem device "device_name" ;; lower_contains query n)
              (orR (h <~ getitem device "host" ;; lower_contains query h)
                   (x <~ py_get device "description" (VStr "") ;;
                    lower_contains query x))) l ;;
  Ok (VList kept).

(** A filter that runs only when its argument is given. *)
Definition when_given (arg : option string) (f : string -> value -> result value)
  (results : value) : result value :=
  match arg with
  | Some s => if String.eqb s "" then Ok results else f s results
  | None => Ok results
  end.

(** Lines 525-550 of [search_devices]. *)
Definition apply_filters (e : environment)
  (query filter_regex filter_services filter_tags : option string)
  (devices : value) : result value :=
  results <~ when_given filter_regex (filter_by_regex e) devices ;;
  results <~ when_given filter_services filter_by_services results ;;
  results <~ when_given filter_tags filter_by_tags results ;;
  when_given query filter_by_query results.

(** ** Interaction

    The interactive parts read standard input, kept beside the world as the
    list of the lines still to come. *)

Definition io : Type := list string * world.

Definition liftW {A} (m : M world A) : M io A :=
  fun s => let (r, w) := m (snd s) in (r, (fst s, w)).

(** [input()]. *)
Definition input : M io string :=
  fun s => match fst s with
           | [] => (Raise EOFError, s)
           | line :: rest => (Ok line, (rest, snd s))
           end.

(** [int(s)] on a stripped string: an optional sign, then digits, single
    underscores allowed between digits. *)
Definition is_digit (c : ascii) : bool :=
  let n := N_of_ascii c in ((48 <=? n) && (n <=? 57))%N.

Fixpoint digits (s : string) (acc : Z) (after_digit : bool) : option Z :=
  match s with
  | EmptyString => if after_digit then Some acc else None
  | String c s' =>
      if is_digit c then
        digits s' (10 * acc + (Z.of_N (N_of_ascii c) - 48))%Z true
      else if Ascii.eqb c "_"%char && after_digit then digits s' acc false
      else None
  end.

Definition py_int (s : string) : option Z :=
  match s with
  | String "-"%char s' => option_map Z.opp (digits s' 0%Z false)
  | String "+"%char s' => digits s' 0%Z false
  | _ => digits s 0%Z false
  end.

(** [v[i]] for an integer index within bounds. *)
Definition getindex (v : value) (i : nat) : result value :=
  match v with
  | VList l => index l i
  | VStr s => index (chars s) i
  | VDict _ => Raise KeyError
  | VNone => Raise TypeError
  end.

(** The selection loop of lines 589-602 (and 649-662): it ends on [q], on
    a valid number, or with [EOFError] when the input is exhausted. *)
Fixpoint choose (results : value) (interactive no_deploy : bool)
  (inp : list string) (w : world) {struct inp} : result unit * io :=
  match inp with
  | [] => (Raise EOFError, ([], w))
  | line :: rest =>
      let choice := Py.strip line in
      if String.eqb (Py.lower choice) "q" then (Ok tt, (rest, w))
      else
        match py_int choice with
        | None =>
            choose results interactive no_deploy rest
                   (emitted (Print PleaseEnterValidNumber) w)
        | Some n =>
            let i := (n - 1)%Z in
            match py_len results with
            | Raise e => (Raise e, (rest, w))
            | Ok len =>
                if ((0 <=? i) && (i <? Z.of_nat len))%Z then
                  match (d <- lift (getindex results (Z.to_nat i)) ;;
                         connect_to_device d interactive no_deploy) w with
                  | (Raise ValueError, w') =>
                      choose results interactive no_deploy rest
                             (emitted (Print PleaseEnterValidNumber) w')
                  | (r, w') => (r, (rest, w'))
                  end
                else
                  choose results interactive no_deploy rest
                         (emitted (Print InvalidNumber) w)
            end
        end
  end.

(** Lines 553-602, repeated as lines 614-662: show the results and let the
    user connect. *)
Definition present_results (results : value) (interactive no_deploy : bool)
  : M io unit :=
  liftW (print PanelSearchResults) ;;
  len <- lift (py_len results) ;;
  if Nat.eqb len 1 then
    liftW (display_devices results) ;;
    liftW (print PressEnterToConnect) ;;
    response <- input ;;
    if negb (String.eqb (Py.lower response) "n") then
      d <- lift (getindex results 0) ;;
      liftW (connect_to_device d interactive no_deploy)
    else ret tt
  else
    l <- lift (py_iter results) ;;
    rows <- lift (numbered_rows 1 l) ;;
    liftW (print (Table rows)) ;;
    liftW (print EnterNumber) ;;
    (fun s => choose results interactive no_deploy (fst s) (snd s)).

(** [search_devices].  The retry after a refresh is a call of
    [search_devices] itself (line 612); every such call comes after a line
    of input has been read, so the recursion is on the input still to
    come. *)
Fixpoint search_devices
  (query filter_regex filter_services filter_tags : option string)
  (interactive no_deploy : bool) (inp : list string) (w : world)
  {struct inp} : result value * io :=
  match get_devices false w with
  | (Raise e, w) => (Raise e, (inp, w))
  | (Ok devices, w) =>
      if absent query && absent filter_regex && absent filter_services
         && absent filter_tags
      then (Ok devices, (inp, w))
      else
        match apply_filters (env w) query filter_regex filter_services
                            filter_tags devices with
        | Raise e => (Raise e, (inp, w))
        | Ok results =>
            if truthy results then
              match present_results results interactive no_deploy (inp, w) with
              | (Raise e, s) => (Raise e, s)
              | (Ok _, s) => (Ok results, s)
              end
            else
              let w := emitted (Log Error NoDevicesFound) w in
              let w := emitted (Print OfferRefresh) w in
              match inp with
              | [] => (Raise EOFError, ([], w))
              | line :: rest =>
                  let response :=
                    if String.eqb (Py.lower line) "" then "y"
                    else Py.lower line in
                  if String.eqb response "y" then
                    match authenticate w with
                    | (Raise e, w) => (Raise e, (rest, w))
                    | (Ok false, w) =>
                        (Ok VNone,
                         (rest, emitted (Log Error AuthenticationError) w))
                    | (Ok true, w) =>
                        match get_devices true w with
                        | (Raise e, w) => (Raise e, (rest, w))
                        | (Ok _, w) =>
                            match search_devices query filter_regex
                                    filter_services filter_tags interactive
                                    no_deploy rest w with
                            | (Raise e, s) => (Raise e, s)
                            | (Ok results, s) =>
                                if truthy results then
                                  match present_results results interactive
                                          no_deploy s with
                                  | (Raise e, s) => (Raise e, s)
                                  | (Ok _, s) => (Ok results, s)
                                  end
                                else
                                  (Ok results,
                                   (fst s,
                                    emitted (Log Error NoDevicesFoundAfterRefresh)
                                            (snd s)))
                            end
                        end
                    end
                  else (Ok results, (rest, w))
              end
        end
  end.

(** ** Connection history on screen *)

(** The cells [display_history] computes for one entry. *)
Definition history_row (i : Z) (device : value) : result (list value) :=
  svs <~ py_get device "services" (VList []) ;;
  service_icon <~ get_service_icon svs ;;
  services_str <~ join_value svs ;;
  tgs <~ py_get device "tags" (VList []) ;;
  tags_str <~ join_value tgs ;;
  descr <~ py_get device "description" (VStr "") ;;
  stamp <~ getitem device "timestamp" ;;
  t <~ fromisoformat stamp ;;
  name <~ getitem device "device_name" ;;
  hote <~ getitem device "host" ;;
  Ok [VStr (Py.dec i); VStr (service_icon ++ py_str name); hote;
      services_str; tags_str; descr; VStr (isoformat t)].

Fixpoint history_rows (i : Z) (l : list value) : result (list (list value)) :=
  match l with
  | [] => Ok []
  | device :: l' =>
      row <~ history_row i device ;;
      rows <~ history_rows (i + 1) l' ;;
      Ok (row :: rows)
  end.

(** The body of the selection loop of [display_history] for a number in
    range: [true] when the loop is left. *)
Definition reconnect (history : value) (i : nat) : M world bool :=
  devices <- get_devices false ;;
  l <- lift (py_iter devices) ;;
  found <- lift (find_first
                   (fun d => a <~ getitem d "device_name" ;;
                             h <~ getindex history i ;;
                             b <~ getitem h "device_name" ;;
                             Ok (py_eq a b)) l) ;;
  match found with
  | Some device =>
      if truthy device then connect_to_device device false false ;; ret true
      else log Error MachineNotInCurrentList ;; ret false
  | None => log Error MachineNotInCurrentList ;; ret false
  end.

(** The selection loop of [display_history], lines 373-394. *)
Fixpoint history_choice (history : value) (inp : list string) (w : world)
  {struct inp} : result unit * io :=
  match inp with
  | [] => (Raise EOFError, ([], w))
  | line :: rest =>
      let choice := Py.strip line in
      if String.eqb (Py.lower choice) "q" then (Ok tt, (rest, w))
      else
        match py_int choice with
        | None =>
            history_choice history rest
                           (emitted (Print PleaseEnterValidNumber) w)
        | Some n =>
            let i := (n - 1)%Z in
            match py_len history with
            | Raise e => (Raise e, (rest, w))
            | Ok len =>
                if ((0 <=? i) && (i <? Z.of_nat len))%Z then
                  match reconnect history (Z.to_nat i) w with
                  | (Raise ValueError, w') =>
                      history_choice history rest
                                     (emitted (Print PleaseEnterValidNumber) w')
                  | (Raise e, w') => (Raise e, (rest, w'))
                  | (Ok true, w') => (Ok tt, (rest, w'))
                  | (Ok false, w') => history_choice history rest w'
                  end
                else
                  history_choice history rest (emitted (Print InvalidNumber) w)
            end
        end
  end.

Definition display_history : M io unit :=
  history <- liftW get_history ;;
  if negb (truthy history) then liftW (log Info NoConnectionHistory)
  else
    l <- lift (py_iter history) ;;
    rows <- lift (history_rows 1 l) ;;
    liftW (print PanelRecentConnections) ;;
    liftW (print (Table rows)) ;;
    liftW (print EnterNumber) ;;
    (fun s => history_choice history (fst s) (snd s)).

(** ** The command line *)

(** The parsed arguments of [main]; options that take a value are [None]
    when not given. *)
Record arguments : Type := mkArgs {
  arg_search : option string;
  arg_list : bool;
  arg_filter : option string;
  arg_services : option string;
  arg_tags : option string;
  arg_connect : option string;
  arg_force_refresh : bool;
  arg_interactive : bool;
  arg_update : option string;
  arg_description : option string;
  arg_new_tags : option string;
  arg_no_deploy : bool;
  arg_search_term : option string
}.

Definition with_search (s : option string) (a : arguments) : arguments :=
  mkArgs s (arg_list a) (arg_filter a) (arg_services a) (arg_tags a)
         (arg_connect a) (arg_force_refresh a) (arg_interactive a)
         (arg_update a) (arg_description a) (arg_new_tags a)
         (arg_no_deploy a) (arg_search_term a).

(** [any([args.list, args.connect, args.search, args.force_refresh,
    args.update])]. *)
Definition any_action (a : arguments) : bool :=
  arg_list a || negb (absent (arg_connect a)) || negb (absent (arg_search a))
  || arg_force_refresh a || negb (absent (arg_update a)).

Definition sys_exit {S A} (code : Z) : M S A := raise (SystemExit code).

Definition text (arg : option string) : string :=
  match arg with
  | Some s => s
  | None => ""
  end.

(** The branch [elif args.connect] of [main], lines 795-819. *)
Definition connect_by_name (a : arguments) : M io unit :=
  devices <- liftW (get_devices (arg_force_refresh a)) ;;
  l <- lift (py_iter devices) ;;
  found <- lift (find_device (text (arg_connect a)) l) ;;
  match found with
  | Some device =>
      liftW (connect_to_device device (arg_interactive a) (arg_no_deploy a))
  | None =>
      liftW (log Error (MachineNotFound (text (arg_connect a)))) ;;
      liftW (log Info AskForceRefresh) ;;
      line <- input ;;
      let response :=
        if String.eqb (Py.lower line) "" then "y" else Py.lower line in
      if String.eqb response "y" then
        ok <- liftW authenticate ;;
        if negb ok then
          liftW (log Error AuthenticationError) ;; sys_exit 1
        else
          devices <- liftW (get_devices true) ;;
          l <- lift (py_iter devices) ;;
          found <- lift (find_device (text (arg_connect a)) l) ;;
          match found with
          | Some device =>
              liftW (connect_to_device device (arg_interactive a)
                                       (arg_no_deploy a))
          | None => liftW (log Error MachineNotFoundAfterRefresh)
          end
      else ret tt
  end.

(** The branch [if args.list] of [main], lines 773-793. *)
Definition list_devices (a : arguments) : M world unit :=
  devices <- get_devices (arg_force_refresh a) ;;
  e <- gets env ;;
  devices <- lift (when_given (arg_filter a) (filter_by_regex e) devices) ;;
  devices <- lift (when_given (arg_services a) filter_by_services devices) ;;
  devices <- lift (when_given (arg_tags a) filter_by_tags devices) ;;
  print PanelAvailableMachines ;;
  display_devices devices.

(** A call of [search_devices] from [main], its result dropped. *)
Definition run_search (query : option string) (a : arguments) : M io unit :=
  fun s =>
    let (r, s') := search_devices query (arg_filter a) (arg_services a)
                     (arg_tags a) (arg_interactive a) (arg_no_deploy a)
                     (fst s) (snd s) in
    (rbind r (fun _ => Ok tt), s').

(** [main], after [parse_args]. *)
Definition main (a : arguments) : M io unit :=
  let a :=
    if negb (absent (arg_search_term a)) && negb (any_action a)
    then with_search (arg_search_term a) a else a in
  (if negb (any_action a) then display_history ;; sys_exit 0 else ret tt) ;;
  (if arg_force_refresh a || negb (absent (arg_update a)) then
     ok <- liftW authenticate ;;
     if negb ok then liftW (log Error AuthenticationError) ;; sys_exit 1
     else ret tt
   else ret tt) ;;
  (if negb (absent (arg_update a)) then
     (if absent (arg_description a) && absent (arg_new_tags a) then
        liftW (log Error UpdateNeedsField) ;; sys_exit 1
      else ret tt) ;;
     liftW (update_device (text (arg_update a)) (arg_description a)
                          (arg_new_tags a)) ;;
     sys_exit 0
   else ret tt) ;;
  (if arg_force_refresh a then
     devices <- liftW (get_devices true) ;;
     (if negb (absent (arg_search a)) then
        run_search (arg_search a) a
      else if arg_list a then liftW (display_devices devices)
      else ret tt) ;;
     sys_exit 0
   else ret tt) ;;
  if arg_list a then liftW (list_devices a)
  else if negb (absent (arg_connect a)) then connect_by_name a
  else if negb (absent (arg_search a)) then run_search (arg_search a) a
  else run_search None a.

(** ** What the tool writes for well-formed devices

    The values below are the results of the code above on devices of the
    API's shape; the lemmas of the next part establish that. *)

(** The rendering ["key:value"] of a tag. *)
Definition rendered (t : string * string) : string := fst t ++ ":" ++ snd t.

(** The record of the cache file for [d] (see [simplified_device]). *)
Definition cached_device (d : Device) : value :=
  VDict [("nom", VStr (device_name d));
         ("hote", VStr (host d));
         ("services", VList (map VStr (services d)));
         ("tags", VList (map (fun t => VStr (rendered t)) (tags d)));
         ("description", VStr (description d))].

(** The cache file written at instant [t] for the devices [ds]. *)
Definition snapshot (t : Z) (ds : list Device) : value :=
  VDict [("timestamp", VStr (isoformat t));
         ("devices", VList (map cached_device ds))].

(** The history entry of a connection to [d] at [t] (see
    [history_entry]). *)
Definition entry (c : Device * Z) : value :=
  VDict [("device_name", VStr (device_name (fst c)));
         ("host", VStr (host (fst c)));
         ("services", VList (map VStr (services (fst c))));
         ("tags", VList (map (fun t => VStr (rendered t)) (tags (fst c))));
         ("description", VStr (description (fst c)));
         ("timestamp", VStr (isoformat (snd c)))].

(** [save_cache] can replace the cache file when the file is missing or
    holds a document with a ["devices"] item; otherwise reading the old
    cache raises before anything is written. *)
Definition cache_usable (f : file) : bool :=
  match f with
  | NoFile => true
  | Garbage => false
  | Json v => match getitem v "devices" with Ok _ => true | Raise _ => false end
  end.

(** Is the name of [d] one of the names of [old]? *)
Definition known (old : list Device) (d : Device) : bool :=
  existsb (String.eqb (device_name d)) (map device_name old).

(** The devices of [S2] whose name does not occur in [S1], in the order of
    [S2]. *)
Definition new_devices (S1 S2 : list Device) : list Device :=
  filter (fun d => negb (known S1 d)) S2.

(** The row of the "New machines added" table for [d]. *)
Definition new_row (d : Device) : list value :=
  [VStr (device_name d); VStr (host d);
   VStr (Py.join ", " (services d));
   VStr (Py.join ", " (map rendered (tags d)));
   VStr (description d)].

(** What the comparison with the old cache shows (lines 159-188) when the
    old cache held [S1] and [S2] is being saved. *)
Definition new_events (l : list Device) : list event :=
  match l with
  | [] => []
  | _ =>
      if Nat.ltb 10 (List.length l)
      then [Log Info (NewMachinesAdded (List.length l))]
      else [Print PanelNewMachines; Print (Table (map new_row l))]
  end.

Definition new_report (S1 S2 : list Device) : list event :=
  match S1 with
  | [] => []
  | _ => new_events (new_devices S1 S2)
  end.

(** The names shown in the tables of a list of events. *)
Definition shown_names (evs : list event) : list value :=
  flat_map (fun e => match e with
                     | Print (Table rows) => map (fun r => hd VNone r) rows
                     | _ => []
                     end) evs.

Definition entry_name (c : Device * Z) : string := device_name (fst c).

(** The history file after a connection to [d] at [t], when it held the
    entries [es]. *)
Definition same_device (d : Device) (c : Device * Z) : bool :=
  String.eqb (device_name (fst c)) (device_name d).

Fixpoint forget (d : Device) (es : list (Device * Z)) : list (Device * Z) :=
  match es with
  | [] => []
  | c :: es' => if same_device d c then es' else c :: forget d es'
  end.

Definition recorded (d : Device) (t : Z) (es : list (Device * Z))
  : list (Device * Z) :=
  firstn 10 ((d, t) :: forget d es).

(** A history file that holds the entries [es]; a missing file is the
    empty history. *)
Definition holds_history (f : file) (es : list (Device * Z)) : Prop :=
  f = Json (VList (map entry es)) \/ (f = NoFile /\ es = []).

(** The history states the tool itself produces: at most ten entries, one
    per device name, most recent first, none from the future. *)
Definition valid_history (w : world) : Prop :=
  exists es,
    holds_history (history_file w) es /\
    List.length es <= 10 /\
    NoDup (map entry_name es) /\
    StronglySorted Z.ge (map snd es) /\
    Forall (fun c => (snd c <= now w)%Z) es.

(** A sequence of recorded connections, some time passing before each. *)
Fixpoint connect_all (conns : list (N * Device)) (w : world) : world :=
  match conns with
  | [] => w
  | (dt, d) :: rest =>
      connect_all rest (snd (update_history (api_device d) (tick dt w)))
  end.

(** The names in a history file, first entry first. *)
Definition history_names (f : file) : list value :=
  match f with
  | Json (VList l) =>
      map (fun h => match getitem h "device_name" with
                    | Ok n => n
                    | Raise _ => VNone
                    end) l
  | _ => []
  end.

(** The first piece of [v.split(':')]. *)
Definition first_segment (v : string) : string :=
  hd EmptyString (Py.split Py.colon v).

Definition colon_free (s : string) : bool :=
  negb (Py.contains ":" s).

(** No tag key, no tag value of [d] contains a colon. *)
Definition keys_colon_free (d : Device) : Prop :=
  Forall (fun t => colon_free (fst t) = true) (tags d).

Definition values_colon_free (d : Device) : Prop :=
  Forall (fun t => colon_free (snd t) = true) (tags d).

(** A tag as [get_devices] reads it back from its rendering: the first
    two pieces of [split(':')]. *)
Definition reload_tag (t : string * string) : string * string :=
  let pieces := Py.split Py.colon (rendered t) in
  (nth 0 pieces EmptyString, nth 1 pieces EmptyString).

(** [d] as it comes back from the cache. *)
Definition reloaded (d : Device) : Device :=
  mkDevice (device_name d) (host d) (services d) (map reload_tag (tags d))
           (description d).

(** [d] with every tag value cut at its first colon. *)
Definition cut_tags (d : Device) : Device :=
  mkDevice (device_name d) (host d) (services d)
           (map (fun t => (fst t, first_segment (snd t))) (tags d))
           (description d).

(** ** Examples *)

Definition web1 : Device :=
  mkDevice "web1" "10.0.0.1" ["SSH"] [("env", "prod")] "frontend".

Definition db1 : Device :=
  mkDevice "db1" "10.0.0.2" ["SSH"; "RDP"] [("env", "prod")] "".

(** A device whose tag key contains a colon. *)
Definition odd1 : Device :=
  mkDevice "odd1" "10.0.0.3" ["SSH"] [("a:b", "c")] "".

Definition env0 : environment :=
  mkEnv "alice" "bastion.example.org" [] (fun _ => Missing) (fun _ => None).

(** No cache, no history, a configured password, nobody answering. *)
Definition world0 : world :=
  mkWorld env0 NoFile NoFile 1000 "secret" [] [] [] [].

(** The cache holds the two devices of the example, saved at instant 0. *)
Definition cached_world : world :=
  set_cache_file (Json (snapshot 0 [web1; db1])) world0.

(** The cache file is there but cannot be parsed. *)
Definition garbage_world : world := set_cache_file Garbage world0.

(** The arguments of [--list --tags env:prod]. *)
Definition list_tagged : arguments :=
  mkArgs None true None None (Some "env:prod") None false false None None None
         false None.

(** The bastion accepts the credentials and lists [web1], twice. *)
Definition retry_world : world :=
  set_replies [Reply 204 VNone; Reply 200 (api_devices [web1]);
               Reply 204 VNone; Reply 200 (api_devices [web1])]
              (set_cache_file (Json (snapshot 0 [web1])) world0).

(** How many refreshes a run offered, and how many times it asked the
    bastion for the inventory. *)
Definition is_offer (e : event) : bool :=
  match e with
  | Print OfferRefresh => true
  | Log Info AskForceRefresh => true
  | _ => false
  end.

Definition is_fetch (e : event) : bool :=
  match e with
  | Http GetDevices => true
  | _ => false
  end.

Definition count (p : event -> bool) (evs : list event) : nat :=
  List.length (filter p evs).

(** ** What [except Exception] catches

    A result is [caught] when it is a value or an exception that
    [except Exception] handles: everything in the script but [sys.exit]. *)

Definition caught {A} (r : result A) : Prop :=
  match r with
  | Ok _ => True
  | Raise e => is_exception e = true
  end.

Definition caughtM {S A} (m : M S A) : Prop := forall s, caught (fst (m s)).

(** A computation that always returns. *)
Definition returns {S A} (m : M S A) : Prop := forall s, exists a, fst (m s) = Ok a.


(** ** Frames *)

(** The world after the events [evs] have been emitted. *)
Definition emit_all (evs : list event) (w : world) : world :=
  set_trace (trace w ++ evs) w.

(** [m] only adds events to the trace [tr] of the state, at most [n] of
    them in [p]. *)
Definition emitsN {S A} (tr : S -> list event) (p : event -> bool) (n : nat)
  (m : M S A) : Prop :=
  forall s, exists evs,
    tr (snd (m s)) = (tr s ++ evs)%list /\ count p evs <= n.

Definition io_trace (s : io) : list event := trace (snd s).

Definition is_put (e : event) : bool :=
  match e with
  | Http (PutDevice _ _) => true
  | _ => false
  end.

(** The events [evs] name, as new, exactly the devices of [S2] whose name
    is not in [S1]. *)
Definition names_exactly_new (evs : list event) (S1 S2 : list Device) : Prop :=
  forall n, In (VStr n) (shown_names evs) <->
            In n (map device_name S2) /\ ~ In n (map device_name S1).

(** The bastion answers the next request with [r]. *)
Definition answering (r : reply) (w : world) : world :=
  set_replies (r :: replies w) w.

(** The index of the entry of [d] in a history, as [update_history] looks
    it up. *)
Fixpoint position (d : Device) (es : list (Device * Z)) : option nat :=
  match es with
  | [] => None
  | c :: es' =>
      if same_device d c then Some 0 else option_map S (position d es')
  end.

Definition is_log (e : event) : Prop :=
  match e with
  | Log _ _ => True
  | _ => False
  end.

(** The cache holds the two devices; the bastion accepts the credentials,
    accepts an update and lists the devices again. *)
Definition update_world : world :=
  set_replies [Reply 204 VNone; Reply 200 VNone;
               Reply 200 (api_devices [web1; db1])] cached_world.

Definition no_tags (d : Device) : bool :=
  match tags d with
  | [] => true
  | _ => false
  end.

(** The names of a sequence of connections by recency: the latest first,
    each name once. *)
Fixpoint recency (names : list string) : list string :=
  match names with
  | [] => []
  | n :: l => n :: filter (fun m => negb (String.eqb m n)) (recency l)
  end.

Definition connected (conns : list (N * Device)) : list string :=
  map (fun c => device_name (snd c)) conns.

(** ** The texts the model covers

    Two libraries read the texts of a run more closely than the model
    does.  The log handler is [RichHandler(markup=True)] and the tables go
    through [console.print]: both parse what they show as Rich markup and
    raise [MarkupError] on a closing tag that closes nothing, where [log]
    and [print] above always print.  Python's [str.lower], [str.upper],
    [str.strip] and [int] follow Unicode, where [Py.lower], [Py.upper],
    [Py.strip] and [py_int] follow ASCII.  A theorem that depends on
    either therefore states the texts it covers: [plain] texts (printable
    ASCII without an opening bracket, which Rich shows as they are and a
    shell command can hold), or [ascii_text] ones. *)

Definition printable (c : ascii) : bool :=
  let n := N_of_ascii c in ((32 <=? n) && (n <=? 126))%N.

(** Printable ASCII, no opening bracket. *)
Fixpoint plain (s : string) : bool :=
  match s with
  | EmptyString => true
  | String c s' => printable c && negb (Ascii.eqb c "["%char) && plain s'
  end.

(** Every character is an ASCII character. *)
Fixpoint ascii_text (s : string) : bool :=
  match s with
  | EmptyString => true
  | String c s' => (N_of_ascii c <? 128)%N && ascii_text s'
  end.

Definition over_fields (p : string -> bool) (d : Device) : bool :=
  p (device_name d) && p (host d) && forallb p (services d)
  && forallb (fun t => p (fst t) && p (snd t)) (tags d)
  && p (description d).

(** Every field of [d] is plain, or ASCII. *)
Definition plain_device (d : Device) : bool := over_fields plain d.
Definition ascii_device (d : Device) : bool := over_fields ascii_text d.

Definition ascii_arg (arg : option string) : bool :=
  match arg with
  | Some s => ascii_text s
  | None => true
  end.

(** Every string of a JSON value, keys included, is plain. *)
Fixpoint plain_value (v : value) : bool :=
  match v with
  | VNone => true
  | VStr s => plain s
  | VList l =>
      (fix all (l : list value) : bool :=
         match l with
         | [] => true
         | x :: l' => plain_value x && all l'
         end) l
  | VDict d =>
      (fix all (d : list (string * value)) : bool :=
         match d with
         | [] => true
         | (k, x) :: d' => plain k && plain_value x && all d'
         end) d
  end.

Definition plain_file (f : file) : bool :=
  match f with
  | Json v => plain_value v
  | _ => true
  end.

Definition plain_reply (r : reply) : bool :=
  match r with
  | Reply _ body => plain_value body
  | NoReply => true
  end.

(** The user, the bastion and the names of the files to deploy. *)
Definition plain_env (e : environment) : bool :=
  plain (username e) && plain (bastion_host e) && forallb plain (deploy_files e).

(** The user and the password, configured or typed at the prompt, are
    ASCII: [HTTPBasicAuth] encodes both as Latin-1 and raises
    [UnicodeEncodeError], which no handler of a request catches, on a
    text it cannot encode. *)
Definition ascii_credentials (w : world) : bool :=
  ascii_text (username (env w)) && ascii_text (password w)
  && forallb ascii_text (tty w).

(** Everything a run can quote in a log line or a table: the
    configuration, the two files and the answers of the bastion; and
    credentials that a request can carry. *)
Definition plain_world (w : world) : bool :=
  plain_env (env w) && plain_file (cache_file w) && plain_file (history_file w)
  && forallb plain_reply (replies w) && ascii_credentials w.


(** ** Further views of the code *)

Definition is_run (e : event) : bool :=
  match e with
  | Run _ _ => true
  | _ => false
  end.

Definition is_http (e : event) : bool :=
  match e with
  | Http _ => true
  | _ => false
  end.

(** The document [save_cache] writes at instant [t] for the simplified
    records [simplified]. *)
Definition cache_document (t : Z) (simplified : list value) : value :=
  VDict [("timestamp", VStr (isoformat t)); ("devices", VList simplified)].

(** A device of the bastion's list that misses its name. *)
Definition nameless : value := VDict [("host", VStr "10.0.0.9")].

(** The history file cannot be parsed. *)
Definition garbage_history : world := set_history_file Garbage world0.


(** ** The filters of [search_devices] on devices of the API's shape *)

(** The pattern is found in the name, the host or the description. *)
Definition matches_regex (search : string -> bool) (d : Device) : bool :=
  search (device_name d) || search (host d) || search (description d).

(** The services asked for by [--services]: the pieces between commas,
    stripped and in upper case. *)
Definition required_services (filter_services : string) : list string :=
  map (fun s => Py.upper (Py.strip s)) (Py.split Py.comma filter_services).

(** Every service asked for is one of the services of [d], case apart. *)
Definition matches_services (filter_services : string) (d : Device) : bool :=
  forallb (fun s => existsb (String.eqb s) (map Py.upper (services d)))
          (required_services filter_services).

(** The text is part of the name, the host or the description, case apart. *)
Definition matches_query (query : string) (d : Device) : bool :=
  Py.contains (Py.lower query) (Py.lower (device_name d))
  || Py.contains (Py.lower query) (Py.lower (host d))
  || Py.contains (Py.lower query) (Py.lower (description d)).

(** A criterion that counts only when its argument is given. *)
Definition if_given {A} (arg : option string) (f : string -> A -> bool)
  (x : A) : bool :=
  match arg with
  | Some s => if String.eqb s "" then true else f s x
  | None => true
  end.

(** The pattern of [--filter], compiled. *)
Definition compiled (e : environment) (filter_regex : option string)
  : option (string -> bool) :=
  match filter_regex with
  | Some r => if String.eqb r "" then Some (fun _ => true) else re_compile e r
  | None => Some (fun _ => true)
  end.

(** What the search keeps of one device, tags apart. *)
Definition kept (search : string -> bool)
  (query filter_services : option string) (d : Device) : bool :=
  matches_regex search d
  && (if_given filter_services matches_services d
      && if_given query matches_query d).

(** A record of the cache file for [d] whose tags were written by hand. *)
Definition cached_with_tags (d : Device) (tgs : list string) : value :=
  VDict [("nom", VStr (device_name d));
         ("hote", VStr (host d));
         ("services", VList (map VStr (services d)));
         ("tags", VList (map VStr tgs));
         ("description", VStr (description d))].

(** A cache saved long ago, in which somebody wrote the tag [prod]. *)
Definition edited_world : world :=
  set_cache_file
    (Json (cache_document 0 [cached_device web1;
                             cached_with_tags db1 ["env:prod"; "prod"]]))
    world0.

(** ** The command [connect_to_device] runs *)

(** The files to deploy that are there, in the order of the list, each
    with its destination and its encoded content. *)
Fixpoint found (e : environment) (files : list string)
  : list (string * string) :=
  match files with
  | [] => []
  | f :: rest =>
      match sshtools e f with
      | Content c => ("/tmp/" ++ f, c) :: found e rest
      | _ => found e rest
      end
  end.

(** The files that are missing, in the order of the list, up to the first
    one that cannot be read. *)
Fixpoint missing (e : environment) (files : list string) : list string :=
  match files with
  | [] => []
  | f :: rest =>
      match sshtools e f with
      | Content _ => missing e rest
      | Missing => f :: missing e rest
      | Unreadable => []
      end
  end.

(** No file to deploy fails to open for another reason than its absence. *)
Definition readable (e : environment) (files : list string) : bool :=
  forallb (fun f => match sshtools e f with Unreadable => false | _ => true end)
          files.

(** The remote command of a connection with deployment. *)
Definition deploy_command (e : environment) : string :=
  if readable e (deploy_files e) then
    match found e (deploy_files e) with
    | [] => "bash -l"
    | _ =>
        Py.join " && " (map deploy_line (found e (deploy_files e)))
        ++ (if existsb (String.eqb ".bashrc_remote") (deploy_files e)
            then " && bash --rcfile /tmp/.bashrc_remote"
            else " && bash -l")
    end
  else "bash -l".

(** The [ssh] invocation through the bastion. *)
Definition ssh_line (user : string) (d : Device) (e : environment) : string :=
  "ssh -tt -A -p 22 " ++ user ++ "@" ++ device_name d ++ ":SSH:"
  ++ username e ++ "@" ++ bastion_host e.

(** The whole command, by mode. *)
Definition ssh_command (interactive no_deploy : bool) (d : Device)
  (e : environment) : string :=
  let user := if interactive then "Interactive" else username e in
  if no_deploy || interactive then ssh_line user d e
  else ssh_line user d e ++ " '" ++ deploy_command e ++ "'".



(** ** Updates and requests *)

(** [m] sends at most one update request, and answers [True] only after
    having sent one. *)
Definition true_needs_put (m : M world bool) : Prop :=
  forall w, exists evs,
    trace (snd (m w)) = (trace w ++ evs)%list
    /\ count is_put evs <= 1
    /\ (fst (m w) = Ok true -> count is_put evs = 1).

(** The bastion accepts the credentials and would accept an update. *)
Definition accepting_world : world :=
  set_replies [Reply 204 VNone; Reply 204 VNone; Reply 200 (api_devices [web1; db1])]
              cached_world.

(** ** Subprocesses *)

(** [m] starts at most one subprocess, and only just before returning a
    value of [final]. *)
Definition runs_last {A} (final : A -> bool) (m : M world A) : Prop :=
  forall w, exists evs,
    trace (snd (m w)) = (trace w ++ evs)%list
    /\ count is_run evs <= 1
    /\ (count is_run evs = 1 -> exists a, fst (m w) = Ok a /\ final a = true).

(** ** The table of devices *)

(** The icon of a device: RDP comes first; the names are compared as they
    are written. *)
Definition icon (d : Device) : string :=
  if existsb (String.eqb "RDP") (services d) then icon_rdp
  else if existsb (String.eqb "SSH") (services d) then icon_ssh
  else "".

(** The row of [display_devices] for [d]. *)
Definition row (d : Device) : list value :=
  [VStr (icon d ++ device_name d); VStr (host d);
   VStr (Py.join ", " (services d));
   VStr (Py.join ", " (map rendered (tags d)));
   VStr (description d)].


(** ** The configuration *)

(** The configuration [load_config] returns. *)
Record config : Type := mkConfig {
  cfg_username : string;
  cfg_password : string;
  cfg_base_url : string;
  cfg_cache_file : string;
  cfg_deploy_files : list string
}.

(** [[f.strip() for f in s.split(',') if f.strip()] if s else []]. *)
Definition parse_deploy_files (deploy_files_str : string) : list string :=
  if String.eqb deploy_files_str "" then []
  else map Py.strip
         (filter (fun f => negb (String.eqb (Py.strip f) ""))
                 (Py.split Py.comma deploy_files_str)).

(** [load_config].  [config_ini] is the file [config_file] as
    [configparser] reads it, [None] when it does not exist: it maps an
    option of the section [wallix] to [config.get('wallix', option,
    fallback='')].  The result comes with the lines printed on the
    standard error. *)
Definition load_config (config_file home : string)
  (config_ini : option (string -> string)) : list string * result config :=
  match config_ini with
  | None =>
      (["Error: Configuration file not found: " ++ config_file;
        "Please create a config.ini file in the script directory"],
       Raise (SystemExit 1))
  | Some get =>
      let cache_file := get "cache_file" in
      let cache_file :=
        if String.eqb cache_file "" then home ++ "/.wallix_cache"
        else cache_file in
      let deploy_files := parse_deploy_files (get "deploy_files") in
      ([], Ok (mkConfig (get "username") (get "password") (get "base_url")
                        cache_file deploy_files))
  end.

(** No character of [s] is [c]. *)
Fixpoint char_free (c : ascii) (s : string) : bool :=
  match s with
  | EmptyString => true
  | String a s' => negb (Ascii.eqb a c) && char_free c s'
  end.

(** A configuration file that lists two files to deploy. *)
Definition config_ini0 (option : string) : string :=
  if String.eqb option "deploy_files" then ".bashrc_remote, .vimrc ,"
  else if String.eqb option "username" then "alice"
  else "".



(** ** Choosing in a numbered list of [len] entries *)



(** ** A tag with a colon in its value *)

(** A device whose tag [url] holds an address. *)
Definition url1 : Device :=
  mkDevice "web" "10.0.0.5" ["SSH"] [("url", "http://x:80")] "old".

(** The cache holds [url1] as the tool saved it; the bastion accepts the
    credentials and the update, and lists [url1] again. *)
Definition url_world : world :=
  set_replies [Reply 204 VNone; Reply 204 VNone;
               Reply 200 (api_devices [url1])]
              (set_cache_file (Json (snapshot 0 [url1])) world0).

(** The cache file cannot be parsed; the bastion lists [web1]. *)
Definition refresh_over_garbage : world :=
  set_replies [Reply 200 (api_devices [web1])] garbage_world.
(** * Properties *)

#[local] Open Scope list_scope.

(** ** Comprehensions over well-formed data *)

Section Comprehensions.
Context {A B C : Type}.

Lemma mapR_map_ok (f : B -> result C) (g : A -> B) (h : A -> C) (l : list A) :
  (forall x, f (g x) = Ok (h x)) -> mapR f (map g l) = Ok (map h l).
Proof.
  intros Hf. induction l as [|x l IH]; simpl.
  - reflexivity.
  - rewrite Hf. simpl. rewrite IH. reflexivity.
Qed.

Lemma filterR_map_ok (p : B -> result bool) (g : A -> B) (q : A -> bool)
      (l : list A) :
  (forall x, p (g x) = Ok (q x)) ->
  filterR p (map g l) = Ok (map g (filter q l)).
Proof.
  intros Hp. induction l as [|x l IH]; simpl.
  - reflexivity.
  - rewrite Hp. simpl. rewrite IH. simpl. destruct (q x); reflexivity.
Qed.

End Comprehensions.

(** ** Well-formed devices through the projections of the code *)

Lemma service_names_api (d : Device) :
  service_names (api_device d) = Ok (map VStr (services d)).
Proof.
  unfold service_names. simpl.
  apply mapR_map_ok. intros s. reflexivity.
Qed.

Lemma render_tag_api (t : string * string) :
  render_tag (api_tag t) = Ok (VStr (rendered t)).
Proof. reflexivity. Qed.

Lemma rendered_tags_api (d : Device) :
  rendered_tags (api_device d)
  = Ok (map (fun t => VStr (rendered t)) (tags d)).
Proof.
  unfold rendered_tags. simpl.
  apply mapR_map_ok. exact render_tag_api.
Qed.

Lemma simplified_device_api (d : Device) :
  simplified_device (api_device d) = Ok (cached_device d).
Proof.
  unfold simplified_device.
  rewrite service_names_api, rendered_tags_api. reflexivity.
Qed.

Lemma simplified_devices_api (ds : list Device) :
  mapR simplified_device (map api_device ds) = Ok (map cached_device ds).
Proof. apply mapR_map_ok. exact simplified_device_api. Qed.

Lemma history_entry_api (d : Device) (t : Z) :
  history_entry (api_device d) t = Ok (entry (d, t)).
Proof.
  unfold history_entry.
  rewrite service_names_api, rendered_tags_api. reflexivity.
Qed.

Lemma py_join_strs (sep : string) (l : list string) :
  py_join sep (map VStr l) = Ok (Py.join sep l).
Proof.
  unfold py_join.
  rewrite (mapR_map_ok _ VStr (fun s => s)) by reflexivity.
  simpl. rewrite map_id. reflexivity.
Qed.

Lemma new_machine_row_cached (d : Device) :
  new_machine_row (cached_device d) = Ok (new_row d).
Proof.
  unfold new_machine_row, join_value. simpl.
  rewrite py_join_strs. simpl.
  rewrite <- (map_map rendered VStr), py_join_strs. reflexivity.
Qed.

(** ** The clock text is read back *)

Lemma fromisoformat_isoformat (t : Z) :
  fromisoformat (VStr (isoformat t)) = Ok t.
Proof.
  unfold fromisoformat, isoformat, Py.dec.
  rewrite NilEmpty.isi, DecimalZ.of_to. reflexivity.
Qed.

(** ** What [except Exception] catches *)

Create HintDb caught.

Lemma caught_rbind {A B} (r : result A) (k : A -> result B) :
  caught r -> (forall a, caught (k a)) -> caught (rbind r k).
Proof. destruct r as [a|e]; simpl; auto. Qed.

Section Caught.
Context {A B : Type}.

Lemma caught_mapR (f : A -> result B) (l : list A) :
  (forall x, caught (f x)) -> caught (mapR f l).
Proof.
  intros Hf. induction l as [|x l IH]; simpl; [exact I|].
  apply caught_rbind; [apply Hf|intros y].
  apply caught_rbind; [exact IH|intros ys; exact I].
Qed.

Lemma caught_filterR (p : A -> result bool) (l : list A) :
  (forall x, caught (p x)) -> caught (filterR p l).
Proof.
  intros Hp. induction l as [|x l IH]; simpl; [exact I|].
  apply caught_rbind; [apply Hp|intros b].
  apply caught_rbind; [exact IH|intros ys; exact I].
Qed.

Lemma caught_allR (p : A -> result bool) (l : list A) :
  (forall x, caught (p x)) -> caught (allR p l).
Proof.
  intros Hp. induction l as [|x l IH]; simpl; [exact I|].
  apply caught_rbind; [apply Hp|intros [|]]; [exact IH|exact I].
Qed.

Lemma caught_find_index (p : A -> result bool) (l : list A) :
  (forall x, caught (p x)) -> caught (find_index p l).
Proof.
  intros Hp. induction l as [|x l IH]; simpl; [exact I|].
  apply caught_rbind; [apply Hp|intros [|]]; [exact I|].
  apply caught_rbind; [exact IH|intros i; exact I].
Qed.

Lemma caught_find_first (p : A -> result bool) (l : list A) :
  (forall x, caught (p x)) -> caught (find_first p l).
Proof.
  intros Hp. induction l as [|x l IH]; simpl; [exact I|].
  apply caught_rbind; [apply Hp|intros [|]]; [exact I|exact IH].
Qed.

Lemma caught_index (l : list A) (i : nat) : caught (index l i).
Proof. unfold index. destruct (nth_error l i); simpl; auto. Qed.

End Caught.

(** Splits a goal [caught r] along the structure of [r]. *)
Ltac caught_step :=
  match goal with
  | |- caught (Ok _) => exact I
  | |- caught (Raise _) => reflexivity
  | |- caught (rbind _ _) => apply caught_rbind; [|intros]
  | |- caught (mapR _ _) => apply caught_mapR; intros
  | |- caught (filterR _ _) => apply caught_filterR; intros
  | |- caught (allR _ _) => apply caught_allR; intros
  | |- caught (find_index _ _) => apply caught_find_index; intros
  | |- caught (find_first _ _) => apply caught_find_first; intros
  | |- caught (index _ _) => apply caught_index
  | |- caught (match ?x with _ => _ end) => destruct x
  | |- caught _ => solve [auto with caught]
  end.

Ltac caught_tac := repeat caught_step.

Lemma caught_getitem v k : caught (getitem v k).
Proof. unfold getitem. caught_tac. Qed.

Lemma caught_py_get v k d : caught (py_get v k d).
Proof. unfold py_get. caught_tac. Qed.

Lemma caught_py_iter v : caught (py_iter v).
Proof. unfold py_iter. caught_tac. Qed.

Lemma caught_py_len v : caught (py_len v).
Proof. unfold py_len. caught_tac. Qed.

Lemma caught_as_str v : caught (as_str v).
Proof. unfold as_str. caught_tac. Qed.

Lemma caught_as_list v : caught (as_list v).
Proof. unfold as_list. caught_tac. Qed.

Lemma caught_json_load f : caught (json_load f).
Proof. unfold json_load. caught_tac. Qed.

Lemma caught_fromisoformat v : caught (fromisoformat v).
Proof. unfold fromisoformat. caught_tac. Qed.

Lemma caught_set_in x l : caught (set_in x l).
Proof. unfold set_in. caught_tac. Qed.

Lemma caught_py_join sep l : caught (py_join sep l).
Proof. unfold py_join. caught_tac. Qed.

Lemma caught_getindex v i : caught (getindex v i).
Proof. unfold getindex. caught_tac. Qed.

Lemma caught_py_contains x v : caught (py_contains x v).
Proof. unfold py_contains. caught_tac. Qed.

#[export] Hint Resolve caught_getitem caught_py_get caught_py_iter caught_py_len
  caught_as_str caught_as_list caught_json_load caught_fromisoformat
  caught_set_in caught_py_join caught_getindex caught_py_contains : caught.

Lemma caught_render_tag tag : caught (render_tag tag).
Proof. unfold render_tag. caught_tac. Qed.
#[export] Hint Resolve caught_render_tag : caught.

Lemma caught_service_names d : caught (service_names d).
Proof. unfold service_names. caught_tac. Qed.

Lemma caught_rendered_tags d : caught (rendered_tags d).
Proof. unfold rendered_tags. caught_tac. Qed.
#[export] Hint Resolve caught_service_names caught_rendered_tags : caught.

Lemma caught_simplified_device d : caught (simplified_device d).
Proof. unfold simplified_device. caught_tac. Qed.

Lemma caught_join_value v : caught (join_value v).
Proof. unfold join_value. caught_tac. Qed.
#[export] Hint Resolve caught_simplified_device caught_join_value : caught.

Lemma caught_new_machine_row d : caught (new_machine_row d).
Proof. unfold new_machine_row. caught_tac. Qed.

Lemma caught_old_names l : caught (old_names l).
Proof. unfold old_names. caught_tac. Qed.

Lemma caught_new_machines l m : caught (new_machines l m).
Proof. unfold new_machines. caught_tac. Qed.

Lemma caught_history_entry d t : caught (history_entry d t).
Proof. unfold history_entry. caught_tac. Qed.

Lemma caught_split_tag t : caught (split_tag t).
Proof. unfold split_tag. caught_tac. Qed.
#[export] Hint Resolve caught_new_machine_row caught_old_names
  caught_new_machines caught_history_entry caught_split_tag : caught.

Lemma caught_from_cache d : caught (from_cache d).
Proof. unfold from_cache. caught_tac. Qed.
#[export] Hint Resolve caught_from_cache : caught.

Section CaughtM.
Context {S A B : Type}.

Lemma caughtM_ret (a : A) : caughtM (ret (S := S) a).
Proof. intros s. exact I. Qed.

Lemma caughtM_lift (r : result A) : caught r -> caughtM (lift (S := S) r).
Proof. intros H s. exact H. Qed.

Lemma caughtM_gets (f : S -> A) : caughtM (gets f).
Proof. intros s. exact I. Qed.

Lemma caughtM_modify (f : S -> S) : caughtM (modify f).
Proof. intros s. exact I. Qed.

Lemma caughtM_bind (m : M S A) (k : A -> M S B) :
  caughtM m -> (forall a, caughtM (k a)) -> caughtM (bind m k).
Proof.
  intros Hm Hk s. unfold bind. specialize (Hm s).
  destruct (m s) as [[a|e] s']; simpl in *.
  - apply Hk.
  - exact Hm.
Qed.

Lemma caughtM_try_catch (c : exn -> bool) (body : M S A)
      (handler : exn -> M S A) :
  caughtM body -> (forall e, caughtM (handler e)) ->
  caughtM (try_catch c body handler).
Proof.
  intros Hb Hh s. unfold try_catch. specialize (Hb s).
  destruct (body s) as [[a|e] s']; simpl in *.
  - exact I.
  - destruct (c e); [apply Hh|exact Hb].
Qed.

(** [try: ... except Exception] around a body that never exits, with a
    handler that returns, always returns. *)
Lemma returns_try_except (body : M S A) (handler : exn -> M S A) :
  caughtM body -> (forall e, returns (handler e)) ->
  returns (try_catch is_exception body handler).
Proof.
  intros Hb Hh s. unfold try_catch. specialize (Hb s).
  destruct (body s) as [[a|e] s']; simpl in *.
  - exists a. reflexivity.
  - rewrite Hb. apply Hh.
Qed.

End CaughtM.

Lemma caughtM_emit e : caughtM (emit e).
Proof. intros s. exact I. Qed.

Lemma returns_emit e : returns (emit e).
Proof. intros s. exists tt. reflexivity. Qed.

(** Splits a goal [caughtM m] along the structure of [m]. *)
Ltac caughtM_step :=
  match goal with
  | |- caughtM (ret _) => apply caughtM_ret
  | |- caughtM (lift _) => apply caughtM_lift; caught_tac
  | |- caughtM (gets _) => apply caughtM_gets
  | |- caughtM (modify _) => apply caughtM_modify
  | |- caughtM (emit _) => apply caughtM_emit
  | |- caughtM (log _ _) => apply caughtM_emit
  | |- caughtM (print _) => apply caughtM_emit
  | |- caughtM (bind _ _) => apply caughtM_bind; [|intros]
  | |- caughtM (try_catch _ _ _) => apply caughtM_try_catch; [|intros]
  | |- caughtM (match ?x with _ => _ end) => destruct x
  | |- caughtM _ => solve [auto with caught]
  end.

Ltac caughtM_tac := repeat caughtM_step.

(** [save_cache] never lets an exception out. *)
Lemma save_cache_returns (devices : value) : returns (save_cache devices).
Proof.
  unfold save_cache, compare_with_old, show_new_machines.
  apply returns_try_except.
  - caughtM_tac.
  - intros e. apply returns_emit.
Qed.

(** Neither does [update_history]. *)
Lemma update_history_returns (device : value) : returns (update_history device).
Proof.
  unfold update_history. apply returns_try_except.
  - caughtM_tac.
  - intros e. apply returns_emit.
Qed.

(** ** The cache file *)

(** Two worlds built from the same one are compared field by field. *)
Ltac world_eq :=
  unfold emit_all, emitted, set_trace, set_cache_file, set_history_file,
    snapshot;
  simpl; rewrite <- ?app_assoc, ?app_nil_r; simpl; reflexivity.

Ltac same w :=
  first [ reflexivity
        | f_equal; first [ reflexivity | destruct w; world_eq ]
        | destruct w; world_eq ].

Ltac run :=
  unfold bind, lift, ret, log, print, emit, modify, gets; simpl.

#[local] Arguments compare_with_old : simpl never.
#[local] Arguments fromisoformat : simpl never.
#[local] Arguments isoformat : simpl never.
#[local] Arguments format_age : simpl never.
#[local] Arguments show_new_machines : simpl never.

(** Showing the new machines only prints. *)
Lemma show_new_machines_effect (news : list value) :
  exists r evs, forall w, show_new_machines news w = (r, emit_all evs w).
Proof.
  unfold show_new_machines.
  destruct news as [|d news].
  { exists (Ok tt), []. intros w. run. same w. }
  cbv beta iota. remember (d :: news) as l eqn:Hl. clear Hl.
  destruct (Nat.ltb 10 (List.length l)).
  - exists (Ok tt), [Log Info (NewMachinesAdded (List.length l))].
    intros w. run. same w.
  - destruct (mapR new_machine_row l) as [rows|e] eqn:Erows.
    + exists (Ok tt), [Print PanelNewMachines; Print (Table rows)].
      intros w. run. same w.
    + exists (Raise e), []. intros w. run. same w.
Qed.

(** The comparison with the old cache only prints. *)
Lemma compare_with_old_effect (old : value) (simplified : list value) :
  exists r evs, forall w,
    compare_with_old old simplified w = (r, emit_all evs w).
Proof.
  unfold compare_with_old.
  destruct (truthy old).
  2:{ exists (Ok tt), []. intros w. run. same w. }
  destruct (py_iter old) as [olds|e] eqn:E1.
  2:{ exists (Raise e), []. intros w. run. same w. }
  destruct (old_names olds) as [names|e] eqn:E2.
  2:{ exists (Raise e), []. intros w. run. rewrite E2. same w. }
  destruct (new_machines names simplified) as [news|e] eqn:E3.
  - destruct (show_new_machines_effect news) as (r & evs & Hs).
    exists r, evs. intros w. run. rewrite E2. simpl. rewrite E3. apply Hs.
  - exists (Raise e), []. intros w. run. rewrite E2. simpl. rewrite E3.
    same w.
Qed.

Lemma compare_with_old_caught (old : value) (simplified : list value) :
  caughtM (compare_with_old old simplified).
Proof. unfold compare_with_old, show_new_machines. caughtM_tac. Qed.

(** On a cache file it can read, [save_cache] writes the snapshot of the
    devices it is given, whatever the comparison with the old cache does
    afterwards. *)
Lemma save_cache_usable (ds : list Device) (w : world) :
  cache_usable (cache_file w) = true ->
  exists evs,
    save_cache (api_devices ds) w
    = (Ok tt, emit_all (Log Info (CacheSaved (List.length ds)) :: evs)
                (set_cache_file (Json (snapshot (now w) ds)) w)).
Proof.
  intros Hu. unfold save_cache, try_catch. run.
  destruct (cache_file w) as [| |v] eqn:Ef; simpl in Hu |- *;
    [ | discriminate
      | destruct (getitem v "devices") as [old|e]; [|discriminate] ].
  all: rewrite simplified_devices_api; simpl; rewrite length_map.
  - exists []. reflexivity.
  - match goal with
    | |- context [compare_with_old ?o ?s ?w'] =>
        destruct (compare_with_old_effect o s) as (r & evs & Hc);
        pose proof (compare_with_old_caught o s w') as Hcaught;
        rewrite Hc in Hcaught |- *; simpl in Hcaught
    end.
    destruct r as [[]|e];
      [ exists evs
      | rewrite Hcaught; exists (evs ++ [Log Error (ErrorSavingCache e)]) ];
      same w.
Qed.

(** On an unreadable cache file, [save_cache] only logs: the file stays as
    it is. *)
Lemma save_cache_garbage (devices : value) (w : world) :
  cache_file w = Garbage ->
  save_cache devices w
  = (Ok tt, emitted (Log Error (ErrorSavingCache ValueError)) w).
Proof.
  intros Hg. unfold save_cache, try_catch. run. rewrite Hg. reflexivity.
Qed.

Lemma py_in_names (n : string) (l : list Device) :
  py_in (VStr n) (map (fun d => VStr (device_name d)) l)
  = existsb (String.eqb n) (map device_name l).
Proof.
  unfold py_in. induction l as [|d l IH]; simpl.
  - reflexivity.
  - f_equal. exact IH.
Qed.

Lemma old_names_cached (S1 : list Device) :
  old_names (map cached_device S1)
  = Ok (map (fun d => VStr (device_name d)) S1).
Proof. unfold old_names. apply mapR_map_ok. reflexivity. Qed.

Lemma new_machines_cached (S1 S2 : list Device) :
  new_machines (map (fun d => VStr (device_name d)) S1) (map cached_device S2)
  = Ok (map cached_device (new_devices S1 S2)).
Proof.
  unfold new_machines, new_devices. apply filterR_map_ok.
  intros d. simpl. unfold set_in. simpl. rewrite py_in_names. reflexivity.
Qed.

(** The comparison of two snapshots written by the tool. *)
Lemma match_map_nil {A B C} (f : A -> B) (l : list A) (x y : C) :
  match map f l with [] => x | _ :: _ => y end
  = match l with [] => x | _ :: _ => y end.
Proof. destruct l; reflexivity. Qed.

Lemma show_new_machines_cached (l : list Device) (w : world) :
  show_new_machines (map cached_device l) w
  = (Ok tt, emit_all (new_events l) w).
Proof.
  unfold show_new_machines, new_events.
  rewrite match_map_nil.
  destruct l as [|d l]; cbv beta iota.
  { run. same w. }
  remember (d :: l) as news eqn:Hn. clear Hn.
  rewrite length_map.
  destruct (Nat.ltb 10 (List.length news)).
  - run. same w.
  - run. rewrite (mapR_map_ok _ _ _ _ new_machine_row_cached).
    same w.
Qed.

Lemma compare_with_old_cached (S1 S2 : list Device) (w : world) :
  compare_with_old (VList (map cached_device S1)) (map cached_device S2) w
  = (Ok tt, emit_all (new_report S1 S2) w).
Proof.
  unfold compare_with_old, new_report.
  replace (truthy (VList (map cached_device S1)))
    with (match S1 with [] => false | _ => true end)
    by (destruct S1; reflexivity).
  destruct S1 as [|d1 S1]; cbv beta iota.
  { run. same w. }
  remember (d1 :: S1) as old eqn:Hold. clear Hold.
  run. rewrite old_names_cached. simpl. rewrite new_machines_cached. simpl.
  apply show_new_machines_cached.
Qed.

(** Saving over a snapshot written by the tool. *)
Lemma save_cache_over (S1 S2 : list Device) (t : Z) (w : world) :
  cache_file w = Json (snapshot t S1) ->
  save_cache (api_devices S2) w
  = (Ok tt, emit_all (Log Info (CacheSaved (List.length S2)) :: new_report S1 S2)
              (set_cache_file (Json (snapshot (now w) S2)) w)).
Proof.
  intros Hf. unfold save_cache, try_catch. run. rewrite Hf. simpl.
  rewrite simplified_devices_api. simpl. rewrite length_map.
  rewrite compare_with_old_cached. same w.
Qed.

(** Saving when there is no cache file. *)
Lemma save_cache_fresh (ds : list Device) (w : world) :
  cache_file w = NoFile ->
  save_cache (api_devices ds) w
  = (Ok tt, emit_all [Log Info (CacheSaved (List.length ds))]
              (set_cache_file (Json (snapshot (now w) ds)) w)).
Proof.
  intros Hf. unfold save_cache, try_catch. run. rewrite Hf. simpl.
  rewrite simplified_devices_api. simpl. rewrite length_map.
  unfold compare_with_old. simpl. run. same w.
Qed.

Lemma load_cache_snapshot (t : Z) (ds : list Device) (w : world) :
  cache_file w = Json (snapshot t ds) ->
  load_cache false w
  = (Ok (VList (map cached_device ds)),
     emitted (Log Info (CacheFound (format_age (now w - t)))) w).
Proof.
  intros Hf. unfold load_cache, try_catch. run. rewrite Hf. simpl.
  rewrite fromisoformat_isoformat. reflexivity.
Qed.

Lemma load_cache_garbage (w : world) :
  cache_file w = Garbage ->
  load_cache false w
  = (Ok VNone, emitted (Log Error (ErrorLoadingCache ValueError)) w).
Proof.
  intros Hf. unfold load_cache, try_catch. run. rewrite Hf. reflexivity.
Qed.

(** Whatever the file holds, [load_cache] returns; an unusable cache file
    reads as no cache. *)
Lemma load_cache_unusable (w : world) :
  cache_usable (cache_file w) = false ->
  fst (load_cache false w) = Ok VNone.
Proof.
  intros Hu. unfold load_cache, try_catch. run.
  destruct (cache_file w) as [| |v]; simpl in *; try discriminate.
  - reflexivity.
  - destruct (getitem v "timestamp") as [stamp|e] eqn:Es; simpl.
    2:{ pose proof (caught_getitem v "timestamp") as Hc. rewrite Es in Hc.
        simpl in Hc. rewrite Hc. reflexivity. }
    destruct (fromisoformat stamp) as [t|e] eqn:Et; simpl.
    2:{ pose proof (caught_fromisoformat stamp) as Hc. rewrite Et in Hc.
        simpl in Hc. rewrite Hc. reflexivity. }
    destruct (getitem v "devices") as [old|e] eqn:Ed; [discriminate|].
    pose proof (caught_getitem v "devices") as Hc. rewrite Ed in Hc.
    simpl in Hc. rewrite Hc. reflexivity.
Qed.

(** [save_cache] leaves an unusable cache file as it is. *)
Lemma save_cache_unusable (devices : value) (w : world) :
  cache_usable (cache_file w) = false ->
  cache_file (snd (save_cache devices w)) = cache_file w.
Proof.
  intros Hu. unfold save_cache, try_catch. run.
  destruct (cache_file w) as [| |v] eqn:Ef; simpl in *; try discriminate.
  - exact Ef.
  - destruct (getitem v "devices") as [old|e] eqn:Ed; [discriminate|].
    simpl. destruct (is_exception e); simpl; exact Ef.
Qed.

(** The round trip, where the old cache does not stand in the way: the
    names read back are the names saved, in the same order. *)
Lemma save_then_load (ds : list Device) (w : world) :
  cache_usable (cache_file w) = true ->
  fst (load_cache false (snd (save_cache (api_devices ds) w)))
  = Ok (VList (map cached_device ds))
  /\ mapR (fun d => getitem d "nom") (map cached_device ds)
     = Ok (map (fun d => VStr (device_name d)) ds).
Proof.
  intros Hu. split.
  - destruct (save_cache_usable ds w Hu) as [evs Hs]. rewrite Hs. cbn [snd].
    erewrite load_cache_snapshot by reflexivity. reflexivity.
  - apply mapR_map_ok. reflexivity.
Qed.

(** Where it does, nothing is saved and nothing can be loaded. *)
Lemma save_then_load_unusable (devices : value) (w : world) :
  cache_usable (cache_file w) = false ->
  fst (load_cache false (snd (save_cache devices w))) = Ok VNone.
Proof.
  intros Hu. apply load_cache_unusable.
  rewrite save_cache_unusable; assumption.
Qed.

(** ** New machines *)

Lemma known_spec (S1 : list Device) (d : Device) :
  known S1 d = true <-> In (device_name d) (map device_name S1).
Proof.
  unfold known. rewrite existsb_exists. split.
  - intros (n & Hin & Heq). apply String.eqb_eq in Heq. subst n. exact Hin.
  - intros Hin. exists (device_name d). split; [exact Hin|apply String.eqb_refl].
Qed.

Lemma new_devices_spec (S1 S2 : list Device) (d : Device) :
  In d (new_devices S1 S2)
  <-> In d S2 /\ ~ In (device_name d) (map device_name S1).
Proof.
  unfold new_devices. rewrite filter_In, negb_true_iff.
  rewrite <- known_spec. split; intros [H1 H2]; split; auto.
  - rewrite H2. discriminate.
  - destruct (known S1 d); [exfalso; apply H2; reflexivity|reflexivity].
Qed.

Lemma new_devices_names (S1 S2 : list Device) (n : string) :
  In n (map device_name (new_devices S1 S2))
  <-> In n (map device_name S2) /\ ~ In n (map device_name S1).
Proof.
  split.
  - intros Hin. apply in_map_iff in Hin. destruct Hin as (d & Hn & Hd).
    apply new_devices_spec in Hd. destruct Hd as [H2 H1].
    subst n. split; [apply in_map; exact H2|exact H1].
  - intros [Hin H1]. apply in_map_iff in Hin. destruct Hin as (d & Hn & Hd).
    subst n. apply in_map. apply new_devices_spec. auto.
Qed.

(** The new devices depend on the old snapshot through its set of names
    only. *)
Lemma new_devices_same_names (S1 S1' S2 : list Device) :
  (forall n, In n (map device_name S1) <-> In n (map device_name S1')) ->
  new_devices S1' S2 = new_devices S1 S2.
Proof.
  intros Hn. unfold new_devices. apply filter_ext. intros d. f_equal.
  apply eq_true_iff_eq. rewrite !known_spec. symmetry. apply Hn.
Qed.

Lemma shown_names_new_events (l : list Device) :
  List.length l <= 10 ->
  shown_names (new_events l) = map (fun d => VStr (device_name d)) l.
Proof.
  intros Hl. unfold new_events. destruct l as [|d l]; [reflexivity|].
  remember (d :: l) as news eqn:Hn. clear Hn.
  destruct (Nat.ltb_spec 10 (List.length news)) as [Hlt|Hle]; [lia|].
  simpl. rewrite app_nil_r, map_map. reflexivity.
Qed.


(** C3, as amended.  Two successive saves of devices with plain fields,
    [S1] then [S2], from a cache file that can be replaced: the second
    save logs the number of devices saved and then shows
    [new_report S1 S2].  When [S1] is empty nothing more is shown.
    Otherwise the devices treated as new are those of [S2] whose name
    does not occur in [S1], in the order of [S2]: they depend on [S1]
    through its set of names only, they are named row by row when there
    are at most ten, and only counted when there are more. *)
Theorem save_twice_reports_new (S1 S2 : list Device) (dt : N) (w : world) :
  cache_usable (cache_file w) = true ->
  forallb plain_device S1 = true -> forallb plain_device S2 = true ->
  let w1 := snd (save_cache (api_devices S1) w) in
  let w2 := snd (save_cache (api_devices S2) (tick dt w1)) in
  trace w2
  = trace w1 ++ Log Info (CacheSaved (List.length S2)) :: new_report S1 S2
  /\ (S1 = [] -> new_report S1 S2 = [])
  /\ (S1 <> [] -> List.length (new_devices S1 S2) <= 10 ->
      shown_names (new_report S1 S2)
      = map (fun d => VStr (device_name d)) (new_devices S1 S2)
      /\ names_exactly_new (new_report S1 S2) S1 S2)
  /\ (S1 <> [] -> 10 < List.length (new_devices S1 S2) ->
      new_report S1 S2
      = [Log Info (NewMachinesAdded (List.length (new_devices S1 S2)))])
  /\ (forall d, In d (new_devices S1 S2)
                <-> In d S2 /\ ~ In (device_name d) (map device_name S1))
  /\ (forall S1',
         (forall n, In n (map device_name S1) <-> In n (map device_name S1')) ->
         new_devices S1' S2 = new_devices S1 S2).
Proof.
  intros Hu _ _ w1 w2.
  assert (Hshown : S1 <> [] -> List.length (new_devices S1 S2) <= 10 ->
                   shown_names (new_report S1 S2)
                   = map (fun d => VStr (device_name d)) (new_devices S1 S2)).
  { intros Hne Hle. unfold new_report. destruct S1 as [|d1 S1]; [congruence|].
    apply shown_names_new_events. exact Hle. }
  split; [|split; [|split; [|split; [|split]]]].
  - subst w1 w2.
    destruct (save_cache_usable S1 w Hu) as [evs Hs]. rewrite Hs. cbn [snd].
    erewrite save_cache_over by reflexivity. reflexivity.
  - intros ->. reflexivity.
  - intros Hne Hle. split; [apply Hshown; assumption|].
    intros n. rewrite Hshown by assumption.
    rewrite <- new_devices_names. rewrite !in_map_iff. split.
    + intros (d & Hd & Hin). injection Hd as Hd. exists d. auto.
    + intros (d & Hd & Hin). exists d. subst n. auto.
  - intros Hne Hlt. unfold new_report, new_events.
    destruct S1 as [|d1 S1]; [congruence|].
    destruct (new_devices (d1 :: S1) S2) as [|n news]; [simpl in Hlt; lia|].
    apply Nat.ltb_lt in Hlt. rewrite Hlt. reflexivity.
  - intros d. apply new_devices_spec.
  - intros S1' Hn. apply new_devices_same_names. exact Hn.
Qed.

Lemma save_twice_reports_new_witness :
  cache_usable (cache_file world0) = true /\
  trace (snd (save_cache (api_devices [web1; db1])
                (tick 5 (snd (save_cache (api_devices [db1]) world0)))))
  = trace (snd (save_cache (api_devices [db1]) world0))
    ++ Log Info (CacheSaved 2) :: new_report [db1] [web1; db1].
Proof.
  split; [reflexivity|].
  exact (proj1 (save_twice_reports_new [db1] [web1; db1] 5%N world0
                  eq_refl eq_refl eq_refl)).
Defined.

(** C3 as stated fails when the first snapshot is empty: the second save
    names nothing, although [web1] is in the second snapshot and not in
    the first. *)
Lemma save_after_empty_names_nothing :
  let w1 := snd (save_cache (api_devices []) world0) in
  let w2 := snd (save_cache (api_devices [web1]) w1) in
  exists evs, trace w2 = trace w1 ++ evs /\ ~ names_exactly_new evs [] [web1].
Proof.
  exists [Log Info (CacheSaved 1)]. split; [reflexivity|].
  intros H. destruct (H "web1") as [_ Hback].
  apply Hback. split; [left; reflexivity|intros []].
Qed.

(** C4 at the failing input: the cache file is there but unreadable.
    [save_cache] returns without writing, the file stays as it was, and the
    [load_cache] that follows finds no cache. *)
Theorem save_then_load_over_garbage :
  let w1 := snd (save_cache (api_devices [web1]) garbage_world) in
  fst (save_cache (api_devices [web1]) garbage_world) = Ok tt
  /\ cache_file w1 = Garbage
  /\ fst (load_cache false w1) = Ok VNone
  /\ trace (snd (load_cache false w1))
     = [Log Error (ErrorSavingCache ValueError);
        Log Error (ErrorLoadingCache ValueError)].
Proof. repeat split. Qed.

(** ** Tags through the cache *)

Lemma colon_free_cons (c : ascii) (s : string) :
  colon_free (String c s) = negb (Ascii.eqb c Py.colon) && colon_free s.
Proof.
  unfold colon_free. cbn [Py.contains Py.startswith].
  rewrite andb_true_r, negb_orb.
  rewrite (Ascii.eqb_sym ":" c). reflexivity.
Qed.

Lemma split_nonempty (sep : ascii) (s : string) : Py.split sep s <> [].
Proof.
  destruct s as [|c s]; simpl; [discriminate|].
  destruct (Ascii.eqb c sep); [discriminate|].
  destruct (Py.split sep s); discriminate.
Qed.

(** A key without colon is the first piece of its rendering. *)
Lemma split_rendered (k v : string) :
  colon_free k = true ->
  Py.split Py.colon (k ++ ":" ++ v)%string = k :: Py.split Py.colon v.
Proof.
  induction k as [|c k IH]; intros Hk.
  - reflexivity.
  - rewrite colon_free_cons in Hk. apply andb_true_iff in Hk.
    destruct Hk as [Hc Hk]. apply negb_true_iff in Hc.
    simpl. rewrite Hc.
    change (Py.split Py.colon (k ++ String ":" v)%string)
      with (Py.split Py.colon (k ++ ":" ++ v)%string).
    rewrite (IH Hk). reflexivity.
Qed.

Lemma split_colon_free (v : string) :
  colon_free v = true -> Py.split Py.colon v = [v].
Proof.
  induction v as [|c v IH]; intros Hv.
  - reflexivity.
  - rewrite colon_free_cons in Hv. apply andb_true_iff in Hv.
    destruct Hv as [Hc Hv]. apply negb_true_iff in Hc.
    simpl. rewrite Hc, (IH Hv). reflexivity.
Qed.

Lemma first_segment_colon_free (v : string) :
  colon_free v = true -> first_segment v = v.
Proof. intros Hv. unfold first_segment. rewrite split_colon_free; auto. Qed.

Lemma first_segment_cut (v1 v2 : string) :
  colon_free v1 = true -> first_segment (v1 ++ ":" ++ v2)%string = v1.
Proof. intros Hv. unfold first_segment. rewrite split_rendered; auto. Qed.

(** A rendered tag always splits into two pieces at least. *)
Lemma split_two (sep : ascii) (k v : string) :
  exists a b rest, Py.split sep (k ++ String sep v)%string = a :: b :: rest.
Proof.
  induction k as [|c k IH]; cbn [append Py.split].
  - rewrite Ascii.eqb_refl.
    pose proof (split_nonempty sep v) as Hne.
    destruct (Py.split sep v) as [|h t]; [congruence|].
    exists EmptyString, h, t. reflexivity.
  - destruct IH as (a & b & rest & IH). rewrite IH.
    destruct (Ascii.eqb c sep).
    + exists EmptyString, a, (b :: rest). reflexivity.
    + exists (String c a), b, rest. reflexivity.
Qed.

Lemma split_tag_rendered (t : string * string) :
  split_tag (VStr (rendered t)) = Ok (api_tag (reload_tag t)).
Proof.
  unfold split_tag, reload_tag, rendered. cbn [as_str rbind].
  destruct (split_two Py.colon (fst t) (snd t)) as (a & b & rest & Hs).
  change (fst t ++ ":" ++ snd t)%string
    with (fst t ++ String Py.colon (snd t))%string.
  rewrite Hs. reflexivity.
Qed.

Lemma reload_tag_cut (t : string * string) :
  colon_free (fst t) = true -> reload_tag t = (fst t, first_segment (snd t)).
Proof.
  intros Hk. unfold reload_tag, rendered.
  rewrite split_rendered by exact Hk. cbn [nth].
  unfold first_segment.
  pose proof (split_nonempty Py.colon (snd t)) as Hne.
  destruct (Py.split Py.colon (snd t)) as [|p ps]; [congruence|reflexivity].
Qed.

(** A cached record read back. *)
Lemma from_cache_cached (d : Device) :
  from_cache (cached_device d) = Ok (api_device (reloaded d)).
Proof.
  unfold from_cache. cbn [cached_device getitem assoc String.eqb
    Ascii.eqb Bool.eqb py_get py_iter rbind].
  rewrite (mapR_map_ok split_tag (fun t => VStr (rendered t))
             (fun t => api_tag (reload_tag t)) _ split_tag_rendered).
  cbn [rbind].
  unfold api_device, reloaded. cbn [device_name host services tags description].
  rewrite !map_map. reflexivity.
Qed.

Lemma reloaded_cut (d : Device) : keys_colon_free d -> reloaded d = cut_tags d.
Proof.
  unfold keys_colon_free, reloaded, cut_tags. intros Hk. f_equal.
  apply map_ext_in. intros t Ht. apply reload_tag_cut.
  rewrite Forall_forall in Hk. apply Hk. exact Ht.
Qed.

Lemma cut_tags_id (d : Device) : values_colon_free d -> cut_tags d = d.
Proof.
  unfold values_colon_free, cut_tags. destruct d as [n h sv tg ds]. simpl.
  intros Hv. f_equal.
  induction Hv as [|[k v] l Hkv Hl IH]; simpl.
  - reflexivity.
  - simpl in Hkv. rewrite first_segment_colon_free by exact Hkv.
    rewrite IH. reflexivity.
Qed.

Lemma get_devices_snapshot (t : Z) (ds : list Device) (w : world) :
  cache_file w = Json (snapshot t ds) ->
  get_devices false w
  = (Ok (api_devices (map reloaded ds)),
     emitted (Log Info (CacheFound (format_age (now w - t)))) w).
Proof.
  intros Hf. unfold get_devices. cbn [negb]. unfold bind.
  rewrite (load_cache_snapshot t ds w Hf).
  unfold lift, ret. cbn [py_iter].
  rewrite (mapR_map_ok from_cache cached_device
             (fun d => api_device (reloaded d)) _ from_cache_cached).
  unfold api_devices. rewrite map_map. reflexivity.
Qed.

(** C10, as amended.  Devices with plain fields, saved to a cache file
    that can be replaced and read back through [get_devices], come back
    as [reloaded]: each tag is the first two pieces of its rendering split
    at the colons.  For a device whose tag keys contain no colon, the keys
    come back as they were and each value cut at its first colon; so if
    its values contain no colon either, its tags come back exactly, and a
    value [v1:v2] comes back as [v1]. *)
Theorem cache_round_trip_tags (ds : list Device) (w : world) :
  cache_usable (cache_file w) = true ->
  forallb plain_device ds = true ->
  fst (get_devices false (snd (save_cache (api_devices ds) w)))
  = Ok (api_devices (map reloaded ds))
  /\ (forall d, keys_colon_free d -> reloaded d = cut_tags d)
  /\ (forall d, keys_colon_free d -> values_colon_free d -> reloaded d = d)
  /\ (forall v1 v2,
         colon_free v1 = true -> first_segment (v1 ++ ":" ++ v2)%string = v1).
Proof.
  intros Hu _. split; [|split; [|split]].
  - destruct (save_cache_usable ds w Hu) as [evs Hs]. rewrite Hs. cbn [snd].
    erewrite get_devices_snapshot by reflexivity. reflexivity.
  - exact reloaded_cut.
  - intros d Hk Hv. rewrite reloaded_cut by exact Hk. apply cut_tags_id.
    exact Hv.
  - exact first_segment_cut.
Qed.

Lemma cache_round_trip_tags_witness :
  cache_usable (cache_file world0) = true /\
  fst (get_devices false (snd (save_cache (api_devices [web1; db1]) world0)))
  = Ok (api_devices (map reloaded [web1; db1])).
Proof.
  split; [reflexivity|].
  exact (proj1 (cache_round_trip_tags [web1; db1] world0 eq_refl eq_refl)).
Defined.

(** C10 as stated fails for a tag whose key contains a colon: no value of
    [odd1] contains one, yet its tag [a:b = c] is read back as [a = b]. *)
Lemma colon_in_key_not_reproduced :
  values_colon_free odd1
  /\ fst (get_devices false (snd (save_cache (api_devices [odd1]) world0)))
     = Ok (api_devices [mkDevice "odd1" "10.0.0.3" ["SSH"] [("a", "b")] ""])
  /\ fst (get_devices false (snd (save_cache (api_devices [odd1]) world0)))
     <> Ok (api_devices [odd1]).
Proof.
  split; [repeat constructor|]. split; [reflexivity|].
  intros H. discriminate H.
Qed.

(** ** Fetching the inventory *)

#[local] Arguments save_cache : simpl never.

Lemma status_in_fetch (status : Z) :
  status_in status [200; 206]%Z = true <-> (status = 200 \/ status = 206)%Z.
Proof.
  unfold status_in. simpl. rewrite orb_false_r, orb_true_iff, !Z.eqb_eq.
  reflexivity.
Qed.

#[local] Arguments status_in : simpl never.

(** ** The connection history *)

Section Prefixes.
Context {A : Type}.

Lemma firstn_NoDup (n : nat) (l : list A) : NoDup l -> NoDup (firstn n l).
Proof.
  intros H. rewrite <- (firstn_skipn n l) in H.
  apply NoDup_app_remove_r in H. exact H.
Qed.

Lemma firstn_Forall (P : A -> Prop) (n : nat) (l : list A) :
  Forall P l -> Forall P (firstn n l).
Proof.
  intros H. rewrite <- (firstn_skipn n l) in H.
  apply Forall_app in H. apply H.
Qed.

Lemma firstn_StronglySorted (R : A -> A -> Prop) (n : nat) (l : list A) :
  StronglySorted R l -> StronglySorted R (firstn n l).
Proof.
  intros H. revert n. induction H as [|a l Hl IH Ha]; intros n.
  - rewrite firstn_nil. constructor.
  - destruct n as [|n]; simpl; constructor.
    + apply IH.
    + apply firstn_Forall. exact Ha.
Qed.

End Prefixes.

Lemma forget_incl (d : Device) (es : list (Device * Z)) (c : Device * Z) :
  In c (forget d es) -> In c es.
Proof.
  induction es as [|c' es IH]; simpl; [tauto|].
  destruct (same_device d c'); simpl; intuition.
Qed.

Lemma forget_Forall (P : Device * Z -> Prop) (d : Device) (es : list (Device * Z)) :
  Forall P es -> Forall P (forget d es).
Proof.
  rewrite !Forall_forall. intros H c Hc. apply H. eapply forget_incl. exact Hc.
Qed.

Lemma forget_names (d : Device) (es : list (Device * Z)) :
  NoDup (map entry_name es) ->
  NoDup (map entry_name (forget d es))
  /\ ~ In (device_name d) (map entry_name (forget d es)).
Proof.
  induction es as [|c es IH]; simpl; intros Hnd.
  - split; [constructor|tauto].
  - inversion Hnd as [|n l Hn Hl]; subst.
    destruct (same_device d c) eqn:Hs.
    + unfold same_device in Hs. apply String.eqb_eq in Hs.
      split; [exact Hl|]. rewrite <- Hs. exact Hn.
    + destruct (IH Hl) as [IH1 IH2]. simpl. split.
      * constructor; [|exact IH1].
        intros Hin. apply Hn. apply in_map_iff in Hin.
        destruct Hin as (c' & Hc' & Hin). apply in_map_iff.
        exists c'. split; [exact Hc'|]. eapply forget_incl. exact Hin.
      * intros [Heq|Hin]; [|exact (IH2 Hin)].
        unfold same_device in Hs. apply String.eqb_neq in Hs.
        apply Hs. exact Heq.
Qed.

Lemma forget_sorted (d : Device) (es : list (Device * Z)) :
  StronglySorted Z.ge (map snd es) ->
  StronglySorted Z.ge (map snd (forget d es)).
Proof.
  induction es as [|c es IH]; simpl; intros Hs; [constructor|].
  apply StronglySorted_inv in Hs. destruct Hs as [Hs Hc].
  destruct (same_device d c); [exact Hs|].
  simpl. constructor; [apply IH; exact Hs|].
  rewrite Forall_forall in *. intros t Ht. apply Hc.
  apply in_map_iff in Ht. destruct Ht as (c' & Hc' & Hin).
  apply in_map_iff. exists c'. split; [exact Hc'|].
  eapply forget_incl. exact Hin.
Qed.

(** The typed view of [history.pop(existing_index)]. *)
Lemma pop_position (d : Device) (es : list (Device * Z)) :
  match position d es with
  | Some i => pop i es
  | None => es
  end = forget d es.
Proof.
  induction es as [|c es IH]; simpl; [reflexivity|].
  destruct (same_device d c); [reflexivity|].
  destruct (position d es) as [i|]; simpl.
  - rewrite <- IH. reflexivity.
  - rewrite <- IH. reflexivity.
Qed.

Lemma pop_map {A B} (f : A -> B) (i : nat) (l : list A) :
  pop i (map f l) = map f (pop i l).
Proof. unfold pop. rewrite firstn_map, skipn_map, map_app. reflexivity. Qed.

Lemma find_index_entries (d : Device) (es : list (Device * Z)) :
  find_index (fun h => a <~ getitem h "device_name" ;;
                       b <~ getitem (api_device d) "device_name" ;;
                       Ok (py_eq a b)) (map entry es)
  = Ok (position d es).
Proof.
  induction es as [|c es IH]; [reflexivity|].
  cbn [map find_index position].
  replace (a <~ getitem (entry c) "device_name" ;;
           b <~ getitem (api_device d) "device_name" ;; Ok (py_eq a b))
    with (Ok (A := bool) (same_device d c)) by reflexivity.
  cbn [rbind]. destruct (same_device d c); [reflexivity|].
  rewrite IH. reflexivity.
Qed.

Lemma recorded_entries (d : Device) (t : Z) (es : list (Device * Z)) :
  firstn 10 (entry (d, t) :: match position d es with
                             | Some i => pop i (map entry es)
                             | None => map entry es
                             end)
  = map entry (recorded d t es).
Proof.
  unfold recorded. rewrite <- pop_position.
  destruct (position d es) as [i|].
  - rewrite pop_map. rewrite <- (map_cons entry). apply firstn_map.
  - rewrite <- (map_cons entry). apply firstn_map.
Qed.

(** Runs a monadic term one layer at a time, unfolding nothing else. *)
Ltac step :=
  unfold bind, lift, ret, log, print, emit, modify, gets; cbn beta iota.

(** What [update_history] writes on a history the tool wrote itself. *)
Lemma update_history_recorded (d : Device) (es : list (Device * Z)) (w : world) :
  holds_history (history_file w) es ->
  update_history (api_device d) w
  = (Ok tt,
     set_history_file (Json (VList (map entry (recorded d (now w) es)))) w).
Proof.
  intros [Hf|[Hf He]]; unfold update_history, try_catch; step; rewrite Hf.
  - cbn [file_exists json_load py_iter].
    rewrite find_index_entries, history_entry_api.
    cbn [as_list]. cbn beta iota. rewrite recorded_entries. reflexivity.
  - subst es. cbn [file_exists py_iter find_index]. cbn beta iota.
    rewrite history_entry_api. reflexivity.
Qed.

Lemma history_names_entries (es : list (Device * Z)) :
  history_names (Json (VList (map entry es)))
  = map (fun c => VStr (entry_name c)) es.
Proof. unfold history_names. rewrite map_map. reflexivity. Qed.

(** One recorded connection keeps the history valid and puts the device in
    front. *)
Lemma update_history_valid (d : Device) (w : world) :
  valid_history w ->
  valid_history (snd (update_history (api_device d) w))
  /\ hd VNone (history_names
                 (history_file (snd (update_history (api_device d) w))))
     = VStr (device_name d).
Proof.
  intros (es & Hh & Hlen & Hnd & Hs & Hnow).
  rewrite (update_history_recorded d es w Hh). cbn [snd]. split.
  - exists (recorded d (now w) es). repeat split.
    + left. reflexivity.
    + unfold recorded. apply firstn_le_length.
    + unfold recorded. rewrite <- firstn_map. apply firstn_NoDup.
      destruct (forget_names d es Hnd) as [H1 H2].
      simpl. constructor; assumption.
    + unfold recorded. rewrite <- firstn_map. apply firstn_StronglySorted.
      simpl. constructor; [apply forget_sorted; exact Hs|].
      apply Forall_forall. intros t Ht. apply in_map_iff in Ht.
      destruct Ht as (c & Hc & Hin). subst t.
      apply forget_incl in Hin. rewrite Forall_forall in Hnow.
      apply Z.le_ge. apply Hnow. exact Hin.
    + unfold recorded. apply firstn_Forall. constructor.
      * simpl. apply Z.le_refl.
      * apply forget_Forall. exact Hnow.
  - cbn [history_file set_history_file]. rewrite history_names_entries.
    reflexivity.
Qed.

Lemma tick_valid (dt : N) (w : world) : valid_history w -> valid_history (tick dt w).
Proof.
  intros (es & Hh & Hlen & Hnd & Hs & Hnow).
  exists es. repeat split; try assumption.
  rewrite Forall_forall in *. intros c Hc. specialize (Hnow c Hc).
  simpl. lia.
Qed.

Lemma connect_all_app (l1 l2 : list (N * Device)) (w : world) :
  connect_all (l1 ++ l2) w = connect_all l2 (connect_all l1 w).
Proof.
  revert w. induction l1 as [|[dt d] l1 IH]; intros w; simpl.
  - reflexivity.
  - apply IH.
Qed.

Lemma connect_all_valid (conns : list (N * Device)) (w : world) :
  valid_history w -> valid_history (connect_all conns w).
Proof.
  revert w. induction conns as [|[dt d] conns IH]; intros w Hv; simpl.
  - exact Hv.
  - apply IH. apply update_history_valid. apply tick_valid. exact Hv.
Qed.

(** ** The history as an order of recency *)

Lemma filter_other_id (n : string) (l : list string) :
  ~ In n l -> filter (fun m => negb (String.eqb m n)) l = l.
Proof.
  induction l as [|x l IH]; simpl; intros Hn; [reflexivity|].
  destruct (String.eqb_spec x n) as [Heq|Hne]; simpl.
  - exfalso. apply Hn. left. exact Heq.
  - rewrite IH; [reflexivity|]. intros H. apply Hn. right. exact H.
Qed.

Lemma filter_other_not_in (n : string) (l : list string) :
  ~ In n (filter (fun m => negb (String.eqb m n)) l).
Proof.
  intros H. apply filter_In in H. destruct H as [_ H].
  rewrite String.eqb_refl in H. discriminate.
Qed.

Lemma recency_NoDup (l : list string) : NoDup (recency l).
Proof.
  induction l as [|n l IH]; simpl; constructor.
  - apply filter_other_not_in.
  - apply NoDup_filter. exact IH.
Qed.

Lemma recency_id (l : list string) : NoDup l -> recency l = l.
Proof.
  induction 1 as [|n l Hn Hl IH]; simpl; [reflexivity|].
  rewrite IH, filter_other_id by exact Hn. reflexivity.
Qed.

Lemma names_forget (d : Device) (es : list (Device * Z)) :
  NoDup (map entry_name es) ->
  map entry_name (forget d es)
  = filter (fun m => negb (String.eqb m (device_name d))) (map entry_name es).
Proof.
  induction es as [|c es IH]; simpl; intros Hnd; [reflexivity|].
  inversion Hnd as [|n l Hn Hl]; subst.
  unfold same_device. fold (entry_name c).
  destruct (String.eqb_spec (entry_name c) (device_name d)) as [Heq|Hne]; simpl.
  - rewrite filter_other_id; [reflexivity|]. rewrite <- Heq. exact Hn.
  - rewrite IH by exact Hl. reflexivity.
Qed.

(** Cutting a list to [n + 1] names before one name is removed, or not,
    leaves the same first [n] names. *)
Lemma firstn_filter_other (c : string) (n : nat) (l : list string) :
  NoDup l ->
  firstn n (filter (fun m => negb (String.eqb m c)) (firstn (S n) l))
  = firstn n (filter (fun m => negb (String.eqb m c)) l).
Proof.
  intros Hnd. revert n. induction Hnd as [|x l Hx Hl IH]; intros n.
  - reflexivity.
  - cbn [firstn filter].
    destruct (String.eqb_spec x c) as [Heq|Hne]; cbn [negb].
    + subst x. rewrite (filter_other_id c l Hx).
      rewrite filter_other_id.
      * rewrite firstn_firstn, Nat.min_id. reflexivity.
      * intros H. apply Hx. rewrite <- (firstn_skipn n l).
        apply in_or_app. left. exact H.
    + destruct n as [|n]; [reflexivity|].
      cbn [firstn]. rewrite IH. reflexivity.
Qed.

(** After any sequence of connections the names in the history are the
    ten most recent ones, the latest first. *)
Lemma connect_all_recency (conns : list (N * Device)) (w : world)
      (es : list (Device * Z)) :
  holds_history (history_file w) es ->
  NoDup (map entry_name es) -> List.length es <= 10 ->
  exists es',
    holds_history (history_file (connect_all conns w)) es'
    /\ map entry_name es'
       = firstn 10 (recency (rev (connected conns) ++ map entry_name es)).
Proof.
  intros Hh Hnd Hlen.
  induction conns as [|[dt d] before IH] using rev_ind.
  - exists es. split; [exact Hh|].
    cbn [connected map rev app]. rewrite recency_id by exact Hnd.
    rewrite firstn_all2; [reflexivity|]. rewrite length_map. exact Hlen.
  - destruct IH as (es1 & Hh1 & Hn1).
    rewrite connect_all_app. cbn [connect_all].
    set (w1 := connect_all before w) in *.
    exists (recorded d (now (tick dt w1)) es1). split.
    + left. rewrite (update_history_recorded d es1 (tick dt w1) Hh1).
      reflexivity.
    + unfold connected in *. rewrite map_app, rev_app_distr. cbn [map rev app snd].
      cbn [recency].
      set (R := recency (rev (map (fun c => device_name (snd c)) before)
                         ++ map entry_name es)) in *.
      assert (HR : NoDup R) by apply recency_NoDup.
      assert (Hnd1 : NoDup (map entry_name es1)).
      { rewrite Hn1. apply firstn_NoDup. exact HR. }
      unfold recorded. rewrite <- firstn_map. cbn [map].
      rewrite !firstn_cons. f_equal.
      rewrite names_forget by exact Hnd1. rewrite Hn1.
      apply firstn_filter_other. exact HR.
Qed.

Lemma holds_history_names (f : file) (es : list (Device * Z)) :
  holds_history f es ->
  history_names f = map (fun n => VStr n) (map entry_name es).
Proof.
  intros [Hf|[Hf He]]; subst.
  - rewrite history_names_entries, map_map. reflexivity.
  - reflexivity.
Qed.

(** C5.  From any valid history state (at most ten entries, one per
    device name, most recent first, none from the future), after any
    sequence of recorded connections: the history is valid again; the
    device connected last is its first entry; its names are the ten most
    recently connected ones, the latest first and each once; and
    connecting to [a], then [b], then [a] again from an empty history
    leaves exactly [a; b]. *)
Theorem history_invariant (conns : list (N * Device)) (w : world) :
  valid_history w ->
  valid_history (connect_all conns w)
  /\ (forall before dt d,
         conns = before ++ [(dt, d)] ->
         hd VNone (history_names (history_file (connect_all conns w)))
         = VStr (device_name d))
  /\ (forall es,
         holds_history (history_file w) es ->
         NoDup (map entry_name es) -> List.length es <= 10 ->
         history_names (history_file (connect_all conns w))
         = map (fun n => VStr n)
               (firstn 10 (recency (rev (connected conns)
                                    ++ map entry_name es))))
  /\ (forall a b dt1 dt2 dt3,
         history_file w = NoFile ->
         device_name a <> device_name b ->
         history_names
           (history_file (connect_all [(dt1, a); (dt2, b); (dt3, a)] w))
         = [VStr (device_name a); VStr (device_name b)]).
Proof.
  intros Hv. split; [apply connect_all_valid; exact Hv|]. split; [|split].
  - intros before dt d ->. rewrite connect_all_app. simpl.
    apply update_history_valid. apply tick_valid.
    apply connect_all_valid. exact Hv.
  - intros es Hh Hnd Hlen.
    destruct (connect_all_recency conns w es Hh Hnd Hlen) as (es' & Hh' & Hn').
    rewrite (holds_history_names _ es' Hh'), Hn'. reflexivity.
  - intros a b dt1 dt2 dt3 Hf Hab.
    assert (Hba : forall t, same_device b (a, t) = false).
    { intros t. unfold same_device. apply String.eqb_neq. exact Hab. }
    assert (Hbb : forall t, same_device a (b, t) = false).
    { intros t. unfold same_device. apply String.eqb_neq.
      intros H. apply Hab. symmetry. exact H. }
    assert (Haa : forall t, same_device a (a, t) = true).
    { intros t. unfold same_device. apply String.eqb_refl. }
    cbn [connect_all].
    rewrite (update_history_recorded a [] (tick dt1 w))
      by (right; split; [exact Hf|reflexivity]).
    cbn [snd].
    rewrite (update_history_recorded b [(a, now (tick dt1 w))])
      by (left; reflexivity).
    cbn [snd].
    erewrite (update_history_recorded a) by (left; reflexivity).
    cbn [snd history_file set_history_file].
    rewrite history_names_entries.
    unfold recorded. cbn [forget firstn]. rewrite Hba. cbn [forget firstn].
    rewrite Hbb. cbn [forget firstn]. rewrite Haa. reflexivity.
Qed.

Lemma history_invariant_witness :
  valid_history world0
  /\ valid_history (connect_all [(1%N, web1); (2%N, db1); (3%N, web1)] world0).
Proof.
  assert (Hv : valid_history world0).
  { exists []. repeat split.
    - right. split; reflexivity.
    - simpl. lia.
    - constructor.
    - constructor.
    - constructor. }
  split; [exact Hv|].
  exact (proj1 (history_invariant [(1%N, web1); (2%N, db1); (3%N, web1)]
                  world0 Hv)).
Defined.

(** ** Connecting *)

#[local] Arguments update_history : simpl never.

Lemma emit_all_nil (w : world) : emit_all [] w = w.
Proof. destruct w. world_eq. Qed.

Lemma emit_all_app (evs1 evs2 : list event) (w : world) :
  emit_all evs2 (emit_all evs1 w) = emit_all (evs1 ++ evs2) w.
Proof. destruct w. world_eq. Qed.

(** Reading the files to deploy only logs the files it does not find. *)
Lemma read_deploy_files_effect (files : list string) (w : world) :
  exists r evs,
    read_deploy_files files w = (r, emit_all evs w) /\ Forall is_log evs.
Proof.
  revert w. induction files as [|filename rest IH]; intros w.
  - exists (Ok []), []. split; [|constructor].
    cbn [read_deploy_files]. unfold ret. rewrite emit_all_nil. reflexivity.
  - cbn [read_deploy_files]. unfold try_catch. step.
    destruct (read_tool (env w) filename) as [content|e].
    + destruct (IH w) as (r & evs & Hr & Hevs). rewrite Hr.
      destruct r as [more|e].
      * exists (Ok (("/tmp/" ++ filename, content)%string :: more)), evs.
        split; [reflexivity|exact Hevs].
      * exists (Raise e), evs. split; [reflexivity|exact Hevs].
    + destruct (is_file_not_found e).
      * destruct (IH (emitted (Log Error (FileNotFound filename)) w))
          as (r & evs & Hr & Hevs).
        rewrite Hr.
        change (emitted (Log Error (FileNotFound filename)) w)
          with (emit_all [Log Error (FileNotFound filename)] w).
        rewrite emit_all_app.
        destruct r as [more|e'].
        -- exists (Ok more), (Log Error (FileNotFound filename) :: evs).
           split; [reflexivity|constructor; [exact I|exact Hevs]].
        -- exists (Raise e'), (Log Error (FileNotFound filename) :: evs).
           split; [reflexivity|constructor; [exact I|exact Hevs]].
      * exists (Raise e), []. split; [|constructor].
        rewrite emit_all_nil. reflexivity.
Qed.

Lemma ssh_base_api (user : string) (d : Device) (e : environment) :
  exists cmd, ssh_base user (api_device d) e = Ok cmd.
Proof. eexists. reflexivity. Qed.

Lemma subprocess_run_history (cmd : string) (w : world) :
  fst (subprocess_run cmd w) = Ok tt
  /\ history_file (snd (subprocess_run cmd w)) = history_file w.
Proof.
  unfold subprocess_run. destruct (exits w); split; reflexivity.
Qed.

Lemma getitem_name (d : Device) :
  getitem (api_device d) "device_name" = Ok (VStr (device_name d)).
Proof. reflexivity. Qed.

Lemma caught_read_tool (e : environment) (filename : string) :
  caught (read_tool e filename).
Proof. unfold read_tool. caught_tac. Qed.

Lemma caughtM_read_deploy_files (files : list string) :
  caughtM (read_deploy_files files).
Proof.
  induction files as [|f files IH]; cbn [read_deploy_files].
  - caughtM_tac.
  - apply caughtM_bind; [caughtM_tac|intros e].
    apply caughtM_bind; [|intros item; apply caughtM_bind;
                                        [exact IH|intros; caughtM_tac]].
    apply caughtM_try_catch; [|intros; caughtM_tac].
    apply caughtM_bind; [|intros; caughtM_tac].
    apply caughtM_lift. apply caught_read_tool.
Qed.

(** The moment the remote shell is started: [update_history] has run, and
    since then only messages about the files to deploy have been logged. *)
Lemma connect_to_device_launch (d : Device) (interactive no_deploy : bool)
      (w : world) :
  exists cmd evs,
    connect_to_device (api_device d) interactive no_deploy w
    = subprocess_run cmd
        (emit_all evs
           (snd (update_history (api_device d)
                   (emitted (Log Info (ConnectingTo (VStr (device_name d)))) w))))
    /\ Forall is_log evs.
Proof.
  unfold connect_to_device. step. rewrite getitem_name. cbn beta iota.
  set (w0 := emitted (Log Info (ConnectingTo (VStr (device_name d)))) w).
  destruct (update_history_returns (api_device d) w0) as [[] Hret].
  destruct (update_history (api_device d) w0) as [r w1] eqn:Hup.
  cbn [fst snd] in *. subst r.
  destruct (ssh_base_api (if interactive then "Interactive"
                          else username (env w1)) d (env w1)) as [base Hbase].
  destruct no_deploy; [|destruct interactive].
  - rewrite Hbase. exists base, []. rewrite emit_all_nil.
    split; [reflexivity|constructor].
  - rewrite Hbase. exists base, []. rewrite emit_all_nil.
    split; [reflexivity|constructor].
  - unfold try_catch. step.
    destruct (read_deploy_files_effect (deploy_files (env w1)) w1)
      as (r & evs & Hr & Hevs).
    pose proof (caughtM_read_deploy_files (deploy_files (env w1)) w1) as Hc.
    rewrite Hr in Hc |- *. cbn [fst] in Hc.
    destruct r as [files_content|e].
    + rewrite Hbase. eexists _, evs. split; [reflexivity|exact Hevs].
    + simpl in Hc. rewrite Hc.
      change (emitted (Log Error (ErrorDeployingFiles e)) (emit_all evs w1))
        with (emit_all [Log Error (ErrorDeployingFiles e)] (emit_all evs w1)).
      rewrite emit_all_app. rewrite Hbase.
      eexists _, _. split; [reflexivity|].
      apply Forall_app. split; [exact Hevs|repeat constructor].
Qed.

(** ** Counting events *)

Lemma count_app (p : event -> bool) (a b : list event) :
  count p (a ++ b) = count p a + count p b.
Proof. unfold count. rewrite filter_app, length_app. reflexivity. Qed.

Section Emits.
Context {S : Type} (tr : S -> list event) (p : event -> bool).

Lemma emitsN_weaken {A} (n n' : nat) (m : M S A) :
  n <= n' -> emitsN tr p n m -> emitsN tr p n' m.
Proof.
  intros Hle Hm s. destruct (Hm s) as (evs & H1 & H2).
  exists evs. split; [exact H1|lia].
Qed.

Lemma emitsN_ret {A} (a : A) : emitsN tr p 0 (ret a).
Proof. intros s. exists []. rewrite app_nil_r. split; [reflexivity|auto]. Qed.

Lemma emitsN_raise {A} (e : exn) : emitsN tr p 0 (raise (A := A) e).
Proof. intros s. exists []. rewrite app_nil_r. split; [reflexivity|auto]. Qed.

Lemma emitsN_lift {A} (r : result A) : emitsN tr p 0 (lift r).
Proof. intros s. exists []. rewrite app_nil_r. split; [reflexivity|auto]. Qed.

Lemma emitsN_gets {A} (f : S -> A) : emitsN tr p 0 (gets f).
Proof. intros s. exists []. rewrite app_nil_r. split; [reflexivity|auto]. Qed.

Lemma emitsN_modify (f : S -> S) :
  (forall s, tr (f s) = tr s) -> emitsN tr p 0 (modify f).
Proof.
  intros Hf s. exists []. rewrite app_nil_r. split; [apply Hf|auto].
Qed.

Lemma emitsN_bind {A B} (n1 n2 : nat) (m : M S A) (k : A -> M S B) :
  emitsN tr p n1 m -> (forall a, emitsN tr p n2 (k a)) ->
  emitsN tr p (n1 + n2) (bind m k).
Proof.
  intros Hm Hk s. unfold bind. destruct (Hm s) as (e1 & H1 & C1).
  destruct (m s) as [[a|e] s']; cbn [snd] in *.
  - destruct (Hk a s') as (e2 & H2 & C2).
    exists (e1 ++ e2). rewrite H2, H1, app_assoc, count_app.
    split; [reflexivity|lia].
  - exists e1. split; [exact H1|lia].
Qed.

Lemma emitsN_bind0 {A B} (n : nat) (m : M S A) (k : A -> M S B) :
  emitsN tr p 0 m -> (forall a, emitsN tr p n (k a)) ->
  emitsN tr p n (bind m k).
Proof. intros Hm Hk. apply (emitsN_bind 0 n); assumption. Qed.

Lemma emitsN_try_catch {A} (n1 n2 : nat) (c : exn -> bool) (body : M S A)
      (handler : exn -> M S A) :
  emitsN tr p n1 body -> (forall e, emitsN tr p n2 (handler e)) ->
  emitsN tr p (n1 + n2) (try_catch c body handler).
Proof.
  intros Hb Hh s. unfold try_catch. destruct (Hb s) as (e1 & H1 & C1).
  destruct (body s) as [[a|e] s']; cbn [snd] in *.
  - exists e1. split; [exact H1|lia].
  - destruct (c e).
    + destruct (Hh e s') as (e2 & H2 & C2).
      exists (e1 ++ e2). rewrite H2, H1, app_assoc, count_app.
      split; [reflexivity|lia].
    + exists e1. split; [exact H1|lia].
Qed.

Lemma emitsN_try_catch0 {A} (c : exn -> bool) (body : M S A)
      (handler : exn -> M S A) :
  emitsN tr p 0 body -> (forall e, emitsN tr p 0 (handler e)) ->
  emitsN tr p 0 (try_catch c body handler).
Proof. intros Hb Hh. apply (emitsN_try_catch 0 0); assumption. Qed.

End Emits.

Lemma emitsN_emit (p : event -> bool) (e : event) :
  emitsN trace p (if p e then 1 else 0) (emit e).
Proof.
  intros w. exists [e]. split; [reflexivity|].
  unfold count. simpl. destruct (p e); simpl; lia.
Qed.

Lemma emitsN_emit0 (p : event -> bool) (e : event) :
  p e = false -> emitsN trace p 0 (emit e).
Proof. intros H. pose proof (emitsN_emit p e) as He. rewrite H in He. exact He. Qed.

Lemma emitsN_liftW {A} (p : event -> bool) (n : nat) (m : M world A) :
  emitsN trace p n m -> emitsN io_trace p n (liftW m).
Proof.
  intros Hm [inp w]. destruct (Hm w) as (evs & H1 & C1).
  exists evs. unfold liftW, io_trace. cbn [snd fst].
  destruct (m w) as [r w']. cbn [snd] in *. split; assumption.
Qed.

Lemma emitsN_input (p : event -> bool) : emitsN io_trace p 0 input.
Proof.
  intros [inp w]. exists []. unfold input, io_trace. cbn [fst snd].
  destruct inp; cbn [snd]; rewrite app_nil_r; split; auto.
Qed.

(** The methods that talk to the cache, the bastion and the remote shell
    emit none of the events of [p], as soon as [p] holds of no message but
    the offer of a refresh and of no request but an update. *)
Section Quiet.
Variable p : event -> bool.
Hypothesis Hlog : forall l m, m <> AskForceRefresh -> p (Log l m) = false.
Hypothesis Hprint : forall x, x <> OfferRefresh -> p (Print x) = false.
Hypothesis Hpost : p (Http PostApi) = false.
Hypothesis Hget : p (Http GetDevices) = false.
Hypothesis Hrun : forall c s, p (Run c s) = false.

Ltac quiet_step :=
  match goal with
  | |- emitsN _ _ 0 (ret _) => apply emitsN_ret
  | |- emitsN _ _ 0 (lift _) => apply emitsN_lift
  | |- emitsN _ _ 0 (gets _) => apply emitsN_gets
  | |- emitsN _ _ 0 (modify _) => apply emitsN_modify; intros; reflexivity
  | |- emitsN _ _ 0 (log _ _) => apply emitsN_emit0; apply Hlog; discriminate
  | |- emitsN _ _ 0 (print _) =>
      apply emitsN_emit0; apply Hprint; discriminate
  | |- emitsN _ _ 0 (bind _ _) => apply emitsN_bind0; [|intros]
  | |- emitsN _ _ 0 (try_catch _ _ _) => apply emitsN_try_catch0; [|intros]
  | |- emitsN _ _ 0 (match ?x with _ => _ end) => destruct x
  | |- emitsN _ _ 0 _ => assumption
  end.

Ltac quiet := repeat quiet_step.

Lemma quiet_load_cache (b : bool) : emitsN trace p 0 (load_cache b).
Proof. unfold load_cache. quiet. Qed.

Lemma quiet_save_cache (devices : value) : emitsN trace p 0 (save_cache devices).
Proof. unfold save_cache, compare_with_old, show_new_machines. quiet. Qed.

Lemma quiet_getpass : emitsN trace p 0 getpass.
Proof.
  intros w. exists []. unfold getpass. rewrite app_nil_r.
  destruct (tty w); split; auto.
Qed.

Lemma quiet_next_reply : emitsN trace p 0 next_reply.
Proof.
  intros w. exists []. unfold next_reply. rewrite app_nil_r.
  destruct (replies w) as [|[|status body] rest]; split; auto.
Qed.

Lemma quiet_send (r : request) : p (Http r) = false -> emitsN trace p 0 (send r).
Proof.
  intros Hr. unfold send. apply emitsN_bind0; [apply emitsN_emit0; exact Hr|].
  intros _. apply quiet_next_reply.
Qed.

Lemma quiet_authenticate : emitsN trace p 0 authenticate.
Proof.
  pose proof quiet_getpass. pose proof (quiet_send PostApi Hpost).
  unfold authenticate. quiet.
Qed.

Lemma quiet_fetch_devices : emitsN trace p 0 fetch_devices.
Proof.
  pose proof (quiet_send GetDevices Hget).
  unfold fetch_devices. quiet. apply quiet_save_cache.
Qed.

Lemma quiet_get_devices (b : bool) : emitsN trace p 0 (get_devices b).
Proof.
  pose proof quiet_fetch_devices. pose proof (quiet_load_cache b).
  unfold get_devices. quiet.
Qed.

Lemma quiet_update_history (device : value) :
  emitsN trace p 0 (update_history device).
Proof. unfold update_history. quiet. Qed.

Lemma quiet_read_deploy_files (files : list string) :
  emitsN trace p 0 (read_deploy_files files).
Proof.
  induction files as [|f files IH]; cbn [read_deploy_files]; quiet.
Qed.

Lemma quiet_subprocess_run (cmd : string) : emitsN trace p 0 (subprocess_run cmd).
Proof.
  intros w. unfold subprocess_run.
  destruct (exits w) as [|status rest].
  - exists [Run cmd 0%Z]. split; [reflexivity|].
    unfold count. simpl. rewrite Hrun. auto.
  - exists [Run cmd status]. split; [reflexivity|].
    unfold count. simpl. rewrite Hrun. auto.
Qed.

Lemma quiet_connect_to_device (device : value) (interactive no_deploy : bool) :
  emitsN trace p 0 (connect_to_device device interactive no_deploy).
Proof.
  pose proof (quiet_update_history device).
  pose proof quiet_subprocess_run.
  unfold connect_to_device. quiet.
  all: try apply quiet_read_deploy_files.
  all: try match goal with H : forall c, emitsN _ _ 0 (subprocess_run c) |- _ => apply H end.
Qed.

Lemma quiet_after_put (name : string) (response : Z * value) :
  emitsN trace p 0 (after_put name response).
Proof.
  pose proof (quiet_get_devices true).
  unfold after_put. quiet.
Qed.

End Quiet.

(** ** Updating a device *)

Lemma find_first_some {A} (q : A -> result bool) (l : list A) (d : A) :
  find_first q l = Ok (Some d) -> q d = Ok true.
Proof.
  induction l as [|x l IH]; simpl; [discriminate|].
  destruct (q x) as [[|]|e] eqn:Eq; simpl; intros H.
  - injection H as <-. exact Eq.
  - apply IH. exact H.
  - discriminate.
Qed.

Lemma py_eq_str (v : value) (s : string) : py_eq v (VStr s) = true -> v = VStr s.
Proof.
  destruct v as [|t|l|d]; simpl; try discriminate.
  intros H. apply String.eqb_eq in H. subst t. reflexivity.
Qed.

(** The device found by its name has that name, and is not empty. *)
Lemma find_device_found (name : string) (l : list value) (device : value) :
  find_device name l = Ok (Some device) ->
  getitem device "device_name" = Ok (VStr name) /\ truthy device = true.
Proof.
  intros H. apply find_first_some in H.
  destruct (getitem device "device_name") as [n|e] eqn:En; [|discriminate].
  simpl in H. injection H as H. apply py_eq_str in H. subst n.
  split; [reflexivity|].
  destruct device as [|t|l'|dd]; try discriminate.
  destruct dd; [discriminate|reflexivity].
Qed.

Lemma is_put_quiet_log l m : m <> AskForceRefresh -> is_put (Log l m) = false.
Proof. reflexivity. Qed.

Lemma is_put_quiet_print x : x <> OfferRefresh -> is_put (Print x) = false.
Proof. reflexivity. Qed.

(** After the request has been sent, no other update request follows. *)
Lemma put_then_rest (name : string) (body : value) (w2 : world) :
  exists evs,
    trace (snd (try_catch is_exception
                  (response <- send (PutDevice name body) ;;
                   after_put name response)
                  (fun e => log Error (ErrorUpdatingDevice e) ;; ret false) w2))
    = trace w2 ++ Http (PutDevice name body) :: evs
    /\ count is_put evs = 0.
Proof.
  assert (Hq : emitsN trace is_put 0
                 (try_catch is_exception
                    (response <- next_reply ;; after_put name response)
                    (fun e => log Error (ErrorUpdatingDevice e) ;; ret false))).
  { apply emitsN_try_catch0.
    - apply emitsN_bind0.
      + apply quiet_next_reply.
      + intros response.
        apply quiet_after_put; auto using is_put_quiet_log, is_put_quiet_print.
    - intros e. apply emitsN_bind0; [apply emitsN_emit0; reflexivity|].
      intros _. apply emitsN_ret. }
  destruct (Hq (emitted (Http (PutDevice name body)) w2)) as (evs & H1 & H2).
  exists evs. split; [|lia].
  unfold send. unfold try_catch, bind, emit, modify in *. cbn beta iota in *.
  rewrite H1. cbn [trace emitted set_trace]. rewrite <- app_assoc. reflexivity.
Qed.

(** The request [update_device] sends for a device found in the list
    [get_devices] returned: with a description only it carries
    [device.get('tags', [])] of that device, with tags only its
    [device.get('description', '')]. *)
Lemma update_device_request (name : string) (w w1 w2 : world)
        (devices : value) (l : list value) (device hote : value) :
  authenticate w = (Ok true, w1) ->
  get_devices false w1 = (Ok devices, w2) ->
  py_iter devices = Ok l ->
  find_device name l = Ok (Some device) ->
  getitem device "host" = Ok hote ->
  (forall text, exists existing evs,
      py_get device "tags" (VList []) = Ok existing
      /\ trace (snd (update_device name (Some text) None w))
         = trace w2
           ++ Http (PutDevice name
                      (VDict [("device_name", VStr name); ("host", hote);
                              ("description", VStr text);
                              ("tags", existing)])) :: evs
      /\ count is_put evs = 0)
  /\ (forall text parsed,
         mapR parse_tag (Py.split Py.comma text) = Ok parsed ->
         exists existing evs,
           py_get device "description" (VStr "") = Ok existing
           /\ trace (snd (update_device name None (Some text) w))
              = trace w2
                ++ Http (PutDevice name
                           (VDict [("device_name", VStr name); ("host", hote);
                                   ("description", existing);
                                   ("tags", VList parsed)])) :: evs
           /\ count is_put evs = 0).
Proof.
  intros Hauth Hget Hiter Hfind Hhost.
  destruct (find_device_found name l device Hfind) as [Hname Htruthy].
  assert (Hdict : forall k dflt, exists x, py_get device k dflt = Ok x).
  { intros k dflt. destruct device as [|t|l'|dd]; try discriminate.
    eexists. reflexivity. }
  split.
  - intros text.
    destruct (Hdict "tags" (VList [])) as [existing Hex].
    destruct (put_then_rest name
                (VDict [("device_name", VStr name); ("host", hote);
                        ("description", VStr text); ("tags", existing)]) w2)
      as (evs & Ht & Hc).
    exists existing, evs. split; [exact Hex|]. split; [|exact Hc].
    rewrite <- Ht. f_equal. f_equal.
    unfold update_device, try_catch at 1. unfold bind at 1. rewrite Hauth.
    cbn [negb]. unfold bind at 1. rewrite Hget.
    unfold bind at 1. unfold lift at 1. rewrite Hiter.
    unfold bind at 1. unfold lift at 1. rewrite Hfind.
    rewrite Htruthy. cbn [negb].
    unfold bind at 1. unfold lift at 1. rewrite Hname.
    unfold bind at 1. unfold lift at 1. rewrite Hhost.
    unfold bind at 1. unfold ret at 1.
    unfold bind at 1. unfold lift at 1. rewrite Hex.
    reflexivity.
  - intros text parsed Hparsed.
    destruct (Hdict "description" (VStr "")) as [existing Hex].
    destruct (put_then_rest name
                (VDict [("device_name", VStr name); ("host", hote);
                        ("description", existing); ("tags", VList parsed)]) w2)
      as (evs & Ht & Hc).
    exists existing, evs. split; [exact Hex|]. split; [|exact Hc].
    rewrite <- Ht. f_equal. f_equal.
    unfold update_device, try_catch at 1. unfold bind at 1. rewrite Hauth.
    cbn [negb]. unfold bind at 1. rewrite Hget.
    unfold bind at 1. unfold lift at 1. rewrite Hiter.
    unfold bind at 1. unfold lift at 1. rewrite Hfind.
    rewrite Htruthy. cbn [negb].
    unfold bind at 1. unfold lift at 1. rewrite Hname.
    unfold bind at 1. unfold lift at 1. rewrite Hhost.
    unfold bind at 1. unfold lift at 1. rewrite Hex.
    unfold bind at 1. unfold bind at 1. unfold lift at 1. rewrite Hparsed.
    reflexivity.
Qed.

(** ** Searching *)

(** C7.  With no filter at all (every argument absent or empty),
    [search_devices] returns what [get_devices] returns, as it is: nothing
    is filtered, nothing is shown, no input is read.  On a cache written
    by the tool this is the cached list in its order. *)
Theorem search_without_filters
        (query filter_regex filter_services filter_tags : option string)
        (interactive no_deploy : bool) (inp : list string) (w : world) :
  absent query = true -> absent filter_regex = true ->
  absent filter_services = true -> absent filter_tags = true ->
  search_devices query filter_regex filter_services filter_tags
                 interactive no_deploy inp w
  = (fst (get_devices false w), (inp, snd (get_devices false w)))
  /\ (forall t ds,
         cache_file w = Json (snapshot t ds) ->
         Forall keys_colon_free ds -> Forall values_colon_free ds ->
         fst (search_devices query filter_regex filter_services filter_tags
                             interactive no_deploy inp w)
         = Ok (api_devices ds)).
Proof.
  intros Hq Hr Hs Ht.
  assert (Hsearch :
            search_devices query filter_regex filter_services filter_tags
                           interactive no_deploy inp w
            = (fst (get_devices false w), (inp, snd (get_devices false w)))).
  { destruct inp as [|line rest]; cbn [search_devices];
      destruct (get_devices false w) as [[devices|e] w'];
      rewrite ?Hq, ?Hr, ?Hs, ?Ht; reflexivity. }
  split; [exact Hsearch|].
  intros t ds Hf Hk Hv. rewrite Hsearch. cbn [fst].
  rewrite (get_devices_snapshot t ds w Hf). cbn [fst].
  f_equal. unfold api_devices. f_equal. f_equal.
  rewrite <- (map_id ds) at 2. apply map_ext_in.
  intros d Hd. rewrite Forall_forall in Hk, Hv.
  rewrite reloaded_cut by (apply Hk; exact Hd).
  apply cut_tags_id. apply Hv. exact Hd.
Qed.

Lemma search_without_filters_witness :
  absent None = true /\ absent (Some "") = true
  /\ search_devices None (Some "") None None false false ["anything"] cached_world
     = (fst (get_devices false cached_world),
        (["anything"], snd (get_devices false cached_world))).
Proof.
  split; [reflexivity|]. split; [reflexivity|].
  exact (proj1 (search_without_filters None (Some "") None None false false
                  ["anything"] cached_world eq_refl eq_refl eq_refl eq_refl)).
Defined.

(** The tag filter on devices of the API's shape: a device with tags stops
    the search with [AttributeError], a device without tags is dropped. *)
Lemma lower_tags_api (d : Device) :
  lower_tags (api_device d)
  = if no_tags d then Ok [] else Raise AttributeError.
Proof.
  unfold lower_tags, no_tags. cbn [api_device py_get assoc String.eqb Ascii.eqb
    Bool.eqb rbind py_iter].
  destruct (tags d) as [|t ts]; reflexivity.
Qed.

Lemma all_tags_api (required : list string) (d : Device) :
  required <> [] ->
  allR (fun t => rendered <~ lower_tags (api_device d) ;;
                 Ok (existsb (String.eqb t) rendered)) required
  = if no_tags d then Ok false else Raise AttributeError.
Proof.
  intros Hne. destruct required as [|r rs]; [congruence|].
  cbn [allR]. rewrite lower_tags_api. destruct (no_tags d); reflexivity.
Qed.

Lemma filter_tags_api (required : list string) (ds : list Device) :
  required <> [] ->
  filterR (fun d =>
             allR (fun t => rendered <~ lower_tags d ;;
                            Ok (existsb (String.eqb t) rendered)) required)
          (map api_device ds)
  = if forallb no_tags ds then Ok [] else Raise AttributeError.
Proof.
  intros Hne. induction ds as [|d ds IH]; [reflexivity|].
  cbn [map filterR forallb]. rewrite (all_tags_api required d Hne).
  destruct (no_tags d); [|reflexivity].
  cbn [rbind andb]. rewrite IH. destruct (forallb no_tags ds); reflexivity.
Qed.

(** C1, what the code does.  On devices of the API's shape, the tag
    filter never keeps a device: it raises [AttributeError] as soon as a
    device has a tag (the tags are dictionaries, and [lower] is called on
    them) and drops the devices without tags.  On the two devices of the
    example, both tagged [env:prod], the search for [env:prod] raises
    instead of returning both, from [search_devices] and from the listing
    of [main] alike. *)
Theorem search_by_tags_raises (filter_tags : string) (ds : list Device) :
  filter_by_tags filter_tags (api_devices ds)
  = (if forallb no_tags ds then Ok (VList []) else Raise AttributeError)
  /\ fst (search_devices None None None (Some "env:prod") false false []
                         cached_world)
     = Raise AttributeError
  /\ fst (list_devices list_tagged cached_world) = Raise AttributeError.
Proof.
  split; [|split; reflexivity].
  unfold filter_by_tags, api_devices. cbn [py_iter rbind].
  rewrite filter_tags_api.
  - destruct (forallb no_tags ds); reflexivity.
  - intros H. apply map_eq_nil in H. revert H. apply split_nonempty.
Qed.

(** C2 at the failing input.  The cache and the bastion both list [web1]
    only, the search term matches nothing, and the user accepts every offer
    but the third: the flow offers a refresh three times and asks the
    bastion for the inventory twice before it gives up. *)
Theorem search_retries_again :
  let r := search_devices (Some "zzz") None None None false false
                          [""; ""; "n"] retry_world in
  fst r = Ok (VList [])
  /\ count is_offer (trace (snd (snd r))) = 3
  /\ count is_fetch (trace (snd (snd r))) = 2
  /\ fst (snd r) = [].
Proof. repeat split. Qed.

Lemma is_offer_quiet_log l m : m <> AskForceRefresh -> is_offer (Log l m) = false.
Proof. destruct l, m; intros H; try reflexivity. congruence. Qed.

Lemma is_offer_quiet_print x : x <> OfferRefresh -> is_offer (Print x) = false.
Proof. destruct x; intros H; try reflexivity. congruence. Qed.

Lemma no_offer_get_devices (b : bool) : emitsN trace is_offer 0 (get_devices b).
Proof.
  apply quiet_get_devices;
    auto using is_offer_quiet_log, is_offer_quiet_print.
Qed.

Lemma no_offer_authenticate : emitsN trace is_offer 0 authenticate.
Proof.
  apply quiet_authenticate;
    auto using is_offer_quiet_log, is_offer_quiet_print.
Qed.

Lemma no_offer_connect_to_device (device : value) (interactive no_deploy : bool) :
  emitsN trace is_offer 0 (connect_to_device device interactive no_deploy).
Proof.
  apply quiet_connect_to_device;
    auto using is_offer_quiet_log, is_offer_quiet_print.
Qed.

(** The sibling path of C2: connecting by name offers a refresh at most
    once, whatever is typed and whatever the bastion answers. *)
Lemma connect_by_name_offers_once (a : arguments) :
  emitsN io_trace is_offer 1 (connect_by_name a).
Proof.
  unfold connect_by_name.
  apply emitsN_bind0; [apply emitsN_liftW, no_offer_get_devices|intros devices].
  apply emitsN_bind0; [apply emitsN_lift|intros l].
  apply emitsN_bind0; [apply emitsN_lift|intros found].
  destruct found as [device|].
  { apply (emitsN_weaken _ _ 0 1); [lia|].
    apply emitsN_liftW, no_offer_connect_to_device. }
  apply emitsN_bind0;
    [apply emitsN_liftW, emitsN_emit0; reflexivity|intros _].
  apply (emitsN_bind _ _ 1 0).
  { apply emitsN_liftW. exact (emitsN_emit is_offer (Log Info AskForceRefresh)). }
  intros _.
  apply emitsN_bind0; [apply emitsN_input|intros line].
  match goal with |- emitsN _ _ 0 (if ?c then _ else _) => destruct c end;
    [|apply emitsN_ret].
  apply emitsN_bind0; [apply emitsN_liftW, no_offer_authenticate|intros ok].
  destruct ok; cbn [negb].
  - apply emitsN_bind0; [apply emitsN_liftW, no_offer_get_devices|intros ds].
    apply emitsN_bind0; [apply emitsN_lift|intros l'].
    apply emitsN_bind0; [apply emitsN_lift|intros found'].
    destruct found' as [device|].
    + apply emitsN_liftW, no_offer_connect_to_device.
    + apply emitsN_liftW, emitsN_emit0. reflexivity.
  - apply emitsN_bind0;
      [apply emitsN_liftW, emitsN_emit0; reflexivity|intros _].
    apply emitsN_raise.
Qed.

(** * Further properties of the code *)

(** ** The cache file, whatever it holds *)

(** X1.  [load_cache] never raises and only logs, whatever plain text
    the cache file holds (the message of a rejected timestamp quotes it):
    the call returns and the world is the old one with log lines added.
    With [force_refresh] the result is [None] whatever is on disk; without
    it, a missing file and a file [json.load] rejects both give [None]. *)
Theorem load_cache_fail_soft (force_refresh : bool) (w : world) :
  (plain_file (cache_file w) = true ->
   exists v evs,
     load_cache force_refresh w = (Ok v, emit_all evs w)
     /\ Forall is_log evs)
  /\ fst (load_cache true w) = Ok VNone
  /\ (cache_file w = NoFile \/ cache_file w = Garbage ->
      fst (load_cache false w) = Ok VNone).
Proof.
  split; [|split].
  - intros _. destruct force_refresh.
    { exists VNone, [Log Info ForcingCacheRefresh].
      split; [reflexivity|repeat constructor]. }
    unfold load_cache, try_catch. step.
    destruct (cache_file w) as [| |doc]; cbn [file_exists json_load].
    + exists VNone, [Log Info NoCacheFound].
      split; [reflexivity|repeat constructor].
    + exists VNone, [Log Error (ErrorLoadingCache ValueError)].
      split; [reflexivity|repeat constructor].
    + destruct (getitem doc "timestamp") as [stamp|e] eqn:Es.
      2:{ pose proof (caught_getitem doc "timestamp") as Hc.
          rewrite Es in Hc. simpl in Hc. rewrite Hc.
          exists VNone, [Log Error (ErrorLoadingCache e)].
          split; [reflexivity|repeat constructor]. }
      destruct (fromisoformat stamp) as [t|e] eqn:Et.
      2:{ pose proof (caught_fromisoformat stamp) as Hc.
          rewrite Et in Hc. simpl in Hc. rewrite Hc.
          exists VNone, [Log Error (ErrorLoadingCache e)].
          split; [reflexivity|repeat constructor]. }
      destruct (getitem doc "devices") as [devices|e] eqn:Ed.
      * exists devices, [Log Info (CacheFound (format_age (now w - t)))].
        split; [reflexivity|repeat constructor].
      * pose proof (caught_getitem doc "devices") as Hc.
        rewrite Ed in Hc. simpl in Hc. rewrite Hc.
        exists VNone, [Log Info (CacheFound (format_age (now w - t)));
                       Log Error (ErrorLoadingCache e)].
        split; [same w|repeat constructor].
  - reflexivity.
  - intros [Hf|Hf]; unfold load_cache, try_catch; step; rewrite Hf; reflexivity.
Qed.

Lemma load_cache_fail_soft_witness :
  cache_file garbage_world = Garbage
  /\ fst (load_cache false garbage_world) = Ok VNone.
Proof.
  split; [reflexivity|].
  exact (proj2 (proj2 (load_cache_fail_soft false garbage_world))
           (or_intror eq_refl)).
Defined.

(** X2.  [save_cache] is all or nothing, and never raises on plain
    text (the new machines are shown in a table): whatever value of plain
    strings it is given and whatever the cache file holds, it returns, and
    afterwards the cache file is either the old one or the complete
    document for the devices given, every one of them simplified; nothing
    else changes in the world but the trace.  One device without
    [device_name] is enough for nothing to be written. *)
Theorem save_cache_all_or_nothing (devices : value) (w : world) :
  (plain_value devices = true ->
   exists evs,
      save_cache devices w = (Ok tt, emit_all evs w)
      \/ exists l simplified,
           py_iter devices = Ok l
           /\ mapR simplified_device l = Ok simplified
           /\ save_cache devices w
              = (Ok tt,
                 emit_all evs
                   (set_cache_file (Json (cache_document (now w) simplified)) w)))
  /\ (forall l d,
         py_iter devices = Ok l -> In d l ->
         getitem d "device_name" = Raise KeyError ->
         cache_file (snd (save_cache devices w)) = cache_file w).
Proof.
  assert (Hmain :
    exists evs,
      save_cache devices w = (Ok tt, emit_all evs w)
      \/ exists l simplified,
           py_iter devices = Ok l
           /\ mapR simplified_device l = Ok simplified
           /\ save_cache devices w
              = (Ok tt,
                 emit_all evs
                   (set_cache_file (Json (cache_document (now w) simplified)) w))).
  { unfold save_cache, try_catch. step.
    assert (Hfail : forall e, caught (Raise (A := unit) e) ->
              exists evs,
                (if is_exception e
                 then (Ok tt, emitted (Log Error (ErrorSavingCache e)) w)
                 else (Raise e, w)) = (Ok tt, emit_all evs w)).
    { intros e He. simpl in He. rewrite He.
      exists [Log Error (ErrorSavingCache e)]. reflexivity. }
    destruct (cache_file w) as [| |doc] eqn:Ef; cbn [file_exists json_load].
    2:{ destruct (Hfail ValueError eq_refl) as [evs H]. exists evs. left.
        exact H. }
    all: cbn beta iota.
    all: try (destruct (getitem doc "devices") as [old|e] eqn:Eo;
              [|pose proof (caught_getitem doc "devices") as Hc;
                rewrite Eo in Hc; destruct (Hfail e Hc) as [evs H];
                exists evs; left; exact H]).
    all: destruct (py_iter devices) as [l|e] eqn:El;
      [|pose proof (caught_py_iter devices) as Hc; rewrite El in Hc;
        destruct (Hfail e Hc) as [evs H]; exists evs; left; exact H].
    all: destruct (mapR simplified_device l) as [simplified|e] eqn:Es;
      [|assert (Hc : caught (mapR simplified_device l)) by caught_tac;
        rewrite Es in Hc; destruct (Hfail e Hc) as [evs H];
        exists evs; left; exact H].
    all: destruct (py_len devices) as [total|e] eqn:Et;
      [|destruct devices; simpl in El, Et; discriminate].
    all: match goal with
         | |- context [compare_with_old ?o ?s ?w'] =>
             destruct (compare_with_old_effect o s) as (r & evs & Hc);
             pose proof (compare_with_old_caught o s w') as Hcaught;
             rewrite Hc in Hcaught |- *; simpl in Hcaught
         end.
    all: destruct r as [[]|e];
      [ exists (Log Info (CacheSaved total) :: evs)
      | rewrite Hcaught;
        exists (Log Info (CacheSaved total) :: evs
                ++ [Log Error (ErrorSavingCache e)]) ];
      right; exists l, simplified;
      (split; [first [reflexivity|assumption]|]);
      (split; [first [reflexivity|assumption]|]);
      unfold cache_document; same w. }
  split; [intros _; exact Hmain|].
  intros l d Hl Hd Hname.
  destruct Hmain as [evs [H|(l' & simplified & Hl' & Hs & H)]].
  - rewrite H. reflexivity.
  - exfalso. rewrite Hl in Hl'. injection Hl' as <-.
    clear H Hl. revert simplified Hs.
    induction l as [|x l IH]; intros simplified Hs; [destruct Hd|].
    simpl in Hs.
    destruct (simplified_device x) as [sx|ex] eqn:Ex; [|discriminate].
    destruct Hd as [Hd|Hd].
    + subst x. unfold simplified_device in Ex. rewrite Hname in Ex.
      discriminate.
    + simpl in Hs. destruct (mapR simplified_device l) as [sl|el] eqn:Esl;
        [|discriminate].
      apply (IH Hd) with (simplified := sl). reflexivity.
Qed.

Lemma save_cache_all_or_nothing_witness :
  cache_file (snd (save_cache (VList [api_device web1; nameless]) cached_world))
  = cache_file cached_world.
Proof.
  exact (proj2 (save_cache_all_or_nothing (VList [api_device web1; nameless])
                  cached_world)
           [api_device web1; nameless] nameless eq_refl
           (or_intror (or_introl eq_refl)) eq_refl).
Defined.

(** ** The history file, whatever it holds *)

(** Once the history is loaded, [update_history] either writes the new
    list or logs the exception of the first step that raised. *)
Lemma update_history_loaded (device : value) (w : world) (history : value) :
  (history_file w = NoFile /\ history = VList []) \/ history_file w = Json history ->
  (exists e,
      update_history device w
      = (Ok tt, emitted (Log Error (ErrorUpdatingHistory e)) w))
  \/ (exists new_entry l,
         as_list history = Ok l
         /\ history_entry device (now w) = Ok new_entry
         /\ exists older,
              List.length older <= 9
              /\ update_history device w
                 = (Ok tt,
                    set_history_file (Json (VList (new_entry :: older))) w)).
Proof.
  assert (Hfail : forall e, caught (Raise (A := unit) e) ->
            exists e',
              (if is_exception e
               then (Ok tt, emitted (Log Error (ErrorUpdatingHistory e)) w)
               else (Raise e, w))
              = (Ok tt, emitted (Log Error (ErrorUpdatingHistory e')) w)).
  { intros e He. exists e. simpl in He. rewrite He. reflexivity. }
  intros Hh. unfold update_history, try_catch. step.
  assert (Hload : (file_exists (history_file w) = false /\ history = VList [])
                  \/ (file_exists (history_file w) = true
                      /\ json_load (history_file w) = Ok history)).
  { destruct Hh as [[Hf Hv]|Hf]; rewrite Hf; [left|right]; split;
    first [reflexivity|assumption]. }
  destruct Hload as [[-> Hv]|[-> ->]]; [rewrite <- Hv|]; cbn beta iota; clear Hh.
  all: destruct (py_iter history) as [items|e] eqn:Ei;
    [|left; apply Hfail; pose proof (caught_py_iter history) as Hc;
      rewrite Ei in Hc; exact Hc].
  all: match goal with
       | |- context [find_index ?q ?its] =>
           assert (Hc : caught (find_index q its)) by caught_tac;
           destruct (find_index q its) as [idx|e];
           [clear Hc|left; apply Hfail; exact Hc]
       end.
  all: destruct (history_entry device (now w)) as [new_entry|e] eqn:Ee;
    [|left; apply Hfail; pose proof (caught_history_entry device (now w)) as Hc;
      rewrite Ee in Hc; exact Hc].
  all: destruct (as_list history) as [l|e] eqn:El;
    [|left; apply Hfail; destruct history; try discriminate El;
      injection El as <-; reflexivity].
  all: right; exists new_entry, l; repeat split;
    exists (firstn 9 match idx with Some i => pop i l | None => l end);
    (split; [apply firstn_le_length|reflexivity]).
Qed.

(** [update_history] either logs an error and leaves the file, or writes
    a list of at most ten entries that starts with the new one. *)
Lemma update_history_cases (device : value) (w : world) :
  (exists e,
      update_history device w
      = (Ok tt, emitted (Log Error (ErrorUpdatingHistory e)) w))
  \/ (exists new_entry older,
         history_entry device (now w) = Ok new_entry
         /\ List.length older <= 9
         /\ update_history device w
            = (Ok tt, set_history_file (Json (VList (new_entry :: older))) w)).
Proof.
  destruct (history_file w) as [| |doc] eqn:Hf.
  + destruct (update_history_loaded device w (VList [])) as
      [(e & H)|(n & l & _ & Hn & older & Hl & H)];
      [left; split; [exact Hf|reflexivity]
      |left; exists e; exact H
      |right; exists n, older; auto].
  + left. exists ValueError. unfold update_history, try_catch. step.
    rewrite Hf. reflexivity.
  + destruct (update_history_loaded device w doc) as
      [(e & H)|(n & l & _ & Hn & older & Hl & H)];
      [right; exact Hf
      |left; exists e; exact H
      |right; exists n, older; auto].
Qed.

(** X3.  [update_history] never raises and is all or nothing: either the
    history file stays as it is and an error is logged, or it becomes a
    list of at most ten entries whose first is the entry of the device.
    A history file that [json.load] rejects, or that holds anything but a
    list, is never repaired: the connection is not recorded. *)
Theorem update_history_all_or_nothing (device : value) (w : world) :
  ((exists e,
       update_history device w
       = (Ok tt, emitted (Log Error (ErrorUpdatingHistory e)) w))
   \/ (exists new_entry older,
          history_entry device (now w) = Ok new_entry
          /\ List.length older <= 9
          /\ update_history device w
             = (Ok tt, set_history_file (Json (VList (new_entry :: older))) w)))
  /\ (history_file w = Garbage \/
      (exists doc, history_file w = Json doc /\ as_list doc = Raise AttributeError) ->
      exists e,
        update_history device w
        = (Ok tt, emitted (Log Error (ErrorUpdatingHistory e)) w)).
Proof.
  split.
  - apply update_history_cases.
  - intros [Hf|(doc & Hf & Hdoc)].
    + exists ValueError. unfold update_history, try_catch. step.
      rewrite Hf. reflexivity.
    + destruct (update_history_loaded device w doc) as
        [(e & H)|(n & l & Hl & _)];
        [right; exact Hf|exists e; exact H|congruence].
Qed.

Lemma update_history_all_or_nothing_witness :
  history_file garbage_history = Garbage
  /\ exists e,
       update_history (api_device web1) garbage_history
       = (Ok tt, emitted (Log Error (ErrorUpdatingHistory e)) garbage_history).
Proof.
  split; [reflexivity|].
  exact (proj2 (update_history_all_or_nothing (api_device web1) garbage_history)
           (or_introl eq_refl)).
Defined.

(** ** Authentication *)



(** ** The filters of the search *)

Lemma upper_services_api (d : Device) :
  upper_services (api_device d) = Ok (map Py.upper (services d)).
Proof.
  unfold upper_services.
  cbn [api_device py_get assoc String.eqb Ascii.eqb Bool.eqb rbind py_iter].
  rewrite (mapR_map_ok _ api_service Py.upper); [|intros s; reflexivity].
  reflexivity.
Qed.

Lemma all_services_api (required : list string) (d : Device) :
  allR (fun s => names <~ upper_services (api_device d) ;;
                 Ok (existsb (String.eqb s) names)) required
  = Ok (forallb (fun s => existsb (String.eqb s) (map Py.upper (services d)))
                required).
Proof.
  rewrite upper_services_api. cbn [rbind].
  induction required as [|r rs IH]; [reflexivity|].
  cbn [allR forallb rbind].
  destruct (existsb (String.eqb r) (map Py.upper (services d))); [exact IH|].
  reflexivity.
Qed.

Lemma filter_by_services_api (filter_services : string) (ds : list Device) :
  filter_by_services filter_services (api_devices ds)
  = Ok (api_devices (filter (matches_services filter_services) ds)).
Proof.
  unfold filter_by_services, api_devices. cbn [py_iter rbind].
  rewrite (filterR_map_ok _ api_device (matches_services filter_services)).
  - reflexivity.
  - intros d. apply all_services_api.
Qed.

Lemma filter_by_query_api (query : string) (ds : list Device) :
  filter_by_query query (api_devices ds)
  = Ok (api_devices (filter (matches_query query) ds)).
Proof.
  unfold filter_by_query, api_devices. cbn [py_iter rbind].
  rewrite (filterR_map_ok _ api_device (matches_query query)).
  - reflexivity.
  - intros d. unfold matches_query, orR, lower_contains.
    cbn [api_device getitem py_get assoc String.eqb Ascii.eqb Bool.eqb rbind
         as_str].
    destruct (Py.contains (Py.lower query) (Py.lower (device_name d)));
      [reflexivity|].
    destruct (Py.contains (Py.lower query) (Py.lower (host d))); reflexivity.
Qed.

Lemma filter_by_regex_api (e : environment) (filter_regex : string)
      (search : string -> bool) (ds : list Device) :
  re_compile e filter_regex = Some search ->
  filter_by_regex e filter_regex (api_devices ds)
  = Ok (api_devices (filter (matches_regex search) ds)).
Proof.
  intros Hc. unfold filter_by_regex, api_devices. rewrite Hc.
  cbn [py_iter rbind].
  rewrite (filterR_map_ok _ api_device (matches_regex search)).
  - reflexivity.
  - intros d. unfold matches_regex, orR, re_search.
    cbn [api_device getitem py_get assoc String.eqb Ascii.eqb Bool.eqb rbind].
    destruct (search (device_name d)); [reflexivity|].
    destruct (search (host d)); reflexivity.
Qed.

Lemma filter_filter {A} (p q : A -> bool) (l : list A) :
  filter q (filter p l) = filter (fun x => p x && q x) l.
Proof.
  induction l as [|x l IH]; [reflexivity|].
  cbn [filter]. destruct (p x); cbn [andb filter]; rewrite IH; reflexivity.
Qed.

Lemma filter_all {A} (l : list A) : filter (fun _ => true) l = l.
Proof. induction l as [|x l IH]; [reflexivity|]. cbn [filter]. f_equal. exact IH. Qed.

Lemma filter_if_given {A} (arg : option string) (f : string -> A -> bool)
      (l : list A) :
  filter (if_given arg f) l
  = match arg with
    | Some s => if String.eqb s "" then l else filter (f s) l
    | None => l
    end.
Proof.
  destruct arg as [s|]; unfold if_given.
  - destruct (String.eqb s ""); [apply filter_all|reflexivity].
  - apply filter_all.
Qed.

(** Without [--tags], the filters keep the devices that pass [kept]. *)
Lemma apply_filters_kept (e : environment)
    (query filter_regex filter_services : option string) (ds : list Device)
    (search : string -> bool) :
  compiled e filter_regex = Some search ->
  apply_filters e query filter_regex filter_services None (api_devices ds)
  = Ok (api_devices (filter (kept search query filter_services) ds)).
Proof.
  intros Hc. unfold apply_filters.
  assert (H1 : when_given filter_regex (filter_by_regex e) (api_devices ds)
               = Ok (api_devices (filter (matches_regex search) ds))).
  { unfold compiled in Hc. destruct filter_regex as [r|]; cbn [when_given].
    - destruct (String.eqb r "").
      + injection Hc as <-. unfold matches_regex. cbn [orb].
        rewrite filter_all. reflexivity.
      + apply filter_by_regex_api. exact Hc.
    - injection Hc as <-. unfold matches_regex. cbn [orb].
      rewrite filter_all. reflexivity. }
  rewrite H1. cbn [rbind].
  assert (H2 : forall l,
             when_given filter_services filter_by_services (api_devices l)
             = Ok (api_devices
                     (filter (if_given filter_services matches_services) l))).
  { intros l. rewrite filter_if_given.
    destruct filter_services as [s|]; cbn [when_given]; [|reflexivity].
    destruct (String.eqb s ""); [reflexivity|].
    apply filter_by_services_api. }
  rewrite H2. cbn [rbind when_given].
  assert (H3 : forall l,
             when_given query filter_by_query (api_devices l)
             = Ok (api_devices (filter (if_given query matches_query) l))).
  { intros l. rewrite filter_if_given.
    destruct query as [s|]; cbn [when_given]; [|reflexivity].
    destruct (String.eqb s ""); [reflexivity|].
    apply filter_by_query_api. }
  rewrite H3. rewrite !filter_filter. reflexivity.
Qed.

(** X5.  On devices of the API's shape, ASCII texts and without
    [--tags], the search keeps exactly the devices that pass every
    criterion given, in the order of the list: the pattern found in name,
    host or description; every service asked for among the device's
    services (case apart); the text part of name, host or description
    (case apart).  A pattern that does not compile raises [re.error]
    whatever the other arguments are. *)
Theorem filters_select (e : environment)
    (query filter_regex filter_services : option string) (ds : list Device) :
  (forall search, compiled e filter_regex = Some search ->
     ascii_arg query = true -> ascii_arg filter_services = true ->
     forallb ascii_device ds = true ->
     apply_filters e query filter_regex filter_services None (api_devices ds)
     = Ok (api_devices (filter (kept search query filter_services) ds)))
  /\ (compiled e filter_regex = None ->
      forall filter_tags,
        apply_filters e query filter_regex filter_services filter_tags
          (api_devices ds)
        = Raise ReError).
Proof.
  split.
  - intros search Hc _ _ _. apply apply_filters_kept. exact Hc.
  - intros Hc filter_tags. unfold compiled in Hc. unfold apply_filters.
    destruct filter_regex as [r|]; [|discriminate].
    cbn [when_given]. destruct (String.eqb r ""); [discriminate|].
    unfold filter_by_regex. rewrite Hc. reflexivity.
Qed.

Lemma filters_select_witness :
  apply_filters env0 (Some "web") None (Some "ssh") None
    (api_devices [web1; db1])
  = Ok (api_devices
          (filter (kept (fun _ => true) (Some "web") (Some "ssh")) [web1; db1])).
Proof.
  exact (proj1 (filters_select env0 (Some "web") None (Some "ssh") [web1; db1])
           (fun _ => true) eq_refl eq_refl eq_refl eq_refl).
Defined.

Lemma split_sep_end (sep : ascii) (s : string) :
  exists p ps, Py.split sep (s ++ String sep "")%string = p :: (ps ++ [""])%list.
Proof.
  induction s as [|c s (p & ps & IH)].
  - exists "", []. cbn [append Py.split]. rewrite Ascii.eqb_refl. reflexivity.
  - cbn [append Py.split]. rewrite IH. destruct (Ascii.eqb c sep).
    + exists "", (p :: ps). reflexivity.
    + exists (String c p), ps. reflexivity.
Qed.

Lemma upper_empty (s : string) : Py.upper s = "" -> s = "".
Proof. destruct s; [reflexivity|discriminate]. Qed.

Lemma no_blank_service (d : Device) :
  ~ In "" (services d) ->
  existsb (String.eqb "") (map Py.upper (services d)) = false.
Proof.
  intros Hn. destruct (existsb _ _) eqn:E; [|reflexivity].
  apply existsb_exists in E. destruct E as (x & Hx & Hq).
  apply String.eqb_eq in Hq. subst x. apply in_map_iff in Hx.
  destruct Hx as (s & Hs & Hin). apply upper_empty in Hs. subst s.
  contradiction.
Qed.

Lemma forallb_In_false {A} (f : A -> bool) (l : list A) (x : A) :
  In x l -> f x = false -> forallb f l = false.
Proof.
  intros Hin Hf. destruct (forallb f l) eqn:E; [|reflexivity].
  rewrite forallb_forall in E. rewrite (E x Hin) in Hf. discriminate.
Qed.

Lemma filter_none {A} (f : A -> bool) (l : list A) :
  Forall (fun x => f x = false) l -> filter f l = [].
Proof.
  induction 1 as [|x l Hx _ IH]; [reflexivity|].
  cbn [filter]. rewrite Hx. exact IH.
Qed.

(** X6.  A list of services that ends with a comma asks for the service
    with the empty name as well: the search then keeps none of the
    devices whose services all have a name, whatever the other criteria
    are. *)
Theorem services_trailing_comma (e : environment)
    (query filter_regex : option string) (s : string) (ds : list Device)
    (search : string -> bool) :
  compiled e filter_regex = Some search ->
  Forall (fun d => ~ In "" (services d)) ds ->
  apply_filters e query filter_regex (Some (s ++ ",")%string) None (api_devices ds)
  = Ok (api_devices []).
Proof.
  intros Hc Hds. rewrite (apply_filters_kept _ _ _ _ _ search Hc).
  rewrite filter_none; [reflexivity|].
  apply Forall_forall. intros d Hd. rewrite Forall_forall in Hds.
  unfold kept. destruct (matches_regex search d); [|reflexivity].
  cbn [andb]. apply andb_false_iff. left. unfold if_given.
  destruct (String.eqb (s ++ ",")%string "") eqn:E.
  { apply String.eqb_eq in E. destruct s; discriminate E. }
  unfold matches_services, required_services.
  destruct (split_sep_end Py.comma s) as (p & ps & Hsplit).
  change (String Py.comma "") with "," in Hsplit. rewrite Hsplit.
  apply forallb_In_false with (x := "").
  - cbn [map]. right. rewrite map_app. apply in_or_app. right. left. reflexivity.
  - apply no_blank_service. apply Hds. exact Hd.
Qed.

Lemma services_trailing_comma_witness :
  apply_filters env0 None None (Some ("SSH" ++ ",")%string) None
    (api_devices [web1; db1])
  = Ok (api_devices []).
Proof.
  apply (services_trailing_comma env0 None None "SSH" [web1; db1] (fun _ => true)).
  - reflexivity.
  - constructor; [|constructor; [|constructor]]; cbn; intuition discriminate.
Defined.

(** ** Reading the device list from the cache *)

Lemma load_cache_document (t : Z) (l : list value) (w : world) :
  cache_file w = Json (cache_document t l) ->
  load_cache false w
  = (Ok (VList l), emitted (Log Info (CacheFound (format_age (now w - t)))) w).
Proof.
  intros Hf. unfold load_cache, try_catch. step. rewrite Hf.
  cbn [file_exists json_load cache_document getitem assoc String.eqb Ascii.eqb
       Bool.eqb]. cbn beta iota.
  rewrite fromisoformat_isoformat. reflexivity.
Qed.

(** X7.  The cache never expires: whenever the cache file holds a list the
    tool saved, however long ago, [get_devices] answers from it (with
    each tag as it reads back), sends no request, uses none of the
    bastion's replies and leaves the cache file as it is. *)
Theorem cache_never_expires (t : Z) (ds : list Device) (w : world) :
  cache_file w = Json (snapshot t ds) ->
  fst (get_devices false w) = Ok (api_devices (map reloaded ds))
  /\ replies (snd (get_devices false w)) = replies w
  /\ cache_file (snd (get_devices false w)) = cache_file w
  /\ filter is_http (trace (snd (get_devices false w)))
     = filter is_http (trace w).
Proof.
  intros Hf. rewrite (get_devices_snapshot t ds w Hf). cbn [fst snd].
  destruct w as [en cf hf nw pw tt rp ex tr]. repeat split.
  cbn [emitted set_trace trace]. rewrite filter_app. cbn [filter is_http].
  apply app_nil_r.
Qed.

Lemma cache_never_expires_witness :
  fst (get_devices false cached_world)
  = Ok (api_devices (map reloaded [web1; db1]))
  /\ replies (snd (get_devices false cached_world)) = replies cached_world
  /\ cache_file (snd (get_devices false cached_world)) = cache_file cached_world
  /\ filter is_http (trace (snd (get_devices false cached_world)))
     = filter is_http (trace cached_world).
Proof.
  apply (cache_never_expires 0 [web1; db1] cached_world). reflexivity.
Defined.

Lemma split_tag_str (t : string) :
  (exists v, split_tag (VStr t) = Ok v) \/ split_tag (VStr t) = Raise IndexError.
Proof.
  unfold split_tag, index. cbn [as_str rbind].
  destruct (Py.split Py.colon t) as [|a [|b r]]; cbn; eauto.
Qed.

Lemma split_tag_colon_free (t : string) :
  colon_free t = true -> split_tag (VStr t) = Raise IndexError.
Proof.
  intros Ht. unfold split_tag, index. cbn [as_str rbind].
  rewrite (split_colon_free t Ht). reflexivity.
Qed.

Lemma split_tags_colon_free (tgs : list string) (s : string) :
  In s tgs -> colon_free s = true ->
  mapR split_tag (map VStr tgs) = Raise IndexError.
Proof.
  intros Hin Hs. induction tgs as [|t tgs IH]; [contradiction|].
  cbn [map mapR]. destruct Hin as [->|Hin].
  - rewrite (split_tag_colon_free s Hs). reflexivity.
  - destruct (split_tag_str t) as [[v ->]| ->]; [|reflexivity].
    cbn [rbind]. rewrite (IH Hin). reflexivity.
Qed.

Lemma mapR_raise_after {A B C} (f : B -> result C) (g : A -> B)
      (pre : list A) (x : B) (rest : list B) (e : exn) :
  (forall a, exists c, f (g a) = Ok c) -> f x = Raise e ->
  mapR f (map g pre ++ x :: rest) = Raise e.
Proof.
  intros Hok Hx. induction pre as [|a pre IH]; cbn [map app mapR].
  - rewrite Hx. reflexivity.
  - destruct (Hok a) as [c ->]. cbn [rbind]. rewrite IH. reflexivity.
Qed.

(** X8.  A tag of the cache file without a colon is not tolerated: when
    some record of the cache has such a tag (the records before it being
    as the tool writes them), [get_devices] raises [IndexError] instead of
    returning a list, having only logged the age of the cache. *)
Theorem cached_tag_without_colon (t : Z) (pre : list Device) (d : Device)
    (tgs : list string) (s : string) (rest : list value) (w : world) :
  In s tgs -> colon_free s = true ->
  cache_file w
  = Json (cache_document t
            (map cached_device pre ++ cached_with_tags d tgs :: rest)) ->
  get_devices false w
  = (Raise IndexError,
     emitted (Log Info (CacheFound (format_age (now w - t)))) w).
Proof.
  intros Hin Hs Hf. unfold get_devices. cbn [negb]. unfold bind.
  rewrite (load_cache_document t _ w Hf).
  unfold lift, ret. cbn [py_iter].
  rewrite (mapR_raise_after from_cache cached_device pre _ rest IndexError).
  - reflexivity.
  - intros a. eexists. apply from_cache_cached.
  - unfold from_cache.
    cbn [cached_with_tags getitem assoc String.eqb Ascii.eqb Bool.eqb py_get
         py_iter rbind].
    rewrite (split_tags_colon_free tgs s Hin Hs). reflexivity.
Qed.

Lemma cached_tag_without_colon_witness :
  get_devices false edited_world
  = (Raise IndexError,
     emitted (Log Info (CacheFound (format_age (now edited_world - 0))))
       edited_world).
Proof.
  apply (cached_tag_without_colon 0 [web1] db1 ["env:prod"; "prod"] "prod" []
           edited_world).
  - right. left. reflexivity.
  - reflexivity.
  - reflexivity.
Defined.

(** ** The command of a connection *)

Lemma emit_all_emitted (x : event) (evs : list event) (w : world) :
  emit_all evs (emitted x w) = emit_all (x :: evs) w.
Proof. destruct w. world_eq. Qed.

(** The deployment loop skips the missing files, logging each, and stops
    at the first file it cannot read. *)
Lemma read_deploy_files_found (files : list string) (w : world) :
  read_deploy_files files w
  = ((if readable (env w) files then Ok (found (env w) files)
      else Raise OSError),
     emit_all (map (fun f => Log Error (FileNotFound f)) (missing (env w) files))
              w).
Proof.
  revert w. induction files as [|filename rest IH]; intros w.
  - cbn [read_deploy_files readable forallb found missing map]. unfold ret.
    rewrite emit_all_nil. reflexivity.
  - cbn [read_deploy_files readable forallb found missing].
    unfold try_catch. step. unfold read_tool.
    destruct (sshtools (env w) filename) as [c| |]; cbn [andb is_file_not_found].
    + rewrite IH. fold (readable (env w) rest).
      destruct (readable (env w) rest); reflexivity.
    + rewrite IH.
      replace (env (emitted (Log Error (FileNotFound filename)) w)) with (env w)
        by (destruct w; reflexivity).
      fold (readable (env w) rest). cbn [map]. rewrite emit_all_emitted.
      destruct (readable (env w) rest); reflexivity.
    + cbn [map]. rewrite emit_all_nil. reflexivity.
Qed.

(** What [update_history] leaves untouched. *)
Lemma update_history_frame (device : value) (w : world) :
  exists w' evs,
    update_history device w = (Ok tt, w')
    /\ env w' = env w /\ exits w' = exits w
    /\ trace w' = (trace w ++ evs)%list /\ Forall is_log evs.
Proof.
  destruct (update_history_cases device w)
    as [(e & ->)|(n & older & _ & _ & ->)].
  - exists (emitted (Log Error (ErrorUpdatingHistory e)) w),
      [Log Error (ErrorUpdatingHistory e)].
    destruct w. repeat split. repeat constructor.
  - exists (set_history_file (Json (VList (n :: older))) w), [].
    destruct w. repeat split; [|constructor].
    cbn [set_history_file trace]. rewrite app_nil_r. reflexivity.
Qed.

Lemma trace_emit_all (evs : list event) (w : world) :
  trace (emit_all evs w) = (trace w ++ evs)%list.
Proof. destruct w. reflexivity. Qed.

Lemma trace_emitted (x : event) (w : world) :
  trace (emitted x w) = (trace w ++ [x])%list.
Proof. destruct w. reflexivity. Qed.

Lemma ssh_base_line (user : string) (d : Device) (e : environment) :
  ssh_base user (api_device d) e = Ok (ssh_line user d e).
Proof. reflexivity. Qed.

Lemma subprocess_run_trace (cmd : string) (w : world) :
  exists status w',
    subprocess_run cmd w = (Ok tt, w')
    /\ trace w' = (trace w ++ [Run cmd status])%list.
Proof.
  unfold subprocess_run. destruct (exits w) as [|status rest] eqn:Hx.
  - exists 0%Z, (emitted (Run cmd 0) w). destruct w. split; reflexivity.
  - exists status, (emitted (Run cmd status) (set_exits rest w)).
    destruct w. split; reflexivity.
Qed.

(** The command a connection runs, and what comes before it. *)
Lemma connect_to_device_command (d : Device) (interactive no_deploy : bool)
    (w : world) :
  exists evs status w',
    connect_to_device (api_device d) interactive no_deploy w = (Ok tt, w')
    /\ trace w'
       = (trace w ++ evs
          ++ [Run (ssh_command interactive no_deploy d (env w)) status])%list
    /\ Forall is_log evs.
Proof.
  unfold connect_to_device. step. rewrite getitem_name. cbn beta iota.
  set (w0 := emitted (Log Info (ConnectingTo (VStr (device_name d)))) w).
  destruct (update_history_frame (api_device d) w0)
    as (w1 & evs1 & -> & He & _ & Ht & Hl).
  cbn beta iota.
  assert (He' : env w1 = env w) by (rewrite He; destruct w; reflexivity).
  assert (Ht' : trace w1
                = (trace w
                   ++ Log Info (ConnectingTo (VStr (device_name d))) :: evs1)%list).
  { rewrite Ht. subst w0. destruct w. cbn [emitted set_trace trace].
    rewrite <- app_assoc. reflexivity. }
  assert (Hl' : Forall is_log
                  (Log Info (ConnectingTo (VStr (device_name d))) :: evs1))
    by (constructor; [exact I|exact Hl]).
  clearbody w0. clear He Ht Hl.
  rewrite !ssh_base_line. unfold ssh_command.
  destruct no_deploy; [|destruct interactive]; cbn [orb].
  - destruct (subprocess_run_trace
                (ssh_line (if interactive then "Interactive"
                           else username (env w1)) d (env w1)) w1)
      as (status & w' & -> & Hw').
    eexists _, status, w'. split; [reflexivity|]. split; [|exact Hl'].
    rewrite Hw', Ht', He', <- app_assoc. reflexivity.
  - destruct (subprocess_run_trace (ssh_line "Interactive" d (env w1)) w1)
      as (status & w' & -> & Hw').
    eexists _, status, w'. split; [reflexivity|]. split; [|exact Hl'].
    rewrite Hw', Ht', He', <- app_assoc. reflexivity.
  - unfold try_catch. rewrite read_deploy_files_found.
    set (logs := map (fun f => Log Error (FileNotFound f))
                     (missing (env w1) (deploy_files (env w1)))).
    assert (Hlogs : Forall is_log logs).
    { subst logs. apply Forall_forall. intros x Hx. apply in_map_iff in Hx.
      destruct Hx as (f & <- & _). exact I. }
    unfold deploy_command. rewrite <- He'.
    destruct (readable (env w1) (deploy_files (env w1))).
    + match goal with
      | |- context [subprocess_run ?c ?s] =>
          destruct (subprocess_run_trace c s) as (status & w' & Hr & Hw')
      end.
      exists ((Log Info (ConnectingTo (VStr (device_name d))) :: evs1) ++ logs)%list,
        status, w'.
      split; [exact Hr|]. split.
      * rewrite Hw', trace_emit_all, Ht', <- !app_assoc. reflexivity.
      * apply Forall_app. split; assumption.
    + cbn [is_exception].
      match goal with
      | |- context [subprocess_run ?c ?s] =>
          destruct (subprocess_run_trace c s) as (status & w' & Hr & Hw')
      end.
      exists ((Log Info (ConnectingTo (VStr (device_name d))) :: evs1)
              ++ logs ++ [Log Error (ErrorDeployingFiles OSError)])%list,
        status, w'.
      split; [exact Hr|]. split.
      * rewrite Hw', trace_emitted, trace_emit_all, Ht', <- !app_assoc.
        reflexivity.
      * apply Forall_app. split; [assumption|].
        apply Forall_app. split; [assumption|]. repeat constructor.
Qed.








(** ** Updating a device: what cannot happen *)

Lemma returns_caughtM {S A} (m : M S A) : returns m -> caughtM m.
Proof. intros H s. destruct (H s) as [a ->]. exact I. Qed.

Lemma caughtM_getpass : caughtM getpass.
Proof. intros w. unfold getpass. destruct (tty w); exact eq_refl || exact I. Qed.

Lemma caughtM_next_reply : caughtM next_reply.
Proof.
  intros w. unfold next_reply.
  destruct (replies w) as [|[|status body] rest]; exact eq_refl || exact I.
Qed.

Lemma caughtM_send (r : request) : caughtM (send r).
Proof.
  unfold send. apply caughtM_bind; [apply caughtM_emit|].
  intros _. apply caughtM_next_reply.
Qed.

Lemma caughtM_authenticate : caughtM authenticate.
Proof.
  pose proof caughtM_getpass. pose proof (caughtM_send PostApi).
  unfold authenticate. caughtM_tac; assumption.
Qed.

Lemma caughtM_load_cache (b : bool) : caughtM (load_cache b).
Proof. unfold load_cache. caughtM_tac. Qed.

Lemma caughtM_fetch_devices : caughtM fetch_devices.
Proof.
  pose proof (caughtM_send GetDevices).
  pose proof (fun d => returns_caughtM _ (save_cache_returns d)).
  unfold fetch_devices. caughtM_tac; auto.
Qed.

Lemma caughtM_get_devices (b : bool) : caughtM (get_devices b).
Proof.
  pose proof caughtM_fetch_devices. pose proof (caughtM_load_cache b).
  unfold get_devices. caughtM_tac; auto.
Qed.

Lemma caughtM_after_put (name : string) (response : Z * value) :
  caughtM (after_put name response).
Proof.
  pose proof (caughtM_get_devices true). unfold after_put. caughtM_tac; auto.
Qed.

Lemma caught_parse_tag (tag : string) : caught (parse_tag tag).
Proof. unfold parse_tag. caught_tac. Qed.

Lemma caught_find_device (name : string) (l : list value) :
  caught (find_device name l).
Proof. unfold find_device. caught_tac. Qed.

(** [update_device] never lets an exception out. *)
Lemma update_device_returns (name : string) (descr tags : option string) :
  returns (update_device name descr tags).
Proof.
  pose proof caughtM_authenticate. pose proof (caughtM_get_devices false).
  pose proof caught_parse_tag. pose proof (caught_find_device name).
  pose proof (caughtM_after_put name).
  unfold update_device. apply returns_try_except.
  - caughtM_tac; auto using caughtM_send.
  - intros e s. eexists. reflexivity.
Qed.

Ltac silent_step :=
  match goal with
  | |- emitsN _ _ 0 (ret _) => apply emitsN_ret
  | |- emitsN _ _ 0 (lift _) => apply emitsN_lift
  | |- emitsN _ _ 0 (gets _) => apply emitsN_gets
  | |- emitsN _ _ 0 (modify _) => apply emitsN_modify; intros; reflexivity
  | |- emitsN _ _ 0 (log _ _) => apply emitsN_emit0; reflexivity
  | |- emitsN _ _ 0 (print _) => apply emitsN_emit0; reflexivity
  | |- emitsN _ _ 0 (emit _) => apply emitsN_emit0; reflexivity
  | |- emitsN _ _ 0 authenticate =>
      apply quiet_authenticate; intros; reflexivity
  | |- emitsN _ _ 0 (get_devices _) =>
      apply quiet_get_devices; intros; reflexivity
  | |- emitsN _ _ 0 (after_put _ _) =>
      apply quiet_after_put; intros; reflexivity
  | |- emitsN _ _ 0 (send _) => apply quiet_send; reflexivity
  | |- emitsN _ _ 1 (bind (send (PutDevice _ _)) _) =>
      apply (emitsN_bind _ _ 1 0); [|intros]
  | |- emitsN _ _ 1 (send (PutDevice ?n ?b)) =>
      unfold send; apply (emitsN_bind _ _ 1 0);
      [apply (emitsN_emit is_put (Http (PutDevice n b)))
      |intros; apply quiet_next_reply]
  | |- emitsN _ _ 1 (try_catch _ _ _) =>
      apply (emitsN_try_catch _ _ 1 0); [|intros]
  | |- emitsN _ _ _ (bind _ _) => apply emitsN_bind0; [|intros]
  | |- emitsN _ _ 0 (try_catch _ _ _) => apply emitsN_try_catch0; [|intros]
  | |- emitsN _ _ _ (match ?x with _ => _ end) => destruct x
  | |- emitsN _ _ 0 _ => assumption
  | |- emitsN _ _ 1 _ => apply (emitsN_weaken _ _ 0 1); [lia|]
  end.

Ltac silent := repeat silent_step.

Lemma update_device_one_put (name : string) (descr tags : option string) :
  emitsN trace is_put 1 (update_device name descr tags).
Proof. unfold update_device. silent. Qed.

Lemma update_device_no_run (name : string) (descr tags : option string) :
  emitsN trace is_run 0 (update_device name descr tags).
Proof. unfold update_device. silent. Qed.

Section TrueNeedsPut.

Lemma tnp_false (m : M world unit) :
  emitsN trace is_put 0 m -> true_needs_put (m ;; ret false).
Proof.
  intros Hm w. destruct (Hm w) as (evs & Ht & Hc). exists evs.
  unfold bind, ret. destruct (m w) as [[[]|e] w']; cbn [fst snd] in *.
  all: split; [exact Ht|]; split; [lia|discriminate].
Qed.

Lemma tnp_bind0 {A} (m : M world A) (k : A -> M world bool) :
  emitsN trace is_put 0 m -> (forall a, true_needs_put (k a)) ->
  true_needs_put (bind m k).
Proof.
  intros Hm Hk w. destruct (Hm w) as (e1 & H1 & C1). unfold bind.
  destruct (m w) as [[a|e] w']; cbn [fst snd] in *.
  - destruct (Hk a w') as (e2 & H2 & C2 & T2).
    exists (e1 ++ e2)%list. rewrite H2, H1, app_assoc, count_app.
    split; [reflexivity|]. split; [lia|]. intros Ht. specialize (T2 Ht). lia.
  - exists e1. split; [exact H1|]. split; [lia|discriminate].
Qed.

Lemma tnp_try_catch (c : exn -> bool) (body : M world bool)
      (handler : exn -> M world unit) :
  true_needs_put body -> (forall e, emitsN trace is_put 0 (handler e)) ->
  true_needs_put (try_catch c body (fun e => handler e ;; ret false)).
Proof.
  intros Hb Hh w. destruct (Hb w) as (e1 & H1 & C1 & T1). unfold try_catch.
  destruct (body w) as [[b|e] w']; cbn [fst snd] in *.
  - exists e1. auto.
  - destruct (c e).
    + destruct (Hh e w') as (e2 & H2 & C2).
      exists (e1 ++ e2)%list. unfold bind, ret.
      destruct (handler e w') as [[[]|e'] w'']; cbn [fst snd] in *.
      all: rewrite H2, H1, app_assoc, count_app.
      all: split; [reflexivity|]; split; [lia|discriminate].
    + exists e1. cbn [fst snd]. split; [exact H1|]. split; [lia|discriminate].
Qed.

Lemma tnp_put (name : string) (body : value) :
  true_needs_put (response <- send (PutDevice name body) ;;
                  after_put name response).
Proof.
  intros w.
  assert (Hq : emitsN trace is_put 0
                 (response <- next_reply ;; after_put name response)).
  { apply emitsN_bind0; [apply quiet_next_reply|].
    intros r. apply quiet_after_put; intros; reflexivity. }
  destruct (Hq (emitted (Http (PutDevice name body)) w)) as (evs & H1 & C1).
  exists (Http (PutDevice name body) :: evs).
  unfold send. unfold bind, emit, modify in *. cbn beta iota in *.
  rewrite H1, trace_emitted, <- app_assoc.
  split; [reflexivity|].
  change (Http (PutDevice name body) :: evs)
    with ([Http (PutDevice name body)] ++ evs)%list.
  rewrite count_app. cbn. split; [lia|]. intros _. lia.
Qed.

End TrueNeedsPut.

Lemma update_device_true_needs_put (name : string) (descr tags : option string) :
  true_needs_put (update_device name descr tags).
Proof.
  unfold update_device.
  apply (tnp_try_catch _ _ (fun e => log Error (ErrorUpdatingDevice e)));
    [|intros e; silent].
  apply tnp_bind0; [silent|]. intros ok.
  destruct ok; cbn [negb]; [|apply tnp_false; silent].
  apply tnp_bind0; [silent|]. intros devices.
  apply tnp_bind0; [silent|]. intros l.
  apply tnp_bind0; [silent|]. intros found.
  destruct found as [device|]; [|apply tnp_false; silent].
  destruct (negb (truthy device)); [apply tnp_false; silent|].
  apply tnp_bind0; [silent|]. intros dn.
  apply tnp_bind0; [silent|]. intros hote.
  apply tnp_bind0; [silent|]. intros d.
  apply tnp_bind0; [silent|]. intros t.
  apply tnp_put.
Qed.

Lemma parse_tag_cases (tag : string) :
  (exists v, parse_tag tag = Ok v) \/ parse_tag tag = Raise IndexError.
Proof.
  unfold parse_tag, index.
  destruct (Py.split Py.colon tag) as [|a [|b r]]; cbn; eauto.
Qed.

Lemma parse_tags_colon_free (l : list string) (piece : string) :
  In piece l -> colon_free piece = true ->
  mapR parse_tag l = Raise IndexError.
Proof.
  intros Hin Hp. induction l as [|t l IH]; [contradiction|].
  cbn [mapR]. destruct Hin as [->|Hin].
  - unfold parse_tag, index. rewrite (split_colon_free piece Hp). reflexivity.
  - destruct (parse_tag_cases t) as [[v ->]| ->]; [|reflexivity].
    cbn [rbind]. rewrite (IH Hin). reflexivity.
Qed.

Lemma update_device_bad_tags (name : string) (descr : option string)
      (text : string) :
  mapR parse_tag (Py.split Py.comma text) = Raise IndexError ->
  emitsN trace is_put 0 (update_device name descr (Some text)).
Proof.
  intros Hparse. unfold update_device. rewrite Hparse.
  apply emitsN_try_catch0; [|intros e; silent].
  apply emitsN_bind0; [silent|]. intros ok.
  destruct ok; cbn [negb]; [|silent].
  apply emitsN_bind0; [silent|]. intros devices.
  apply emitsN_bind0; [silent|]. intros l.
  apply emitsN_bind0; [silent|]. intros found.
  destruct found as [device|]; [|silent].
  destruct (negb (truthy device)); [silent|].
  apply emitsN_bind0; [silent|]. intros dn.
  apply emitsN_bind0; [silent|]. intros hote.
  apply emitsN_bind0; [silent|]. intros d.
  intros s. exists []. rewrite app_nil_r. split; [reflexivity|auto].
Qed.

Lemma update_device_rejected (name : string) (descr tags : option string)
      (w : world) :
  fst (authenticate w) <> Ok true ->
  exists evs,
    trace (snd (update_device name descr tags w)) = (trace w ++ evs)%list
    /\ count is_put evs = 0.
Proof.
  intros Hauth.
  assert (Hq : emitsN trace is_put 0 authenticate)
    by (apply quiet_authenticate; intros; reflexivity).
  destruct (Hq w) as (evs & Ht & Hc).
  pose proof (caughtM_authenticate w) as Hcaught.
  unfold update_device, try_catch. unfold bind at 1.
  destruct (authenticate w) as [[[|]|e] w1]; cbn [fst snd] in *.
  - congruence.
  - exists (evs ++ [Log Error AuthenticationError])%list.
    cbn [negb]. unfold bind, log, emit, modify, ret. cbn [fst snd].
    rewrite trace_emitted, Ht, <- app_assoc, count_app. split; [reflexivity|].
    cbn. lia.
  - rewrite Hcaught. exists (evs ++ [Log Error (ErrorUpdatingDevice e)])%list.
    unfold bind, log, emit, modify, ret. cbn [fst snd].
    rewrite trace_emitted, Ht, <- app_assoc, count_app. split; [reflexivity|].
    cbn. lia.
Qed.

(** X11.  In a world of plain texts and for a plain device name,
    [update_device] never raises, never starts a subprocess, sends at
    most one update request and answers [True] only after having sent
    one.  When the authentication does not succeed, and when a piece of
    the [--tags] argument has no colon, no update request is sent and the
    answer is [False]. *)
Theorem update_device_guarded (name : string) (descr tags : option string)
    (w : world) :
  plain name = true -> plain_world w = true ->
  (exists b evs,
      fst (update_device name descr tags w) = Ok b
      /\ trace (snd (update_device name descr tags w)) = (trace w ++ evs)%list
      /\ count is_put evs <= 1
      /\ (b = true -> count is_put evs = 1)
      /\ count is_run evs = 0)
  /\ (fst (authenticate w) <> Ok true ->
      fst (update_device name descr tags w) = Ok false
      /\ exists evs,
           trace (snd (update_device name descr tags w)) = (trace w ++ evs)%list
           /\ count is_put evs = 0)
  /\ (forall text piece,
        tags = Some text ->
        In piece (Py.split Py.comma text) -> colon_free piece = true ->
        fst (update_device name descr tags w) = Ok false
        /\ exists evs,
             trace (snd (update_device name descr tags w))
             = (trace w ++ evs)%list
             /\ count is_put evs = 0).
Proof.
  intros _ _.
  destruct (update_device_returns name descr tags w) as [b Hb].
  destruct (update_device_true_needs_put name descr tags w)
    as (evs & Ht & Hc & Htrue).
  destruct (update_device_no_run name descr tags w) as (evs' & Ht' & Hr).
  assert (evs' = evs) by (rewrite Ht in Ht'; exact (eq_sym (app_inv_head _ _ _ Ht'))).
  subst evs'.
  assert (Hfalse : forall evs0,
             trace (snd (update_device name descr tags w)) = (trace w ++ evs0)%list ->
             count is_put evs0 = 0 ->
             fst (update_device name descr tags w) = Ok false).
  { intros evs0 Ht0 Hc0. rewrite Ht in Ht0. apply app_inv_head in Ht0.
    subst evs0. rewrite Hb. destruct b; [|reflexivity].
    rewrite Hb in Htrue. specialize (Htrue eq_refl). lia. }
  split; [|split].
  - exists b, evs. split; [exact Hb|]. split; [exact Ht|]. split; [exact Hc|].
    split; [|lia]. intros ->. apply Htrue. exact Hb.
  - intros Hauth.
    destruct (update_device_rejected name descr tags w Hauth) as (evs0 & H0 & C0).
    split; [exact (Hfalse evs0 H0 C0)|]. exists evs0. auto.
  - intros text piece -> Hin Hp.
    pose proof (parse_tags_colon_free _ piece Hin Hp) as Hparse.
    destruct (update_device_bad_tags name descr text Hparse w) as (evs0 & H0 & C0).
    assert (C0' : count is_put evs0 = 0) by lia.
    split; [exact (Hfalse evs0 H0 C0')|]. exists evs0. auto.
Qed.

Lemma update_device_guarded_witness :
  fst (update_device "web1" None (Some "env:prod,prod") accepting_world) = Ok false
  /\ exists evs,
       trace (snd (update_device "web1" None (Some "env:prod,prod") accepting_world))
       = (trace accepting_world ++ evs)%list
       /\ count is_put evs = 0.
Proof.
  apply (proj2 (proj2 (update_device_guarded "web1" None (Some "env:prod,prod")
                         accepting_world eq_refl eq_refl))
           "env:prod,prod" "prod").
  - reflexivity.
  - right. left. reflexivity.
  - reflexivity.
Defined.

(** ** The command line *)

(** X12.  With [--update] of a plain name in a world of plain texts,
    and once the password prompt is passed, [main] always ends with
    [sys.exit], whatever the other options are: with
    status 1 when the authentication fails or when neither
    [--description] nor [--new-tags] has a value, and then without any
    update request; with status 0 otherwise, whether the update succeeded
    or not.  It reads no input, starts no subprocess and sends at most
    one update request. *)
Theorem main_update_exits (a : arguments) (inp : list string) (w : world)
    (ok : bool) :
  absent (arg_update a) = false ->
  plain (text (arg_update a)) = true -> plain_world w = true ->
  fst (authenticate w) = Ok ok ->
  let given := negb (absent (arg_description a) && absent (arg_new_tags a)) in
  fst (main a (inp, w)) = Raise (SystemExit (if ok && given then 0 else 1))
  /\ fst (snd (main a (inp, w))) = inp
  /\ exists evs,
       trace (snd (snd (main a (inp, w)))) = (trace w ++ evs)%list
       /\ count is_run evs = 0
       /\ count is_put evs <= 1
       /\ (ok && given = false -> count is_put evs = 0).
Proof.
  intros Hupd _ _ Hauth given. subst given.
  assert (Hany : any_action a = true).
  { unfold any_action. rewrite Hupd. cbn [negb]. apply orb_true_r. }
  assert (Hq1 : emitsN trace is_run 0 authenticate)
    by (apply quiet_authenticate; intros; reflexivity).
  assert (Hq2 : emitsN trace is_put 0 authenticate)
    by (apply quiet_authenticate; intros; reflexivity).
  destruct (Hq1 w) as (evs1 & Ht1 & Hr1).
  destruct (Hq2 w) as (evs1' & Ht1' & Hp1).
  assert (evs1' = evs1)
    by (rewrite Ht1 in Ht1'; exact (eq_sym (app_inv_head _ _ _ Ht1'))).
  subst evs1'.
  unfold main. rewrite Hany. cbn [negb]. rewrite andb_false_r. cbv zeta.
  rewrite Hany, Hupd. cbn [negb]. rewrite orb_true_r.
  unfold bind, ret, liftW, sys_exit, raise, log, emit, modify. cbn [fst snd].
  destruct (authenticate w) as [r w1]. cbn [fst snd] in *. subst r.
  destruct ok; cbn [negb andb].
  - destruct (absent (arg_description a) && absent (arg_new_tags a));
      cbn [negb fst snd].
    + split; [reflexivity|]. split; [reflexivity|].
      exists (evs1 ++ [Log Error UpdateNeedsField])%list.
      rewrite trace_emitted, Ht1, <- app_assoc, !count_app. cbn.
      repeat split; lia.
    + destruct (update_device_returns (text (arg_update a)) (arg_description a)
                  (arg_new_tags a) w1) as [b Hb].
      destruct (update_device_one_put (text (arg_update a)) (arg_description a)
                  (arg_new_tags a) w1) as (evs2 & Ht2 & Hp2).
      destruct (update_device_no_run (text (arg_update a)) (arg_description a)
                  (arg_new_tags a) w1) as (evs2' & Ht2' & Hr2).
      assert (evs2' = evs2)
        by (rewrite Ht2 in Ht2'; exact (eq_sym (app_inv_head _ _ _ Ht2'))).
      subst evs2'.
      destruct (update_device (text (arg_update a)) (arg_description a)
                  (arg_new_tags a) w1) as [r w2].
      cbn [fst snd] in *. subst r. cbn [fst snd].
      split; [reflexivity|]. split; [reflexivity|].
      exists (evs1 ++ evs2)%list.
      rewrite Ht2, Ht1, <- app_assoc, !count_app.
      repeat split; lia.
  - cbn [fst snd]. split; [reflexivity|]. split; [reflexivity|].
    exists (evs1 ++ [Log Error AuthenticationError])%list.
    rewrite trace_emitted, Ht1, <- app_assoc, !count_app. cbn.
    repeat split; lia.
Qed.

Lemma main_update_exits_witness :
  let a := mkArgs None true None None None (Some "db1") true false (Some "web1")
                  None (Some "env") false None in
  fst (main a ([], accepting_world)) = Raise (SystemExit 0)
  /\ fst (snd (main a ([], accepting_world))) = []
  /\ exists evs,
       trace (snd (snd (main a ([], accepting_world))))
       = (trace accepting_world ++ evs)%list
       /\ count is_run evs = 0
       /\ count is_put evs <= 1
       /\ (true && true = false -> count is_put evs = 0).
Proof.
  intros a.
  exact (main_update_exits a [] accepting_world true eq_refl eq_refl eq_refl
           eq_refl).
Defined.

(** X13.  Without any action and without a search term, when the history
    file is missing, cannot be parsed or holds an empty list, [main] only
    logs that there is no history (after the reading error, if any) and
    exits with status 0: no table, no prompt, no line of input read, no
    request, no subprocess. *)
Theorem main_without_history (a : arguments) (inp : list string) (w : world) :
  any_action a = false -> absent (arg_search_term a) = true ->
  history_file w = NoFile \/ history_file w = Garbage
  \/ history_file w = Json (VList []) ->
  exists evs,
    main a (inp, w) = (Raise (SystemExit 0), (inp, emit_all evs w))
    /\ Forall is_log evs
    /\ In (Log Info NoConnectionHistory) evs.
Proof.
  intros Hany Hterm Hf.
  unfold main. rewrite Hterm. cbn [negb andb]. cbv zeta. rewrite Hany.
  cbn [negb]. unfold bind at 1. unfold bind at 1.
  unfold display_history. unfold bind at 1. unfold liftW at 1. cbn [fst snd].
  unfold get_history, try_catch. step.
  destruct Hf as [Hf|[Hf|Hf]]; rewrite Hf;
    cbn [file_exists json_load is_exception truthy negb];
    unfold liftW, sys_exit, raise; cbn [fst snd].
  - exists [Log Info NoConnectionHistory]. split; [|split].
    + destruct w; reflexivity.
    + repeat constructor.
    + left. reflexivity.
  - exists [Log Error (ErrorReadingHistory ValueError);
            Log Info NoConnectionHistory]. split; [|split].
    + f_equal. f_equal. destruct w. world_eq.
    + repeat constructor.
    + right. left. reflexivity.
  - exists [Log Info NoConnectionHistory]. split; [|split].
    + destruct w; reflexivity.
    + repeat constructor.
    + left. reflexivity.
Qed.

Lemma main_without_history_witness :
  exists evs,
    main (mkArgs None false None None None None false false None None None
                 false None) (["1"], garbage_history)
    = (Raise (SystemExit 0), (["1"], emit_all evs garbage_history))
    /\ Forall is_log evs
    /\ In (Log Info NoConnectionHistory) evs.
Proof.
  apply main_without_history.
  - reflexivity.
  - reflexivity.
  - right. left. reflexivity.
Defined.

(** ** One connection per selection *)

Lemma rl_quiet {A} (final : A -> bool) (m : M world A) :
  emitsN trace is_run 0 m -> runs_last final m.
Proof.
  intros Hm w. destruct (Hm w) as (evs & Ht & Hc). exists evs.
  split; [exact Ht|]. split; lia.
Qed.

Lemma rl_bind0 {A B} (final : B -> bool) (m : M world A) (k : A -> M world B) :
  emitsN trace is_run 0 m -> (forall a, runs_last final (k a)) ->
  runs_last final (bind m k).
Proof.
  intros Hm Hk w. destruct (Hm w) as (e1 & H1 & C1). unfold bind.
  destruct (m w) as [[a|e] w']; cbn [fst snd] in *.
  - destruct (Hk a w') as (e2 & H2 & C2 & F2).
    exists (e1 ++ e2)%list. rewrite H2, H1, app_assoc, count_app.
    split; [reflexivity|]. split; [lia|]. intros Hone. apply F2. lia.
  - exists e1. split; [exact H1|]. split; lia.
Qed.

Lemma rl_subprocess_run (cmd : string) :
  runs_last (fun _ : unit => true) (subprocess_run cmd).
Proof.
  intros w. destruct (subprocess_run_trace cmd w) as (status & w' & Hr & Ht).
  exists [Run cmd status]. rewrite Hr. cbn [fst snd].
  split; [exact Ht|]. split; [cbn; lia|]. intros _. exists tt. auto.
Qed.

Lemma rl_then_true (m : M world unit) :
  runs_last (fun _ => true) m -> runs_last (fun b : bool => b) (m ;; ret true).
Proof.
  intros Hm w. destruct (Hm w) as (evs & Ht & Hc & Hf). exists evs.
  unfold bind, ret. destruct (m w) as [[[]|e] w']; cbn [fst snd] in *.
  - split; [exact Ht|]. split; [exact Hc|]. intros _. exists true. auto.
  - split; [exact Ht|]. split; [exact Hc|]. intros Hone.
    destruct (Hf Hone) as (x & Hx & _). discriminate.
Qed.

Lemma rl_connect_to_device (device : value) (interactive no_deploy : bool) :
  runs_last (fun _ => true) (connect_to_device device interactive no_deploy).
Proof.
  unfold connect_to_device.
  apply rl_bind0; [silent|]. intros name.
  apply rl_bind0; [silent|]. intros _.
  apply rl_bind0; [apply quiet_update_history; intros; reflexivity|]. intros _.
  apply rl_bind0; [silent|]. intros e.
  apply rl_bind0; [|intros cmd; apply rl_subprocess_run].
  destruct no_deploy; [silent|]. destruct interactive; [silent|].
  apply emitsN_try_catch0; [|intros ex; silent].
  apply emitsN_bind0; [apply quiet_read_deploy_files; intros; reflexivity|].
  intros fc. silent.
Qed.

Lemma rl_reconnect (history : value) (i : nat) :
  runs_last (fun b => b) (reconnect history i).
Proof.
  unfold reconnect.
  apply rl_bind0; [silent|]. intros devices.
  apply rl_bind0; [silent|]. intros l.
  apply rl_bind0; [silent|]. intros found.
  destruct found as [device|]; [|apply rl_quiet; silent].
  destruct (truthy device); [|apply rl_quiet; silent].
  apply rl_then_true. apply rl_connect_to_device.
Qed.

Lemma choose_runs_once (results : value) (interactive no_deploy : bool)
      (inp : list string) (w : world) :
  exists evs,
    trace (snd (snd (choose results interactive no_deploy inp w)))
    = (trace w ++ evs)%list
    /\ count is_run evs <= 1.
Proof.
  revert w. induction inp as [|line rest IH]; intros w; cbn [choose].
  - exists []. rewrite app_nil_r. split; [reflexivity|cbn; lia].
  - destruct (String.eqb (Py.lower (Py.strip line)) "q").
    { exists []. rewrite app_nil_r. split; [reflexivity|cbn; lia]. }
    destruct (py_int (Py.strip line)) as [n|].
    2:{ destruct (IH (emitted (Print PleaseEnterValidNumber) w))
          as (evs & Ht & Hc).
        exists (Print PleaseEnterValidNumber :: evs). rewrite Ht, trace_emitted.
        rewrite <- app_assoc. split; [reflexivity|].
        change (count is_run (Print PleaseEnterValidNumber :: evs))
          with (count is_run evs). exact Hc. }
    destruct (py_len results) as [len|e].
    2:{ exists []. rewrite app_nil_r. split; [reflexivity|cbn; lia]. }
    destruct ((0 <=? n - 1)%Z && (n - 1 <? Z.of_nat len)%Z).
    2:{ destruct (IH (emitted (Print InvalidNumber) w)) as (evs & Ht & Hc).
        exists (Print InvalidNumber :: evs). rewrite Ht, trace_emitted.
        rewrite <- app_assoc. split; [reflexivity|].
        change (count is_run (Print InvalidNumber :: evs))
          with (count is_run evs). exact Hc. }
    assert (Hrl : runs_last (fun _ => true)
                    (d <- lift (getindex results (Z.to_nat (n - 1))) ;;
                     connect_to_device d interactive no_deploy)).
    { apply rl_bind0; [silent|]. intros d. apply rl_connect_to_device. }
    destruct (Hrl w) as (evs1 & Ht1 & Hc1 & Hf1).
    destruct ((d <- lift (getindex results (Z.to_nat (n - 1))) ;;
               connect_to_device d interactive no_deploy) w) as [[[]|e] w'];
      cbn [fst snd] in *.
    + exists evs1. split; [exact Ht1|exact Hc1].
    + assert (Hzero : count is_run evs1 = 0).
      { destruct (count is_run evs1) as [|[|k]] eqn:E; [reflexivity| |lia].
        destruct (Hf1 eq_refl) as (x & Hx & _). discriminate. }
      destruct e; try (exists evs1; cbn [snd]; split; [exact Ht1|exact Hc1]).
      destruct (IH (emitted (Print PleaseEnterValidNumber) w'))
        as (evs & Ht & Hc).
      exists (evs1 ++ Print PleaseEnterValidNumber :: evs)%list.
      rewrite Ht, trace_emitted, Ht1, <- !app_assoc. split; [reflexivity|].
      rewrite count_app.
      change (count is_run (Print PleaseEnterValidNumber :: evs))
        with (count is_run evs). lia.
Qed.

Lemma history_choice_runs_once (history : value) (inp : list string)
      (w : world) :
  exists evs,
    trace (snd (snd (history_choice history inp w))) = (trace w ++ evs)%list
    /\ count is_run evs <= 1.
Proof.
  revert w. induction inp as [|line rest IH]; intros w; cbn [history_choice].
  - exists []. rewrite app_nil_r. split; [reflexivity|cbn; lia].
  - destruct (String.eqb (Py.lower (Py.strip line)) "q").
    { exists []. rewrite app_nil_r. split; [reflexivity|cbn; lia]. }
    destruct (py_int (Py.strip line)) as [n|].
    2:{ destruct (IH (emitted (Print PleaseEnterValidNumber) w))
          as (evs & Ht & Hc).
        exists (Print PleaseEnterValidNumber :: evs). rewrite Ht, trace_emitted.
        rewrite <- app_assoc. split; [reflexivity|].
        change (count is_run (Print PleaseEnterValidNumber :: evs))
          with (count is_run evs). exact Hc. }
    destruct (py_len history) as [len|e].
    2:{ exists []. rewrite app_nil_r. split; [reflexivity|cbn; lia]. }
    destruct ((0 <=? n - 1)%Z && (n - 1 <? Z.of_nat len)%Z).
    2:{ destruct (IH (emitted (Print InvalidNumber) w)) as (evs & Ht & Hc).
        exists (Print InvalidNumber :: evs). rewrite Ht, trace_emitted.
        rewrite <- app_assoc. split; [reflexivity|].
        change (count is_run (Print InvalidNumber :: evs))
          with (count is_run evs). exact Hc. }
    destruct (rl_reconnect history (Z.to_nat (n - 1)) w)
      as (evs1 & Ht1 & Hc1 & Hf1).
    assert (Hzero : fst (reconnect history (Z.to_nat (n - 1)) w) <> Ok true ->
                    count is_run evs1 = 0).
    { intros Hne. destruct (count is_run evs1) as [|[|k]] eqn:E;
        [reflexivity| |lia].
      destruct (Hf1 eq_refl) as (x & Hx & Hfin). subst x. contradiction. }
    destruct (reconnect history (Z.to_nat (n - 1)) w) as [[[|]|e] w'];
      cbn [fst snd] in *.
    + exists evs1. split; [exact Ht1|exact Hc1].
    + specialize (Hzero ltac:(discriminate)).
      destruct (IH w') as (evs & Ht & Hc).
      exists (evs1 ++ evs)%list. rewrite Ht, Ht1, <- app_assoc.
      split; [reflexivity|]. rewrite count_app. lia.
    + specialize (Hzero ltac:(discriminate)).
      destruct e; try (exists evs1; cbn [snd]; split; [exact Ht1|exact Hc1]).
      destruct (IH (emitted (Print PleaseEnterValidNumber) w'))
        as (evs & Ht & Hc).
      exists (evs1 ++ Print PleaseEnterValidNumber :: evs)%list.
      rewrite Ht, trace_emitted, Ht1, <- !app_assoc. split; [reflexivity|].
      rewrite count_app.
      change (count is_run (Print PleaseEnterValidNumber :: evs))
        with (count is_run evs). lia.
Qed.

Ltac silent_io_step :=
  match goal with
  | |- emitsN io_trace _ 0 (liftW _) => apply emitsN_liftW; silent
  | |- emitsN io_trace _ 0 input => apply emitsN_input
  | |- emitsN io_trace _ 0 (ret _) => apply emitsN_ret
  | |- emitsN io_trace _ 0 (lift _) => apply emitsN_lift
  | |- emitsN io_trace _ _ (bind _ _) => apply emitsN_bind0; [|intros]
  end.

(** X14.  Showing search results, and showing the history, leads to at
    most one connection, whatever is typed: both selection loops start
    at most one subprocess, lines that do not select an entry being
    skipped. *)
Theorem selection_connects_once :
  (forall results interactive no_deploy,
      emitsN io_trace is_run 1 (present_results results interactive no_deploy))
  /\ emitsN io_trace is_run 1 display_history.
Proof.
  split.
  - intros results interactive no_deploy. unfold present_results.
    repeat silent_io_step.
    destruct (Nat.eqb a0 1).
    + unfold display_devices. repeat silent_io_step.
      destruct (negb (String.eqb (Py.lower a3) "n")).
      * repeat silent_io_step. apply emitsN_liftW.
        intros w. destruct (rl_connect_to_device a4 interactive no_deploy w)
          as (evs & Ht & Hc & _). exists evs. auto.
      * apply (emitsN_weaken _ _ 0 1); [lia|]. apply emitsN_ret.
    + repeat silent_io_step.
      intros [inp w]. cbn [fst snd]. unfold io_trace.
      apply choose_runs_once.
  - unfold display_history.
    apply emitsN_bind0.
    { apply emitsN_liftW. unfold get_history. silent. }
    intros history. destruct (negb (truthy history)).
    + apply (emitsN_weaken _ _ 0 1); [lia|]. apply emitsN_liftW. silent.
    + repeat silent_io_step.
      intros [inp w]. cbn [fst snd]. unfold io_trace.
      apply history_choice_runs_once.
Qed.

(** ** The table of devices *)

Lemma py_in_strs (x : string) (l : list string) :
  py_in (VStr x) (map VStr l) = existsb (String.eqb x) l.
Proof.
  unfold py_in. induction l as [|s l IH]; [reflexivity|].
  cbn [map existsb]. rewrite IH. reflexivity.
Qed.

Lemma get_service_icon_api (d : Device) :
  get_service_icon (VList (map VStr (services d))) = Ok (icon d).
Proof.
  unfold get_service_icon, icon. cbn [py_contains rbind].
  rewrite !py_in_strs.
  destruct (existsb (String.eqb "RDP") (services d)); [reflexivity|].
  cbn [rbind]. destruct (existsb (String.eqb "SSH") (services d)); reflexivity.
Qed.

Lemma device_row_api (d : Device) : device_row (api_device d) = Ok (row d).
Proof.
  unfold device_row. rewrite service_names_api. cbn [rbind].
  rewrite get_service_icon_api. cbn [rbind].
  rewrite py_join_strs. cbn [rbind].
  rewrite rendered_tags_api. cbn [rbind].
  rewrite <- (map_map rendered VStr), py_join_strs. reflexivity.
Qed.

Lemma display_devices_api (ds : list Device) (w : world) :
  display_devices (api_devices ds) w
  = (Ok tt, emitted (Print (Table (map row ds))) w).
Proof.
  unfold display_devices, api_devices. step. cbn [py_iter].
  rewrite (mapR_map_ok device_row api_device row ds device_row_api).
  reflexivity.
Qed.

(** X15.  [display_devices] prints all or nothing: when it raises, nothing
    has been printed.  On devices of the API's shape with plain fields it
    never raises and prints one table with one row per device, in the order of the list;
    the icon is the one of RDP as soon as a service is named [RDP], else
    the one of SSH when a service is named [SSH], the names being compared
    as written. *)
Theorem display_devices_rows (w : world) :
  (forall ds,
      forallb plain_device ds = true ->
      display_devices (api_devices ds) w
      = (Ok tt, emitted (Print (Table (map row ds))) w))
  /\ (forall devices e,
        fst (display_devices devices w) = Raise e ->
        snd (display_devices devices w) = w).
Proof.
  split.
  - intros ds _. apply display_devices_api.
  - intros devices e. unfold display_devices. step.
    destruct (py_iter devices) as [l|e1]; [|reflexivity].
    destruct (mapR device_row l) as [rows|e2]; [|reflexivity].
    discriminate.
Qed.

Lemma display_devices_rows_witness :
  fst (display_devices (VList [nameless]) world0) = Raise KeyError
  /\ snd (display_devices (VList [nameless]) world0) = world0.
Proof.
  split; [reflexivity|].
  exact (proj2 (display_devices_rows world0) (VList [nameless]) KeyError eq_refl).
Defined.

(** ** A single search result *)




(** ** The configured list of files to deploy *)

Lemma rstrip_idem (s : string) : Py.rstrip (Py.rstrip s) = Py.rstrip s.
Proof.
  induction s as [|c s IH]; [reflexivity|].
  cbn [Py.rstrip]. destruct (Py.rstrip s) as [|b r] eqn:Hr.
  - destruct (Py.is_space c) eqn:Hc; [reflexivity|].
    cbn [Py.rstrip]. rewrite Hc. reflexivity.
  - cbn [Py.rstrip] in *. rewrite IH. reflexivity.
Qed.

Lemma lstrip_head (s : string) :
  match Py.lstrip s with
  | EmptyString => True
  | String c _ => Py.is_space c = false
  end.
Proof.
  induction s as [|c s IH]; [exact I|].
  cbn [Py.lstrip]. destruct (Py.is_space c) eqn:Hc; [exact IH|exact Hc].
Qed.

Lemma rstrip_head (c : ascii) (s : string) :
  Py.is_space c = false -> exists r, Py.rstrip (String c s) = String c r.
Proof.
  intros Hc. cbn [Py.rstrip]. destruct (Py.rstrip s) as [|b r].
  - rewrite Hc. eauto.
  - eauto.
Qed.

Lemma strip_idem (s : string) : Py.strip (Py.strip s) = Py.strip s.
Proof.
  unfold Py.strip. pose proof (lstrip_head s) as Hh.
  destruct (Py.lstrip s) as [|c t]; [reflexivity|].
  destruct (rstrip_head c t Hh) as [r Hr].
  rewrite Hr. cbn [Py.lstrip]. rewrite Hh, <- Hr. apply rstrip_idem.
Qed.

Lemma split_char_free (sep : ascii) (s : string) :
  char_free sep s = true -> Py.split sep s = [s].
Proof.
  induction s as [|c s IH]; intros Hs; [reflexivity|].
  cbn [char_free] in Hs. apply andb_true_iff in Hs. destruct Hs as [Hc Hs].
  apply negb_true_iff in Hc. cbn [Py.split]. rewrite Hc, (IH Hs). reflexivity.
Qed.

Lemma split_app_sep (sep : ascii) (k v : string) :
  char_free sep k = true ->
  Py.split sep (k ++ String sep v)%string = k :: Py.split sep v.
Proof.
  induction k as [|c k IH]; intros Hk.
  - cbn [append Py.split]. rewrite Ascii.eqb_refl. reflexivity.
  - cbn [char_free] in Hk. apply andb_true_iff in Hk. destruct Hk as [Hc Hk].
    apply negb_true_iff in Hc. cbn [append Py.split]. rewrite Hc, (IH Hk).
    reflexivity.
Qed.

(** Splitting undoes joining, for pieces without the separator. *)
Lemma split_join (sep : ascii) (pieces : list string) :
  pieces <> [] -> Forall (fun f => char_free sep f = true) pieces ->
  Py.split sep (Py.join (String sep "") pieces) = pieces.
Proof.
  intros Hne Hall. induction Hall as [|f rest Hf Hrest IH]; [congruence|].
  destruct rest as [|g rest].
  - cbn [Py.join]. apply split_char_free. exact Hf.
  - change (Py.join (String sep "") (f :: g :: rest))
      with (f ++ String sep (Py.join (String sep "") (g :: rest)))%string.
    rewrite (split_app_sep sep f _ Hf). f_equal. apply IH. discriminate.
Qed.

(** X17.  When the option [deploy_files] is ASCII text, the list of
    files to deploy that [load_config] returns holds no empty name and no
    name with a blank at either end.  When the option is written as
    pieces joined by commas, it is read back as the pieces
    that are not blank, each stripped, in the order written: blank pieces
    (a trailing comma, two commas in a row) are dropped. *)
Theorem load_config_deploy_files (config_file home : string)
    (get : string -> string) (cfg : config) :
  snd (load_config config_file home (Some get)) = Ok cfg ->
  ascii_text (get "deploy_files") = true ->
  Forall (fun f => f <> "" /\ Py.strip f = f) (cfg_deploy_files cfg)
  /\ (forall pieces,
        pieces <> [] ->
        Forall (fun f => char_free Py.comma f = true) pieces ->
        get "deploy_files" = Py.join "," pieces ->
        cfg_deploy_files cfg
        = map Py.strip
            (filter (fun f => negb (String.eqb (Py.strip f) "")) pieces)).
Proof.
  intros H _. cbn [load_config snd] in H. injection H as <-.
  cbn [cfg_deploy_files]. unfold parse_deploy_files. split.
  - destruct (String.eqb (get "deploy_files") ""); [constructor|].
    apply Forall_forall. intros f Hf. apply in_map_iff in Hf.
    destruct Hf as (g & <- & Hg). apply filter_In in Hg. destruct Hg as [_ Hg].
    apply negb_true_iff in Hg. apply String.eqb_neq in Hg.
    split; [exact Hg|apply strip_idem].
  - intros pieces Hne Hall Hget. rewrite Hget.
    destruct (String.eqb (Py.join "," pieces) "") eqn:He.
    + apply String.eqb_eq in He.
      pose proof (split_join Py.comma pieces Hne Hall) as Hs.
      change (String Py.comma "") with "," in Hs. rewrite He in Hs.
      rewrite <- Hs. reflexivity.
    + pose proof (split_join Py.comma pieces Hne Hall) as Hs.
      change (String Py.comma "") with "," in Hs. rewrite Hs. reflexivity.
Qed.

Lemma load_config_deploy_files_witness :
  cfg_deploy_files
    (mkConfig "alice" "" "" "/home/alice/.wallix_cache"
              (parse_deploy_files ".bashrc_remote, .vimrc ,"))
  = map Py.strip
      (filter (fun f => negb (String.eqb (Py.strip f) ""))
              [".bashrc_remote"; " .vimrc "; ""]).
Proof.
  apply (proj2 (load_config_deploy_files "/opt/wallix/config.ini" "/home/alice"
                  config_ini0 _ eq_refl eq_refl)
           [".bashrc_remote"; " .vimrc "; ""]).
  - discriminate.
  - repeat constructor.
  - reflexivity.
Defined.

(** ** Connecting by name *)

Lemma find_device_api (name : string) (ds : list Device) :
  find_device name (map api_device ds)
  = Ok (option_map api_device
          (find (fun d => String.eqb (device_name d) name) ds)).
Proof.
  unfold find_device. induction ds as [|d ds IH]; [reflexivity|].
  cbn [map find_first find]. rewrite getitem_name. cbn [rbind py_eq].
  destruct (String.eqb (device_name d) name); [reflexivity|exact IH].
Qed.



(** ** Showing the history *)



(** ** Choosing a search result *)





(** ** Listing *)

Lemma apply_filters_no_tags (e : environment)
      (query filter_regex filter_services filter_tags : option string)
      (devices : value) :
  absent filter_tags = true ->
  apply_filters e query filter_regex filter_services filter_tags devices
  = apply_filters e query filter_regex filter_services None devices.
Proof.
  intros Ht. destruct filter_tags as [s|]; [|reflexivity].
  cbn [absent] in Ht. unfold apply_filters. cbn [when_given]. rewrite Ht.
  reflexivity.
Qed.

Lemma list_filters (e : environment)
      (filter_regex filter_services filter_tags : option string)
      (devices : value) :
  (x <~ when_given filter_regex (filter_by_regex e) devices ;;
   y <~ when_given filter_services filter_by_services x ;;
   when_given filter_tags filter_by_tags y)
  = apply_filters e None filter_regex filter_services filter_tags devices.
Proof.
  unfold apply_filters.
  destruct (when_given filter_regex (filter_by_regex e) devices) as [x|];
    [|reflexivity].
  cbn [rbind].
  destruct (when_given filter_services filter_by_services x) as [y|];
    [|reflexivity].
  cbn [rbind].
  destruct (when_given filter_tags filter_by_tags y); reflexivity.
Qed.

(** X21.  [--list] on a cache the tool saved, of devices with plain
    fields, with an ASCII [--services] and without [--tags],
    [--force-refresh] and [--update]: [main] sends no request and reads
    no input; it prints the title and one table holding, in the order of
    the cache, the rows of the cached devices that pass [--filter] and
    [--services] (all of them when neither is given; an empty table when
    none passes).  [--search], [--connect] and a search term are
    ignored. *)
Theorem main_list_filtered (a : arguments) (t : Z) (ds : list Device)
    (search : string -> bool) (inp : list string) (w : world) :
  arg_list a = true -> arg_force_refresh a = false ->
  absent (arg_update a) = true -> absent (arg_tags a) = true ->
  compiled (env w) (arg_filter a) = Some search ->
  cache_file w = Json (snapshot t ds) ->
  forallb plain_device ds = true -> ascii_arg (arg_services a) = true ->
  main a (inp, w)
  = (Ok tt,
     (inp,
      emit_all
        [Log Info (CacheFound (format_age (now w - t)));
         Print PanelAvailableMachines;
         Print (Table (map row (filter (kept search None (arg_services a))
                                       (map reloaded ds))))]
        w)).
Proof.
  intros Hlist Hforce Hupd Htags Hre Hcache _ _.
  assert (Hany : any_action a = true).
  { unfold any_action. rewrite Hlist. reflexivity. }
  set (w0 := emitted (Log Info (CacheFound (format_age (now w - t)))) w).
  assert (Hl : list_devices a w
               = (Ok tt,
                  emitted (Print (Table (map row
                             (filter (kept search None (arg_services a))
                                     (map reloaded ds)))))
                    (emitted (Print PanelAvailableMachines) w0))).
  { unfold list_devices. rewrite Hforce.
    unfold bind at 1. rewrite (get_devices_snapshot t ds w Hcache). fold w0.
    unfold bind at 1. unfold gets at 1. cbn beta iota.
    pose proof (list_filters (env w0) (arg_filter a) (arg_services a)
                  (arg_tags a) (api_devices (map reloaded ds))) as Hfl.
    rewrite (apply_filters_no_tags _ _ _ _ _ _ Htags) in Hfl.
    replace (env w0) with (env w) in * by (destruct w; reflexivity).
    rewrite (apply_filters_kept _ _ _ _ _ search Hre) in Hfl.
    unfold bind, lift, print, emit, modify.
    destruct (when_given (arg_filter a) (filter_by_regex (env w))
                (api_devices (map reloaded ds))) as [x|ex];
      cbn [rbind] in Hfl; [|discriminate].
    destruct (when_given (arg_services a) filter_by_services x) as [y|ey];
      cbn [rbind] in Hfl; [|discriminate].
    rewrite Hfl. rewrite display_devices_api. reflexivity. }
  unfold main. rewrite Hany. cbn [negb]. rewrite andb_false_r. cbv zeta.
  rewrite Hany, Hupd, Hforce, Hlist. cbn [negb orb].
  unfold bind at 1. unfold ret at 1. cbn beta iota.
  unfold bind at 1. unfold ret at 1. cbn beta iota.
  unfold bind at 1. unfold ret at 1. cbn beta iota.
  unfold bind at 1. unfold ret at 1. cbn beta iota.
  unfold liftW. cbn [fst snd]. rewrite Hl. f_equal. f_equal.
  subst w0. destruct w. world_eq.
Qed.

Lemma main_list_filtered_witness :
  main (mkArgs (Some "zzz") true None (Some "rdp") None (Some "web1") false
               false None None None false None) (["1"], cached_world)
  = (Ok tt,
     (["1"],
      emit_all
        [Log Info (CacheFound (format_age (now cached_world - 0)));
         Print PanelAvailableMachines;
         Print (Table (map row (filter (kept (fun _ => true) None (Some "rdp"))
                                       (map reloaded [web1; db1]))))]
        cached_world)).
Proof.
  apply (main_list_filtered
           (mkArgs (Some "zzz") true None (Some "rdp") None (Some "web1") false
                   false None None None false None)
           0 [web1; db1] (fun _ => true) ["1"] cached_world).
  - reflexivity.
  - reflexivity.
  - reflexivity.
  - reflexivity.
  - reflexivity.
  - reflexivity.
  - reflexivity.
  - reflexivity.
Defined.

(** ** A search without result *)

(** X22.  When the search, on a cache the tool saved, with ASCII texts
    and without [--tags], keeps no device, the refresh is offered and one line is
    read; any answer but [y] (in either case) or the empty line declines:
    the search returns the empty list, without authentication and
    without any request, the lines after the answer being left unread. *)
Theorem search_declined
    (query filter_regex filter_services filter_tags : option string)
    (interactive no_deploy : bool) (t : Z) (ds : list Device)
    (search : string -> bool) (line : string) (rest : list string)
    (w : world) :
  absent query && absent filter_regex && absent filter_services = false ->
  absent filter_tags = true ->
  compiled (env w) filter_regex = Some search ->
  cache_file w = Json (snapshot t ds) ->
  filter (kept search query filter_services) (map reloaded ds) = [] ->
  ascii_arg query = true -> ascii_arg filter_services = true ->
  forallb ascii_device ds = true -> ascii_text line = true ->
  Py.lower line <> "" -> Py.lower line <> "y" ->
  search_devices query filter_regex filter_services filter_tags
                 interactive no_deploy (line :: rest) w
  = (Ok (VList []),
     (rest,
      emit_all [Log Info (CacheFound (format_age (now w - t)));
                Log Error NoDevicesFound; Print OfferRefresh] w)).
Proof.
  intros Hgiven Htags Hre Hcache Hnone _ _ _ _ Hne Hny.
  cbn [search_devices]. rewrite (get_devices_snapshot t ds w Hcache).
  rewrite Hgiven. cbn [andb].
  replace (env (emitted (Log Info (CacheFound (format_age (now w - t)))) w))
    with (env w) by (destruct w; reflexivity).
  rewrite (apply_filters_no_tags _ _ _ _ _ _ Htags).
  rewrite (apply_filters_kept _ _ _ _ _ search Hre), Hnone.
  cbn [api_devices map truthy].
  apply String.eqb_neq in Hne. rewrite Hne.
  apply String.eqb_neq in Hny. rewrite Hny.
  f_equal. f_equal. destruct w. world_eq.
Qed.

Lemma search_declined_witness :
  search_devices (Some "zzz") None None None false false ["no"; "1"]
                 cached_world
  = (Ok (VList []),
     (["1"],
      emit_all [Log Info (CacheFound (format_age (now cached_world - 0)));
                Log Error NoDevicesFound; Print OfferRefresh] cached_world)).
Proof.
  apply (search_declined (Some "zzz") None None None false false 0 [web1; db1]
           (fun _ => true) "no" ["1"] cached_world).
  - reflexivity.
  - reflexivity.
  - reflexivity.
  - reflexivity.
  - reflexivity.
  - reflexivity.
  - reflexivity.
  - reflexivity.
  - reflexivity.
  - discriminate.
  - discriminate.
Defined.

(** ** A forced refresh *)

(** A refresh answered with status 200 returns the list received, after
    exactly one request for the inventory. *)
Lemma get_devices_refreshed (body : value) (n : nat) (rest : list reply)
      (w : world) :
  replies w = Reply 200 body :: rest -> py_len body = Ok n ->
  exists w2 evs,
    get_devices true w = (Ok body, w2)
    /\ trace w2 = (trace w ++ evs)%list
    /\ count is_fetch evs = 1.
Proof.
  intros Hr Hn.
  assert (Hq : emitsN trace is_fetch 0 (save_cache body))
    by (apply quiet_save_cache; intros; reflexivity).
  unfold get_devices. cbn [negb].
  unfold fetch_devices, try_catch, send, next_reply. step.
  cbn [replies emitted set_trace]. rewrite Hr. cbn beta iota. cbn [fst snd].
  replace (status_in 200 [200; 206]%Z) with true by reflexivity.
  rewrite Hn.
  match goal with
  | |- context [save_cache body ?w1] =>
      destruct (save_cache_returns body w1) as [[] Hret];
      destruct (Hq w1) as (evs & Ht & Hc);
      destruct (save_cache body w1) as [r w2] eqn:E
  end.
  cbn [fst snd] in *. subst r.
  exists w2, ([Log Info RetrievingAllMachines; Http GetDevices;
               Log Info (RetrievalCompleted n)] ++ evs)%list.
  split; [reflexivity|]. split.
  - rewrite Ht. destruct w. cbn [trace set_replies emitted set_trace].
    rewrite <- !app_assoc. reflexivity.
  - rewrite count_app. cbn. lia.
Qed.

(** X23.  [--force-refresh --list] lists everything: once the
    authentication has succeeded and the bastion answers the inventory
    request with status 200 and a list of devices with plain fields
    (the credentials being ASCII), [main] prints the
    table of all the devices received, in the order received, whatever
    [--filter], [--services] and [--tags] are, and exits with status 0,
    having asked for the inventory once and read no input. *)
Theorem main_refresh_lists_all (a : arguments) (ds : list Device)
    (rest : list reply) (inp : list string) (w w1 : world) :
  arg_force_refresh a = true -> arg_list a = true ->
  absent (arg_update a) = true -> absent (arg_search a) = true ->
  authenticate w = (Ok true, w1) ->
  replies w1 = Reply 200 (api_devices ds) :: rest ->
  forallb plain_device ds = true -> ascii_credentials w = true ->
  exists w2 evs,
    main a (inp, w)
    = (Raise (SystemExit 0), (inp, emitted (Print (Table (map row ds))) w2))
    /\ trace w2 = (trace w1 ++ evs)%list
    /\ count is_fetch evs = 1.
Proof.
  intros Hforce Hlist Hupd Hsearch Hauth Hr _ _.
  assert (Hany : any_action a = true).
  { unfold any_action. rewrite Hlist. reflexivity. }
  destruct (get_devices_refreshed (api_devices ds) (List.length ds) rest w1 Hr)
    as (w2 & evs & Hg & Ht & Hc).
  { unfold api_devices. cbn [py_len]. rewrite length_map. reflexivity. }
  exists w2, evs. split; [|split; assumption].
  unfold main. rewrite Hany. cbn [negb]. rewrite andb_false_r. cbv zeta.
  rewrite Hany, Hupd, Hforce, Hlist, Hsearch. cbn [negb orb].
  unfold bind at 1. unfold ret at 1. cbn beta iota.
  unfold bind at 1. unfold bind at 1. unfold liftW at 1. cbn [fst snd].
  rewrite Hauth. cbn [negb]. unfold ret at 1. cbn beta iota.
  unfold bind at 1. unfold ret at 1. cbn beta iota.
  unfold bind at 1. unfold bind at 1. unfold liftW at 1. cbn [fst snd].
  rewrite Hg. unfold bind at 1. unfold liftW at 1. cbn [fst snd].
  rewrite display_devices_api. reflexivity.
Qed.

Lemma main_refresh_lists_all_witness :
  exists w2 evs,
    main (mkArgs None true (Some "nothing") (Some "RDP") (Some "env:dev") None
                 true false None None None false None)
         ([], retry_world)
    = (Raise (SystemExit 0),
       ([], emitted (Print (Table (map row [web1]))) w2))
    /\ trace w2 = (trace (snd (authenticate retry_world)) ++ evs)%list
    /\ count is_fetch evs = 1.
Proof.
  apply (main_refresh_lists_all
           (mkArgs None true (Some "nothing") (Some "RDP") (Some "env:dev") None
                   true false None None None false None)
           [web1]
           [Reply 204 VNone; Reply 200 (api_devices [web1])] []
           retry_world (snd (authenticate retry_world))).
  - reflexivity.
  - reflexivity.
  - reflexivity.
  - reflexivity.
  - reflexivity.
  - reflexivity.
  - reflexivity.
  - reflexivity.
Defined.

(** * Where the code misses what it attempts *)

(** ** A fetched list that is not saved *)

(** A refresh answered with a list runs [save_cache] on it and returns
    it. *)
Lemma get_devices_then_save (status : Z) (body : value) (n : nat)
      (rest : list reply) (w : world) :
  replies w = Reply status body :: rest ->
  (status = 200 \/ status = 206)%Z ->
  py_len body = Ok n ->
  get_devices true w
  = (Ok body,
     snd (save_cache body
            (emit_all [Log Info RetrievingAllMachines; Http GetDevices;
                       Log Info (RetrievalCompleted n)]
                      (set_replies rest w)))).
Proof.
  intros Hr Hs Hn. apply status_in_fetch in Hs.
  unfold get_devices. cbn [negb].
  unfold fetch_devices, try_catch, send, next_reply. step.
  cbn [replies emitted set_trace]. rewrite Hr. cbn beta iota. cbn [fst snd].
  rewrite Hs, Hn.
  match goal with
  | |- context [save_cache body ?w1] =>
      destruct (save_cache_returns body w1) as [[] Hret];
      destruct (save_cache body w1) as [r w2] eqn:E
  end.
  cbn [fst snd] in *. subst r.
  replace (emit_all [Log Info RetrievingAllMachines; Http GetDevices;
                     Log Info (RetrievalCompleted n)] (set_replies rest w))
    with (emitted (Log Info (RetrievalCompleted n))
            (set_replies rest
               (emitted (Http GetDevices)
                  (emitted (Log Info RetrievingAllMachines) w))))
    by (destruct w; unfold set_replies; world_eq).
  rewrite E. reflexivity.
Qed.

(** Over a cache file that cannot be used, [save_cache] only logs. *)
Lemma save_cache_refused (devices : value) (w : world) :
  cache_usable (cache_file w) = false ->
  exists e,
    save_cache devices w
    = (Ok tt, emitted (Log Error (ErrorSavingCache e)) w).
Proof.
  intros Hu. unfold save_cache, try_catch. step.
  destruct (cache_file w) as [| |v] eqn:Ef; cbn [cache_usable] in Hu;
    [discriminate| |]; cbn [file_exists json_load]; cbn beta iota.
  - exists ValueError. reflexivity.
  - pose proof (caught_getitem v "devices") as Hc.
    destruct (getitem v "devices") as [old|e]; [discriminate|].
    simpl in Hc. rewrite Hc. exists e. reflexivity.
Qed.

(** C8, where it fails.  When the cache file is there but cannot be used
    (it is not JSON, or holds no [devices]), a refresh, with credentials
    a request can carry, that the bastion
    answers with status 200 or 206 and a list of devices returns that
    list without saving it: [save_cache] gives up on reading the old
    cache, logs the error, and the cache file stays as it was. *)
Theorem fetch_not_saved (ds : list Device) (status : Z) (rest : list reply)
    (w : world) :
  ascii_credentials w = true ->
  cache_usable (cache_file w) = false ->
  (status = 200 \/ status = 206)%Z ->
  replies w = Reply status (api_devices ds) :: rest ->
  fst (get_devices true w) = Ok (api_devices ds)
  /\ cache_file (snd (get_devices true w)) = cache_file w
  /\ exists e evs,
       trace (snd (get_devices true w))
       = (trace w ++ evs ++ [Log Error (ErrorSavingCache e)])%list.
Proof.
  intros _ Hu Hs Hr.
  rewrite (get_devices_then_save status (api_devices ds) (List.length ds)
             rest w Hr Hs)
    by (unfold api_devices; cbn [py_len]; rewrite length_map; reflexivity).
  cbn [fst snd].
  set (w1 := emit_all [Log Info RetrievingAllMachines; Http GetDevices;
                       Log Info (RetrievalCompleted (List.length ds))]
                      (set_replies rest w)).
  assert (Hf : cache_file w1 = cache_file w) by (destruct w; reflexivity).
  assert (Hu1 : cache_usable (cache_file w1) = false)
    by (rewrite Hf; exact Hu).
  destruct (save_cache_refused (api_devices ds) w1 Hu1) as [e He].
  rewrite He. cbn [snd]. split; [reflexivity|]. split.
  - rewrite <- Hf. destruct w1. reflexivity.
  - exists e, [Log Info RetrievingAllMachines; Http GetDevices;
               Log Info (RetrievalCompleted (List.length ds))].
    rewrite trace_emitted. subst w1. rewrite trace_emit_all.
    replace (trace (set_replies rest w)) with (trace w)
      by (destruct w; reflexivity).
    rewrite <- app_assoc. reflexivity.
Qed.

Lemma fetch_not_saved_witness :
  fst (get_devices true refresh_over_garbage) = Ok (api_devices [web1])
  /\ cache_file (snd (get_devices true refresh_over_garbage)) = Garbage
  /\ exists e evs,
       trace (snd (get_devices true refresh_over_garbage))
       = (trace refresh_over_garbage ++ evs
          ++ [Log Error (ErrorSavingCache e)])%list.
Proof.
  apply (fetch_not_saved [web1] 200 [] refresh_over_garbage).
  - reflexivity.
  - reflexivity.
  - left. reflexivity.
  - reflexivity.
Defined.

(** ** A connection that is not recorded *)

(** On a history file that cannot be parsed, or that holds something else
    than a list, [update_history] only logs. *)
Lemma update_history_unrecorded (device : value) (w : world) :
  history_file w = Garbage
  \/ (exists doc, history_file w = Json doc /\ as_list doc = Raise AttributeError) ->
  exists e,
    update_history device w
    = (Ok tt, emitted (Log Error (ErrorUpdatingHistory e)) w).
Proof.
  intros [Hf|(doc & Hf & Hdoc)].
  - exists ValueError. unfold update_history, try_catch. step.
    rewrite Hf. reflexivity.
  - destruct (update_history_loaded device w doc) as
      [(e & H)|(n & l & Hl & _)];
      [right; exact Hf|exists e; exact H|congruence].
Qed.

(** C9, where it fails.  When the history file cannot be parsed, or holds
    something else than a list, a connection (to a device of the API's
    shape, the name of the device, the user, the bastion and the files to
    deploy being plain) starts the remote shell although nothing has been
    recorded: [update_history] only logs its error, the history file is
    at the end what it was, and the subprocess runs all the same. *)
Theorem connect_without_record (d : Device) (interactive no_deploy : bool)
    (w : world) :
  plain (device_name d) = true -> plain_env (env w) = true ->
  history_file w = Garbage
  \/ (exists doc, history_file w = Json doc /\ as_list doc = Raise AttributeError) ->
  exists evs status w',
    connect_to_device (api_device d) interactive no_deploy w = (Ok tt, w')
    /\ history_file w' = history_file w
    /\ trace w'
       = (trace w ++ evs
          ++ [Run (ssh_command interactive no_deploy d (env w)) status])%list
    /\ (exists e, In (Log Error (ErrorUpdatingHistory e)) evs)
    /\ Forall is_log evs.
Proof.
  intros _ _ Hh.
  set (w0 := emitted (Log Info (ConnectingTo (VStr (device_name d)))) w).
  assert (Hh0 : history_file w0 = Garbage
                \/ (exists doc, history_file w0 = Json doc
                                /\ as_list doc = Raise AttributeError)).
  { replace (history_file w0) with (history_file w)
      by (destruct w; reflexivity). exact Hh. }
  destruct (update_history_unrecorded (api_device d) w0 Hh0) as [e He].
  destruct (connect_to_device_launch d interactive no_deploy w)
    as (cmd & evs0 & Hlaunch & _).
  fold w0 in Hlaunch. rewrite He in Hlaunch. cbn [snd] in Hlaunch.
  destruct (connect_to_device_command d interactive no_deploy w)
    as (evs & status & w' & Hc & Ht & Hl).
  exists evs, status, w'. split; [exact Hc|]. split; [|split; [exact Ht|split]].
  - rewrite Hc in Hlaunch.
    destruct (subprocess_run_history cmd
                (emit_all evs0 (emitted (Log Error (ErrorUpdatingHistory e)) w0)))
      as [_ Hkeep].
    rewrite <- Hlaunch in Hkeep. cbn [snd] in Hkeep. rewrite Hkeep.
    destruct w. reflexivity.
  - exists e.
    destruct (subprocess_run_trace cmd
                (emit_all evs0 (emitted (Log Error (ErrorUpdatingHistory e)) w0)))
      as (status' & w'' & Hrun & Htr).
    rewrite <- Hlaunch, Hc in Hrun. injection Hrun as <-.
    rewrite Htr, trace_emit_all, trace_emitted in Ht. subst w0.
    rewrite trace_emitted, <- !app_assoc in Ht.
    apply app_inv_head in Ht.
    assert (Hin : In (Log Error (ErrorUpdatingHistory e))
                    (evs ++ [Run (ssh_command interactive no_deploy d (env w))
                                 status])%list).
    { rewrite <- Ht. cbn [app]. right. left. reflexivity. }
    apply in_app_or in Hin. destruct Hin as [Hin|[Hin|[]]]; [exact Hin|].
    discriminate Hin.
  - exact Hl.
Qed.

Lemma connect_without_record_witness :
  exists evs status w',
    connect_to_device (api_device web1) false true garbage_history = (Ok tt, w')
    /\ history_file w' = history_file garbage_history
    /\ trace w'
       = (trace garbage_history ++ evs
          ++ [Run (ssh_command false true web1 (env garbage_history)) status])%list
    /\ (exists e, In (Log Error (ErrorUpdatingHistory e)) evs)
    /\ Forall is_log evs.
Proof.
  apply (connect_without_record web1 false true garbage_history).
  - reflexivity.
  - reflexivity.
  - left. reflexivity.
Defined.

(** ** An update that cuts the tags *)

Lemma find_reloaded (name : string) (ds : list Device) :
  find (fun d => String.eqb (device_name d) name) (map reloaded ds)
  = option_map reloaded (find (fun d => String.eqb (device_name d) name) ds).
Proof.
  induction ds as [|d ds IH]; [reflexivity|].
  cbn [map find]. cbn [reloaded device_name].
  destruct (String.eqb (device_name d) name); [reflexivity|exact IH].
Qed.

(** C6, where it fails.  A description-only update of a device read
    through the cache (a list the tool saved; plain texts) sends, as the
    tags of the device, its tags as they come back from the cache: each
    one [reload_tag] of the tag the device has.  A value that holds a
    colon is sent cut at its first colon, so the update changes the tags
    it was to leave alone. *)
Theorem update_sends_cached_tags (name text : string) (t : Z)
    (ds : list Device) (d : Device) (w w1 : world) :
  plain name = true -> plain_world w = true ->
  authenticate w = (Ok true, w1) ->
  cache_file w1 = Json (snapshot t ds) ->
  find (fun d => String.eqb (device_name d) name) ds = Some d ->
  (exists evs,
      trace (snd (update_device name (Some text) None w))
      = (trace w1
         ++ Log Info (CacheFound (format_age (now w1 - t)))
         :: Http (PutDevice name
                    (VDict [("device_name", VStr name);
                            ("host", VStr (host d));
                            ("description", VStr text);
                            ("tags",
                             VList (map api_tag (map reload_tag (tags d))))]))
         :: evs)%list
      /\ count is_put evs = 0)
  /\ (forall k v1 v2,
         colon_free k = true -> colon_free v1 = true ->
         reload_tag (k, (v1 ++ ":" ++ v2)%string) = (k, v1)).
Proof.
  intros _ _ Hauth Hcache Hfind. split.
  - pose proof (get_devices_snapshot t ds w1 Hcache) as Hget.
    assert (Hfd : find_device name (map api_device (map reloaded ds))
                  = Ok (Some (api_device (reloaded d)))).
    { rewrite find_device_api, find_reloaded, Hfind. reflexivity. }
    destruct (update_device_request name w w1 _ _
                (map api_device (map reloaded ds)) (api_device (reloaded d))
                (VStr (host d)) Hauth Hget eq_refl Hfd eq_refl) as [Hdescr _].
    destruct (Hdescr text) as (existing & evs & Hex & Ht & Hc).
    cbn in Hex. injection Hex as <-.
    exists evs. split; [|exact Hc]. rewrite Ht, trace_emitted, <- app_assoc.
    reflexivity.
  - intros k v1 v2 Hk Hv. rewrite reload_tag_cut by exact Hk.
    cbn [fst snd]. rewrite first_segment_cut by exact Hv. reflexivity.
Qed.

Lemma update_sends_cached_tags_witness :
  exists evs,
    trace (snd (update_device "web" (Some "new") None url_world))
    = (trace (snd (authenticate url_world))
       ++ Log Info (CacheFound (format_age (now (snd (authenticate url_world)) - 0)))
       :: Http (PutDevice "web"
                  (VDict [("device_name", VStr "web");
                          ("host", VStr "10.0.0.5");
                          ("description", VStr "new");
                          ("tags", VList [api_tag ("url", "http")])]))
       :: evs)%list
    /\ count is_put evs = 0.
Proof.
  exact (proj1 (update_sends_cached_tags "web" "new" 0 [url1] url1 url_world
                  (snd (authenticate url_world))
                  eq_refl eq_refl eq_refl eq_refl eq_refl)).
Defined.
